(** * Template replay in task_templating.py

    A shallow embedding of [task_templating.py]: the guard of
    [create_tasks_from_template], its questions, the derivation of the
    fields of each task and the rate-limited dispatch loop, together with
    project creation, the pulling of a template into a file, the choice
    of a workspace, a project and a template file, and the main menu.

    The part of Python the program uses is modelled with it: JSON values
    and their truth, [str.replace], the calendar and the [isoformat] of
    [datetime], exceptions.  The three library functions that read text,
    [int], [str.upper] and [datetime.fromisoformat], are parameters: the
    program and the theorems are stated over any runtime that provides
    them.

    Part I holds the definitions, Part II the lemmas and theorems on the
    replay, Part III those on the rest of the program, and Part IV the
    sample runs, computed with a runtime of their own. *)

From Stdlib Require Import ZArith List String Ascii Bool Lia.
Import ListNotations.

Set Warnings "-register-all".

Open Scope string_scope.
Open Scope Z_scope.
Open Scope list_scope.

Notation "a +++ b" := (String.append a b) (at level 60, right associativity).

(* ================================================================== *)
(** * Part I: definitions *)
(* ================================================================== *)

(** ** Python strings *)

(** [s.startswith(p)]. *)
Definition starts_with (p s : string) : bool := String.prefix p s.

(** [s.endswith(p)]. *)
Fixpoint ends_with (p s : string) : bool :=
  if String.eqb p s then true
  else match s with
       | EmptyString => false
       | String _ s' => ends_with p s'
       end.

(** [p in s] for two strings. *)
Fixpoint str_contains (p s : string) : bool :=
  if starts_with p s then true
  else match s with
       | EmptyString => false
       | String _ s' => str_contains p s'
       end.

(** [s.replace(old, new)] for a non-empty [old]: the occurrences of [old]
    are found from the left and do not overlap.  [skip] counts the
    characters of a match that are still to be dropped. *)
Fixpoint replace_from (skip : nat) (old new s : string) : string :=
  match s with
  | EmptyString => EmptyString
  | String c s' =>
    match skip with
    | S k => replace_from k old new s'
    | O =>
      if starts_with old s
      then new +++ replace_from (Nat.pred (String.length old)) old new s'
      else String c (replace_from O old new s')
    end
  end.

Definition str_replace (s old new : string) : string :=
  replace_from O old new s.

Definition char_lower (c : ascii) : ascii :=
  let n := nat_of_ascii c in
  if (Nat.leb 65 n && Nat.leb n 90)%bool then ascii_of_nat (n + 32) else c.

Definition char_upper (c : ascii) : ascii :=
  let n := nat_of_ascii c in
  if (Nat.leb 97 n && Nat.leb n 122)%bool then ascii_of_nat (n - 32) else c.

Fixpoint str_map (f : ascii -> ascii) (s : string) : string :=
  match s with
  | EmptyString => EmptyString
  | String c s' => String (f c) (str_map f s')
  end.

(** [s.lower()], on ASCII text.  The program only compares the result
    with ["y"], and in Python [s.lower() == "y"] holds for ["y"] and
    ["Y"] alone, as it does here. *)
Definition str_lower : string -> string := str_map char_lower.

(** A non-empty string is truthy. *)
Definition str_truthy (s : string) : bool :=
  match s with EmptyString => false | _ => true end.

(** ** Decimal digits *)

Definition digit_val (c : ascii) : option Z :=
  let n := nat_of_ascii c in
  if (Nat.leb 48 n && Nat.leb n 57)%bool then Some (Z.of_nat n - 48) else None.

Definition digit_char (d : Z) : ascii :=
  match d with
  | 0 => "0" | 1 => "1" | 2 => "2" | 3 => "3" | 4 => "4"
  | 5 => "5" | 6 => "6" | 7 => "7" | 8 => "8" | _ => "9"
  end%char.

(** The value of a string of decimal digits, most significant first;
    [None] when a character is not an ASCII digit. *)
Fixpoint digits_from (acc : Z) (s : string) : option Z :=
  match s with
  | EmptyString => Some acc
  | String c s' =>
    match digit_val c with
    | Some d => digits_from (10 * acc + d) s'
    | None => None
    end
  end.

Definition parse_digits (s : string) : option Z :=
  match s with
  | EmptyString => None
  | _ => digits_from 0 s
  end.

(** ["%02d" % n], ["%04d" % n] and ["%06d" % n] for [n] within the width. *)
Definition pad2 (n : Z) : string :=
  String (digit_char (n / 10 mod 10)) (String (digit_char (n mod 10)) "").

Definition pad4 (n : Z) : string := pad2 (n / 100) +++ pad2 (n mod 100).

Definition pad6 (n : Z) : string :=
  pad2 (n / 10000) +++ pad2 (n / 100 mod 100) +++ pad2 (n mod 100).

(** ** JSON values

    What [json.load] and [response.json()] return: [None], booleans,
    numbers, strings, lists, and dictionaries in insertion order.  The
    numbers are integers here: the program only passes numbers through. *)

Inductive json : Type :=
| JNull
| JBool (b : bool)
| JNum (n : Z)
| JStr (s : string)
| JList (l : list json)
| JObj (kv : list (string * json)).

(** Python truthiness. *)
Definition truthy (v : json) : bool :=
  match v with
  | JNull => false
  | JBool b => b
  | JNum n => negb (n =? 0)
  | JStr s => str_truthy s
  | JList l => match l with [] => false | _ => true end
  | JObj kv => match kv with [] => false | _ => true end
  end.

Fixpoint assoc (k : string) (kv : list (string * json)) : option json :=
  match kv with
  | [] => None
  | (k', v) :: kv' => if String.eqb k k' then Some v else assoc k kv'
  end.

(** [d[k] = v] on a dictionary: an existing key keeps its place. *)
Fixpoint dict_set (k : string) (v : json) (kv : list (string * json))
  : list (string * json) :=
  match kv with
  | [] => [(k, v)]
  | (k', v') :: kv' =>
    if String.eqb k k' then (k, v) :: kv' else (k', v') :: dict_set k v kv'
  end.

(** ** Exceptions *)

Inductive exn : Type :=
| KeyError (k : json)
| TypeError
| AttributeError
| ValueError
| OverflowError
| EOFError
| UnicodeDecodeError
| RecursionError
| FileExistsError
| PermissionError
| NotADirectoryError.

Inductive outcome (A : Type) : Type :=
| Ok (a : A)
| Raise (e : exn).

Arguments Ok {A} a.
Arguments Raise {A} e.

Definition is_ok {A : Type} (r : outcome A) : bool :=
  match r with Ok _ => true | Raise _ => false end.

(** [v[k]] for a string key. *)
Definition py_getitem (v : json) (k : string) : outcome json :=
  match v with
  | JObj kv =>
    match assoc k kv with
    | Some x => Ok x
    | None => Raise (KeyError (JStr k))
    end
  | _ => Raise TypeError
  end.

(** [v.get(k, default)]: only dictionaries have the method. *)
Definition py_get (v : json) (k : string) (default : json) : outcome json :=
  match v with
  | JObj kv =>
    match assoc k kv with
    | Some x => Ok x
    | None => Ok default
    end
  | _ => Raise AttributeError
  end.

Definition is_jstr (k : string) (v : json) : bool :=
  match v with JStr s => String.eqb k s | _ => false end.

(** [k in v] for a string [k]: a key of a dictionary, an element of a
    list, a substring of a string. *)
Definition str_in (k : string) (v : json) : outcome bool :=
  match v with
  | JObj kv => Ok (match assoc k kv with Some _ => true | None => false end)
  | JList l => Ok (existsb (is_jstr k) l)
  | JStr s => Ok (str_contains k s)
  | _ => Raise TypeError
  end.

Fixpoint chars_of (s : string) : list json :=
  match s with
  | EmptyString => []
  | String c s' => JStr (String c EmptyString) :: chars_of s'
  end.

(** The items a [for] loop sees. *)
Definition py_iter (v : json) : outcome (list json) :=
  match v with
  | JList l => Ok l
  | JObj kv => Ok (map (fun p => JStr (fst p)) kv)
  | JStr s => Ok (chars_of s)
  | _ => Raise TypeError
  end.

(** [v[i]] for an integer index [0 <= i < len(v)]. *)
Definition py_index (v : json) (i : nat) : outcome json :=
  match v with
  | JList l =>
    match nth_error l i with Some x => Ok x | None => Raise TypeError end
  | JStr s =>
    match nth_error (chars_of s) i with
    | Some x => Ok x
    | None => Raise TypeError
    end
  | JObj _ => Raise (KeyError (JNum (Z.of_nat i)))
  | _ => Raise TypeError
  end.

(** ** The [datetime] module

    The proleptic Gregorian calendar of [datetime], after the reference
    implementation of the standard library. *)

Definition MAXORDINAL : Z := 3652059.
Definition DI400Y : Z := 146097.
Definition DI100Y : Z := 36524.
Definition DI4Y : Z := 1461.

Definition is_leap (year : Z) : bool :=
  ((year mod 4 =? 0) && (negb (year mod 100 =? 0) || (year mod 400 =? 0)))%bool.

Definition days_before_year (year : Z) : Z :=
  let y := year - 1 in
  y * 365 + y / 4 - y / 100 + y / 400.

Definition DAYS_IN_MONTH (month : Z) : Z :=
  match month with
  | 1 => 31 | 2 => 28 | 3 => 31 | 4 => 30 | 5 => 31 | 6 => 30
  | 7 => 31 | 8 => 31 | 9 => 30 | 10 => 31 | 11 => 30 | 12 => 31
  | _ => -1
  end.

Definition DAYS_BEFORE_MONTH (month : Z) : Z :=
  match month with
  | 1 => 0 | 2 => 31 | 3 => 59 | 4 => 90 | 5 => 120 | 6 => 151
  | 7 => 181 | 8 => 212 | 9 => 243 | 10 => 273 | 11 => 304 | 12 => 334
  | _ => -1
  end.

Definition days_in_month (year month : Z) : Z :=
  if ((month =? 2) && is_leap year)%bool then 29 else DAYS_IN_MONTH month.

Definition days_before_month (year month : Z) : Z :=
  DAYS_BEFORE_MONTH month + (if ((2 <? month) && is_leap year)%bool then 1 else 0).

(** Day number of a date, 0001-01-01 being day 1. *)
Definition ymd2ord (year month day : Z) : Z :=
  days_before_year year + days_before_month year month + day.

(** The date of a day number. *)
Definition ord2ymd (ordinal : Z) : Z * Z * Z :=
  let n := ordinal - 1 in
  let n400 := n / DI400Y in
  let n := n mod DI400Y in
  let year := n400 * 400 + 1 in
  let n100 := n / DI100Y in
  let n := n mod DI100Y in
  let n4 := n / DI4Y in
  let n := n mod DI4Y in
  let n1 := n / 365 in
  let n := n mod 365 in
  let year := year + n100 * 100 + n4 * 4 + n1 in
  if ((n1 =? 4) || (n100 =? 4))%bool then (year - 1, 12, 31)
  else
    let leapyear := ((n1 =? 3) && (negb (n4 =? 24) || (n100 =? 3)))%bool in
    let month := Z.shiftr (n + 50) 5 in
    let preceding :=
      DAYS_BEFORE_MONTH month + (if ((2 <? month) && leapyear)%bool then 1 else 0) in
    if n <? preceding
    then
      let month := month - 1 in
      let preceding :=
        preceding
        - (DAYS_IN_MONTH month + (if ((month =? 2) && leapyear)%bool then 1 else 0)) in
      (year, month, n - preceding + 1)
    else (year, month, n - preceding + 1).

(** A [datetime] value.  [tzinfo] is [None] for a naive value and
    otherwise the UTC offset of a fixed [timezone], in microseconds. *)
Record datetime : Type := mkDatetime {
  year : Z;
  month : Z;
  day : Z;
  hour : Z;
  minute : Z;
  second : Z;
  microsecond : Z;
  tzinfo : option Z
}.

Definition as_naive (dt : datetime) : datetime :=
  mkDatetime (year dt) (month dt) (day dt) (hour dt) (minute dt) (second dt)
    (microsecond dt) None.

Definition DAY_US : Z := 86400000000.

(** The checks of the [datetime] and [timezone] constructors. *)
Definition valid_date (y m d : Z) : bool :=
  ((1 <=? y) && (y <=? 9999) && (1 <=? m) && (m <=? 12)
   && (1 <=? d) && (d <=? days_in_month y m))%bool.

Definition valid_time (hh mm ss us : Z) : bool :=
  ((0 <=? hh) && (hh <? 24) && (0 <=? mm) && (mm <? 60)
   && (0 <=? ss) && (ss <? 60) && (0 <=? us) && (us <? 1000000))%bool.

Definition valid_offset (off : Z) : bool :=
  ((- DAY_US <? off) && (off <? DAY_US))%bool.

Definition toordinal (dt : datetime) : Z :=
  ymd2ord (year dt) (month dt) (day dt).

(** [dt + timedelta(days=n)]: the date moves by [n] days, the time of day
    and the time zone stay; a result outside years 1..9999 raises
    [OverflowError]. *)
Definition add_days (dt : datetime) (n : Z) : outcome datetime :=
  let o := toordinal dt + n in
  if ((0 <? o) && (o <=? MAXORDINAL))%bool
  then
    let '(y, m, d) := ord2ymd o in
    Ok (mkDatetime y m d (hour dt) (minute dt) (second dt) (microsecond dt)
          (tzinfo dt))
  else Raise OverflowError.

(** Microseconds since the start of a value's day. *)
Definition time_of_day_us (dt : datetime) : Z :=
  ((hour dt * 60 + minute dt) * 60 + second dt) * 1000000 + microsecond dt.

(** The instant a value denotes, in microseconds from day 0 at 00:00 UTC;
    a naive value is read as UTC. *)
Definition instant_us (dt : datetime) : Z :=
  toordinal dt * DAY_US + time_of_day_us dt
  - match tzinfo dt with Some off => off | None => 0 end.

(** The order of two naive values, as [datetime] compares them: field by
    field from the year down. *)
Definition naive_key (dt : datetime) : list Z :=
  [year dt; month dt; day dt; hour dt; minute dt; second dt; microsecond dt].

Fixpoint lex_leb (a b : list Z) : bool :=
  match a, b with
  | x :: a', y :: b' => if x <? y then true else if y <? x then false else lex_leb a' b'
  | [], _ => true
  | _ :: _, [] => false
  end.

Definition datetime_leb (a b : datetime) : bool :=
  lex_leb (naive_key a) (naive_key b).

(** *** [isoformat] *)

Definition format_time (hh mm ss us : Z) : string :=
  pad2 hh +++ ":" +++ pad2 mm +++ ":" +++ pad2 ss
  +++ (if us =? 0 then "" else "." +++ pad6 us).

(** The seconds of an offset, written when it has any. *)
Definition offset_seconds (ss : Z) : string :=
  if ss =? 0 then ""
  else ":" +++ pad2 (ss / 1000000)
       +++ (if ss mod 1000000 =? 0 then "" else "." +++ pad6 (ss mod 1000000)).

Definition format_offset (tz : option Z) : string :=
  match tz with
  | None => ""
  | Some off =>
    let sign := if off <? 0 then "-" else "+" in
    let a := Z.abs off in
    let hh := a / 3600000000 in
    let rest := a mod 3600000000 in
    let mm := rest / 60000000 in
    let ss := rest mod 60000000 in
    sign +++ pad2 hh +++ ":" +++ pad2 mm +++ offset_seconds ss
  end.

(** The date and time part of [dt.isoformat()], before the offset. *)
Definition isoformat_local (dt : datetime) : string :=
  pad4 (year dt) +++ "-" +++ pad2 (month dt) +++ "-" +++ pad2 (day dt) +++ "T"
  +++ format_time (hour dt) (minute dt) (second dt) (microsecond dt).

Definition isoformat (dt : datetime) : string :=
  isoformat_local dt +++ format_offset (tzinfo dt).

(** ** The library functions that read text

    [int], [str.upper] and [datetime.fromisoformat] are functions of the
    Python runtime, not of the program, and what they accept depends on
    the version of the runtime and on all of Unicode.  The program is
    modelled over any runtime: [py_int s] is [Some n] when [int(s)]
    returns [n] and [None] when it raises [ValueError], [str_upper s] is
    [s.upper()], and [fromisoformat s] is [Some dt] when
    [datetime.fromisoformat(s)] returns [dt] and [None] when it raises
    [ValueError].  On a [str] these calls raise nothing else. *)

Class Runtime : Type := {
  py_int : string -> option Z;
  str_upper : string -> string;
  fromisoformat : string -> option datetime
}.

(** ** The world the program runs in

    What the operator types, what the clock shows, the files of the
    template directory and what the remote service answers are inputs of a
    run; what the program prints, requests and sleeps is its trace. *)

Inductive prompt : Type :=
| AskDueDateDelta      (* "Enter the number of days in the future ..." *)
| AskNewProject        (* "Create a new project for these tasks (y/n)? " *)
| AskProjectName       (* "Enter the name for the new project: " *)
| AskPriority          (* "Enter priority value (ASAP, HIGH, MEDIUM, LOW, ...):" *)
| AskAutoschedule      (* "Enable autoscheduling (y/n)? " *)
| AskSchedule.         (* "Enter the number of the schedule to use for ALL tasks ..." *)

Inductive message : Type :=
| MsgErrorFetching                     (* "Error fetching data: ..." *)
| MsgErrorPosting                      (* "Error posting data: ..." *)
| MsgNoSchedules                       (* "Could not retrieve schedules." *)
| MsgTemplateNotFound (file : string)  (* "Error: Template file not found: ..." *)
| MsgTemplateInvalidJson (file : string) (* "Error: Invalid JSON in template file: ..." *)
| MsgTemplateUnreadable (file : string)  (* "Error reading the file ..." *)
| MsgProjectNameEmpty                  (* "Project name cannot be empty. ..." *)
| MsgInvalidInputDefault               (* "Invalid input. Using default due date." *)
| MsgPriorityReverted                  (* "Value is not right. Reverting to default (MEDIUM)" *)
| MsgProjectCreated (name : string) (id : json)
| MsgProjectError (name : string)
| MsgInvalidTemplate                   (* "Invalid template format." *)
| MsgAvailableSchedules                (* "\nAvailable Schedules:" *)
| MsgScheduleItem (i : nat) (name : json)
| MsgNoScheduleSelected                (* "No schedule selected. Proceeding without." *)
| MsgInvalidSelection                  (* "Invalid selection. Please try again." *)
| MsgInvalidNumber                     (* "Invalid input. Please enter a number." *)
| MsgCreatingTask (i total : nat)      (* "Creating task i/total..." *)
| MsgInvalidDate (s : json)            (* "Invalid date ..., setting to today. ..." *)
| MsgTaskCreated (name id : json)      (* "Task '...' created successfully! (ID: ...)" *)
| MsgTaskError (name : json)           (* "Error creating task '...'." *)
| MsgPayloadSent (payload : json)      (* "Payload sent: `...`" *)
| MsgSummary (successes : Z) (total : nat) (failures : Z).
                                       (* "Task Creations Completed with ..." *)

Inductive event : Type :=
| EInput (p : prompt)
| EPrint (m : message)
| EGet (url : string) (params : option json)
| EPost (url : string) (data : json)
| ESleep (seconds : Z).

(** What opening and decoding a template file gives: each of the three
    exceptions [load_template] catches, a decoded value, and the two
    exceptions of [json.load] that it does not catch. *)
Inductive file_state : Type :=
| FileMissing          (* [open] raises [FileNotFoundError] *)
| FileUnreadable       (* [open] or the reading raises another [OSError] *)
| FileInvalidJson      (* [json.load] raises [JSONDecodeError] *)
| FileJson (v : json)  (* [json.load] returns [v] *)
| FileUndecodable      (* the bytes are no text: [UnicodeDecodeError] *)
| FileTooDeep.         (* nested beyond the recursion limit: [RecursionError] *)

Record world : Type := mkWorld {
  stdin : list string;            (* the lines the operator will type *)
  clock : nat -> datetime;        (* the k-th reading of [datetime.utcnow()] *)
  ticks : nat;                    (* readings taken so far *)
  server : nat -> option json;    (* the decoded body of the k-th response,
                                     [None] for a [RequestException]: no
                                     response, an error status, a body
                                     that is no JSON *)
  requests : nat;                 (* requests sent so far *)
  files : string -> file_state    (* the template directory *)
}.

(** The world after the operator has typed, after a reading of the
    clock, and after an answer of the service. *)
Definition typed (rest : list string) (w : world) : world :=
  mkWorld rest (clock w) (ticks w) (server w) (requests w) (files w).

Definition ticked (w : world) : world :=
  mkWorld (stdin w) (clock w) (S (ticks w)) (server w) (requests w) (files w).

Definition served (w : world) : world :=
  mkWorld (stdin w) (clock w) (ticks w) (server w) (S (requests w)) (files w).

(** A run of an action: its result, the world it leaves and the events it
    caused, oldest first.  An exception keeps the events before it. *)
Record run (A : Type) : Type := mkRun {
  result : outcome A;
  final : world;
  events : list event
}.

Arguments mkRun {A} result final events.
Arguments result {A} r.
Arguments final {A} r.
Arguments events {A} r.

Definition M (A : Type) : Type := world -> run A.

Definition ret {A : Type} (a : A) : M A := fun w => mkRun (Ok a) w [].

(** A run that comes after the events [evs]. *)
Definition prepend {A : Type} (evs : list event) (r : run A) : run A :=
  mkRun (result r) (final r) (evs ++ events r).

Definition bind {A B : Type} (m : M A) (f : A -> M B) : M B :=
  fun w =>
    let r := m w in
    match result r with
    | Ok a => prepend (events r) (f a (final r))
    | Raise e => mkRun (Raise e) (final r) (events r)
    end.

Notation "x <- m ;; k" := (bind m (fun x => k))
  (at level 61, m at next level, right associativity).
Notation "' pat <- m ;; k" := (bind m (fun x => match x with pat => k end))
  (at level 61, pat pattern, m at next level, right associativity).
Notation "m ;;; k" := (bind m (fun _ => k))
  (at level 61, right associativity).

(** A pure computation that may raise. *)
Definition lift {A : Type} (r : outcome A) : M A := fun w => mkRun r w [].

Definition emit (e : event) : M unit := fun w => mkRun (Ok tt) w [e].

Definition print (m : message) : M unit := emit (EPrint m).

(** [input(prompt)]; the end of the operator's input is [EOFError]. *)
Definition input (p : prompt) : M string :=
  fun w =>
    match stdin w with
    | line :: rest => mkRun (Ok line) (typed rest w) [EInput p]
    | [] => mkRun (Raise EOFError) w [EInput p]
    end.

(** [datetime.utcnow()]: the clock's reading as a naive value. *)
Definition utcnow : M datetime :=
  fun w => mkRun (Ok (as_naive (clock w (ticks w)))) (ticked w) [].

(** [time.sleep(seconds)]. *)
Definition sleep (seconds : Z) : M unit := emit (ESleep seconds).

(** One HTTP exchange: the request goes out and the service's next answer
    comes back. *)
Definition exchange (e : event) : M (option json) :=
  fun w => mkRun (Ok (server w (requests w))) (served w) [e].

(** ** The remote service gateway *)

Definition API_URL : string := "https://api.usemotion.com/v1".
Definition schedules_url : string := API_URL +++ "/schedules".
Definition projects_url : string := API_URL +++ "/projects".
Definition tasks_url : string := API_URL +++ "/tasks".

(** [get_data(url, params)]: the decoded body, or [None] after reporting a
    failed request. *)
Definition get_data (url : string) (params : option json) : M json :=
  r <- exchange (EGet url params) ;;
  match r with
  | Some body => ret body
  | None => print MsgErrorFetching ;;; ret JNull
  end.

(** [post_data(url, data)]. *)
Definition post_data (url : string) (data : json) : M json :=
  r <- exchange (EPost url data) ;;
  match r with
  | Some body => ret body
  | None => print MsgErrorPosting ;;; ret JNull
  end.

(** [list_schedules()]. *)
Definition list_schedules : M json :=
  schedules_data <- get_data schedules_url None ;;
  if truthy schedules_data then ret schedules_data
  else print MsgNoSchedules ;;; ret JNull.

(** The test [response and "id" in response]. *)
Definition has_id (response : json) : outcome bool :=
  if truthy response then str_in "id" response else Ok false.

(** ** Template files *)

(** [load_template(filename)]. *)
Definition load_template (filename : string) : M json :=
  fun w =>
    match files w filename with
    | FileJson v => ret v w
    | FileMissing => (print (MsgTemplateNotFound filename) ;;; ret JNull) w
    | FileInvalidJson => (print (MsgTemplateInvalidJson filename) ;;; ret JNull) w
    | FileUnreadable => (print (MsgTemplateUnreadable filename) ;;; ret JNull) w
    | FileUndecodable => lift (Raise UnicodeDecodeError) w
    | FileTooDeep => lift (Raise RecursionError) w
    end.

Definition FALLBACK_DUE_DATE : string := "2024-12-31T23:59:59Z".

Definition obind_outcome {A B : Type} (r : outcome A) (f : A -> outcome B)
  : outcome B :=
  match r with
  | Ok a => f a
  | Raise e => Raise e
  end.

(** The entry [generate_task_template] stores for one task of the project. *)
Definition template_entry (workspace task : json) : outcome json :=
  obind_outcome (py_get task "name" (JStr "")) (fun name =>
  obind_outcome (py_getitem workspace "id") (fun workspace_id =>
  obind_outcome (py_get task "dueDate" (JStr FALLBACK_DUE_DATE)) (fun due =>
  obind_outcome (py_get task "duration" (JNum 30)) (fun duration =>
  obind_outcome (py_get task "priority" (JStr "MEDIUM")) (fun priority =>
  Ok (JObj [("name", name); ("workspaceId", workspace_id); ("dueDate", due);
            ("duration", duration); ("priority", priority)])))))).

Fixpoint template_entries (workspace : json) (tasks : list json)
  : outcome (list json) :=
  match tasks with
  | [] => Ok []
  | task :: rest =>
    obind_outcome (template_entry workspace task) (fun e =>
    obind_outcome (template_entries workspace rest) (fun es => Ok (e :: es)))
  end.

(** The template [generate_task_template(workspace, project, tasks)]
    writes; the name and the writing of the file are left out. *)
Definition generate_task_template (workspace : json) (tasks : list json)
  : outcome json :=
  obind_outcome (template_entries workspace tasks) (fun template_tasks =>
  Ok (JObj [("tasks", JList template_tasks)])).

(** ** The interactive layer

    The menus around the core: the choice of a workspace, of a project and
    of a template file, the pulling of a template from the tasks of a
    project, and the main menu. *)

Definition workspaces_url : string := API_URL +++ "/workspaces".
Definition TEMPLATES_DIR : string := "templates".

Inductive menu_prompt : Type :=
| AskWorkspace      (* "Enter the number of the workspace you want to select: " *)
| AskProject        (* "Enter the number of the project you want to select: " *)
| AskTemplateFile   (* "Enter the number of the template file to use (or leave blank ...): " *)
| AskMenuChoice.    (* "Enter your choice: " *)

Inductive menu_message : Type :=
| MsgNoWorkspacesData                 (* "Could not retrieve workspaces." *)
| MsgNoWorkspaces                     (* "No workspaces found." *)
| MsgAvailableWorkspaces              (* "Available Workspaces:" *)
| MsgWorkspaceItem (i : nat) (name id : json)
| MsgNoProjectsData                   (* "Could not retrieve projects." *)
| MsgNoProjects                       (* "No projects found in this workspace." *)
| MsgAvailableProjects                (* "Available Projects:" *)
| MsgProjectItem (i : nat) (name id : json)
| MsgNoTasksData                      (* "Could not retrieve tasks for this project." *)
| MsgTemplateCreated (filepath : string)
                                      (* "Template file created successfully at: ..." *)
| MsgTemplateWriteError               (* "Error writing template file: ..." *)
| MsgTemplateDirNotFound              (* "Template directory not found: templates" *)
| MsgNoTemplateFiles                  (* "No template files found." *)
| MsgAvailableTemplates               (* "Available Task Group Templates:" *)
| MsgTemplateItem (i : nat) (filename : string)
| MsgNumberOrBlank                    (* "Invalid input. Please enter a number or leave blank." *)
| MsgMainMenu                         (* "\nMain Menu:" *)
| MsgMenuPull                         (* "1. Pull Task Group Template from Existing Tasks" *)
| MsgMenuCreate                       (* "2. Create Tasks from Task Group Template" *)
| MsgMenuExit                         (* "3. Exit" *)
| MsgWithoutTemplate                  (* "Creating tasks without a template. Directing to step 1." *)
| MsgNoProjectGiven                   (* "No project was given to create a template from. ..." *)
| MsgExiting                          (* "Exiting..." *)
| MsgInvalidChoice.                   (* "Invalid choice. Please try again." *)

(** What a session does: the events of the core, the questions and
    messages of the menus, and the accesses to the template directory. *)
Inductive action : Type :=
| Core (e : event)
| Ask (p : menu_prompt)
| Say (m : menu_message)
| ListDir                                       (* os.listdir(TEMPLATES_DIR) *)
| MakeDirs                                      (* os.makedirs(TEMPLATES_DIR) *)
| WriteFile (filename : string) (content : json) (* json.dump into the opened file *)
| SpoilFile (filename : string).                (* the file is opened and left unfinished *)

(** What is at the path of the template directory: nothing; a directory
    that can be listed, with its names; or something whose listing raises
    an [OSError] other than [FileNotFoundError] (a file in the place of
    the directory, a directory that may not be read). *)
Inductive dir_state : Type :=
| DirMissing
| DirHolds (names : list string)
| DirBarred (e : exn).

(** What [open(filepath, "w")] and [json.dump] do to a file: it is
    written; it cannot be opened; or it is opened, and so emptied, and the
    writing fails.  The two failures are [IOError]s. *)
Inductive write_result : Type :=
| Written
| NotOpened
| Spoiled.

(** Besides the world of the core a session has the local clock, the
    template directory, what [os.makedirs] raises when it fails, and what
    becomes of a file that is written. *)
Record session : Type := mkSession {
  base : world;
  local_clock : nat -> datetime;        (* the k-th reading of [datetime.now()] *)
  local_ticks : nat;
  directory : dir_state;
  makedirs_error : option exn;
  writing : string -> write_result
}.

Definition with_base (w : world) (s : session) : session :=
  mkSession w (local_clock s) (local_ticks s) (directory s) (makedirs_error s)
    (writing s).

Record play (A : Type) : Type := mkPlay {
  outcome_of : outcome A;
  after : session;
  trace : list action
}.

Arguments mkPlay {A} outcome_of after trace.
Arguments outcome_of {A} p.
Arguments after {A} p.
Arguments trace {A} p.

Definition IO (A : Type) : Type := session -> play A.

Definition io_ret {A : Type} (a : A) : IO A := fun s => mkPlay (Ok a) s [].

Definition io_prepend {A : Type} (acts : list action) (r : play A) : play A :=
  mkPlay (outcome_of r) (after r) (acts ++ trace r).

Definition io_bind {A B : Type} (m : IO A) (f : A -> IO B) : IO B :=
  fun s =>
    let r := m s in
    match outcome_of r with
    | Ok a => io_prepend (trace r) (f a (after r))
    | Raise e => mkPlay (Raise e) (after r) (trace r)
    end.

Notation "x <~ m ;; k" := (io_bind m (fun x => k))
  (at level 61, m at next level, right associativity).
Notation "m ~;; k" := (io_bind m (fun _ => k))
  (at level 61, right associativity).

Definition io_lift {A : Type} (r : outcome A) : IO A := fun s => mkPlay r s [].

(** An action of the core, run in the world of the session. *)
Definition core {A : Type} (m : M A) : IO A :=
  fun s =>
    let r := m (base s) in
    mkPlay (result r) (with_base (final r) s) (map Core (events r)).

Definition say (m : menu_message) : IO unit := fun s => mkPlay (Ok tt) s [Say m].

(** [input(prompt)] for the questions of the menus. *)
Definition ask (p : menu_prompt) : IO string :=
  fun s =>
    match stdin (base s) with
    | line :: rest => mkPlay (Ok line) (with_base (typed rest (base s)) s) [Ask p]
    | [] => mkPlay (Raise EOFError) s [Ask p]
    end.

(** [datetime.now()]. *)
Definition local_now : IO datetime :=
  fun s =>
    mkPlay (Ok (as_naive (local_clock s (local_ticks s))))
      (mkSession (base s) (local_clock s) (S (local_ticks s)) (directory s)
         (makedirs_error s) (writing s))
      [].

(** The test [not data or key not in data]. *)
Definition lacks (key : string) (data : json) : outcome bool :=
  if negb (truthy data) then Ok true
  else obind_outcome (str_in key data) (fun b => Ok (negb b)).

(** The program, over a runtime. *)

Section WithRuntime.

Context {rt : Runtime}.

(** ** Project creation *)

Definition str_mem (s : string) (l : list string) : bool :=
  existsb (String.eqb s) l.

(** The due date [.isoformat().replace("+00:00", "Z")] writes. *)
Definition iso_z (dt : datetime) : string :=
  str_replace (isoformat dt) "+00:00" "Z".

(** [create_project(workspace, due_date_delta)], called with the integer
    the caller has already converted. *)
Definition create_project (workspace : json) (due_date_delta : Z) : M json :=
  project_name <- input AskProjectName ;;
  if negb (str_truthy project_name)
  then print MsgProjectNameEmpty ;;; ret JNull
  else
    let due_date_delta := if due_date_delta =? 0 then 0 else due_date_delta in
    priority <- input AskPriority ;;
    priority <-
      (if negb (str_truthy priority) then ret "MEDIUM"
       else if negb (str_mem (str_upper priority) ["ASAP"; "HIGH"; "MEDIUM"; "LOW"])
            then print MsgPriorityReverted ;;; ret "MEDIUM"
            else ret (str_upper priority)) ;;
    new_date <- utcnow ;;
    new_date <-
      (if negb (due_date_delta =? 0)
       then now <- utcnow ;; lift (add_days now due_date_delta)
       else ret new_date) ;;
    let new_date := iso_z new_date in
    workspace_id <- lift (py_getitem workspace "id") ;;
    let post_payload :=
      JObj [("name", JStr project_name); ("workspaceId", workspace_id);
            ("priority", JStr priority); ("dueDate", JStr new_date)] in
    response <- post_data projects_url post_payload ;;
    ok <- lift (has_id response) ;;
    if ok
    then
      id <- lift (py_getitem response "id") ;;
      print (MsgProjectCreated project_name id) ;;;
      ret id
    else print (MsgProjectError project_name) ;;; ret JNull.

(** ** Task creation from a template *)

(** The parameters of one dispatch, fixed before the loop starts. *)
Record run_params : Type := mkParams {
  workspace : json;
  due_date_delta : Z;
  project_id : json;
  selected_schedule : json;
  use_autoschedule : bool
}.

Definition DELAY_SECONDS : Z := 8.

(** The listing of the schedules before the operator chooses. *)
Fixpoint print_schedules (i : nat) (items : list json) : M unit :=
  match items with
  | [] => ret tt
  | schedule :: rest =>
    name <- lift (py_getitem schedule "name") ;;
    print (MsgScheduleItem (S i) name) ;;;
    print_schedules (S i) rest
  end.

(** The [while True] loop that asks for a schedule, over the lines still
    to be typed: the choice, the lines left and the events. *)
Fixpoint choose_schedule (schedules : json) (count : nat) (lines : list string)
  : outcome json * list string * list event :=
  match lines with
  | [] => (Raise EOFError, [], [EInput AskSchedule])
  | schedule_choice :: rest =>
    if negb (str_truthy schedule_choice)
    then (Ok JNull, rest, [EInput AskSchedule; EPrint MsgNoScheduleSelected])
    else
      match py_int schedule_choice with
      | None =>
        let '(r, rest', evs) := choose_schedule schedules count rest in
        (r, rest', EInput AskSchedule :: EPrint MsgInvalidNumber :: evs)
      | Some choice =>
        if choice =? 0 then (Ok JNull, rest, [EInput AskSchedule])
        else if ((1 <=? choice) && (choice <=? Z.of_nat count))%bool
        then
          (obind_outcome (py_index schedules (Z.to_nat (choice - 1)))
             (fun schedule => py_getitem schedule "name"),
           rest, [EInput AskSchedule])
        else
          let '(r, rest', evs) := choose_schedule schedules count rest in
          (r, rest', EInput AskSchedule :: EPrint MsgInvalidSelection :: evs)
      end
  end.

Definition select_schedule (schedules : json) (count : nat) : M json :=
  fun w =>
    let '(r, rest, evs) := choose_schedule schedules count (stdin w) in
    mkRun r (typed rest w) evs.

(** [original_due_date.replace("Z", "+00:00")]: a method of [str] only. *)
Definition replace_method (v : json) (old new : string) : outcome string :=
  match v with
  | JStr s => Ok (str_replace s old new)
  | _ => Raise AttributeError
  end.

(** The due date of one task: the stored date moved by the offset, or the
    current time when the stored text does not parse. *)
Definition derive_due_date (delta : Z) (task_data : json) : M datetime :=
  original_due_date <- lift (py_get task_data "dueDate" (JStr FALLBACK_DUE_DATE)) ;;
  text <- lift (replace_method original_due_date "Z" "+00:00") ;;
  match fromisoformat text with
  | Some parsed => lift (add_days parsed delta)
  | None => print (MsgInvalidDate original_due_date) ;;; utcnow
  end.

(** The [autoScheduled] block, stamped with the time of its making. *)
Definition auto_block (now : datetime) (schedule : json) : json :=
  JObj [("startDate", JStr (iso_z now)); ("deadlineType", JStr "SOFT");
        ("schedule", schedule)].

Definition auto_scheduled (schedule : json) : M json :=
  now <- utcnow ;;
  ret (auto_block now schedule).

(** The creation payload of one task. *)
Definition build_payload (P : run_params) (task_data : json)
  : M (list (string * json)) :=
  due_date <- derive_due_date (due_date_delta P) task_data ;;
  let due_date_str := iso_z due_date in
  name <- lift (py_getitem task_data "name") ;;
  workspace_id <- lift (py_getitem (workspace P) "id") ;;
  duration <- lift (py_get task_data "duration" (JNum 30)) ;;
  priority <- lift (py_getitem task_data "priority") ;;
  let post_payload :=
    [("name", name); ("workspaceId", workspace_id); ("dueDate", JStr due_date_str);
     ("duration", duration); ("priority", priority)] in
  let post_payload :=
    if truthy (project_id P)
    then dict_set "projectId" (project_id P) post_payload
    else post_payload in
  if truthy (selected_schedule P)
  then
    block <- auto_scheduled (selected_schedule P) ;;
    ret (dict_set "autoScheduled" block post_payload)
  else if (use_autoschedule P && negb (truthy (selected_schedule P)))%bool
  then
    block <- auto_scheduled (JStr "Work Hours") ;;
    ret (dict_set "autoScheduled" block post_payload)
  else ret post_payload.

(** One turn of the loop: derive, submit, count, sleep. *)
Definition dispatch_task (P : run_params) (total i : nat) (task_data : json)
    (counts : Z * Z) : M (Z * Z) :=
  let '(task_successes, task_failures) := counts in
  print (MsgCreatingTask (S i) total) ;;;
  post_payload <- build_payload P task_data ;;
  response <- post_data tasks_url (JObj post_payload) ;;
  ok <- lift (has_id response) ;;
  counts' <-
    (if ok
     then
       name <- lift (py_getitem task_data "name") ;;
       id <- lift (py_getitem response "id") ;;
       print (MsgTaskCreated name id) ;;;
       ret (task_successes + 1, task_failures)
     else
       name <- lift (py_getitem task_data "name") ;;
       print (MsgTaskError name) ;;;
       print (MsgPayloadSent (JObj post_payload)) ;;;
       ret (task_successes, task_failures + 1)) ;;
  sleep DELAY_SECONDS ;;;
  ret counts'.

(** The [for] loop over the task specs, from index [i] on. *)
Fixpoint dispatch_loop (P : run_params) (total i : nat) (tasks : list json)
    (counts : Z * Z) : M (Z * Z) :=
  match tasks with
  | [] => ret counts
  | task_data :: rest =>
    counts' <- dispatch_task P total i task_data counts ;;
    dispatch_loop P total (S i) rest counts'
  end.

(** The guard [not template or "tasks" not in template]. *)
Definition invalid_template (template : json) : outcome bool :=
  if negb (truthy template) then Ok true
  else obind_outcome (str_in "tasks" template) (fun b => Ok (negb b)).

(** The questions asked before the loop. *)
Definition gather_params (workspace : json) : M run_params :=
  due_date_delta <- input AskDueDateDelta ;;
  due_date_delta <-
    (if str_truthy due_date_delta
     then match py_int due_date_delta with
          | Some n => ret n
          | None => print MsgInvalidInputDefault ;;; ret 0
          end
     else ret 0) ;;
  answer <- input AskNewProject ;;
  project_id <-
    (if String.eqb (str_lower answer) "y"
     then create_project workspace due_date_delta
     else ret JNull) ;;
  answer <- input AskAutoschedule ;;
  let use_autoschedule := String.eqb (str_lower answer) "y" in
  schedules <- list_schedules ;;
  selected_schedule <-
    (if truthy schedules
     then
       print MsgAvailableSchedules ;;;
       items <- lift (py_iter schedules) ;;
       print_schedules O items ;;;
       select_schedule schedules (List.length items)
     else ret JNull) ;;
  ret (mkParams workspace due_date_delta project_id selected_schedule use_autoschedule).

(** The task specs of a template, as the loop meets them. *)
Definition tasks_of (template : json) : outcome (list json) :=
  obind_outcome (py_getitem template "tasks") py_iter.

(** [create_tasks_from_template(workspace, template)]. *)
Definition create_tasks_from_template (workspace template : json) : M unit :=
  invalid <- lift (invalid_template template) ;;
  if (invalid : bool) then print MsgInvalidTemplate
  else
    P <- gather_params workspace ;;
    tasks <- lift (tasks_of template) ;;
    let total := List.length tasks in
    ' (task_successes, task_failures) <- dispatch_loop P total O tasks (0, 0) ;;
    print (MsgSummary task_successes total task_failures).

(** The branch of [main_menu] that replays a chosen template file. *)
Definition replay_template_file (workspace : json) (filename : string) : M unit :=
  template <- load_template filename ;;
  if truthy template then create_tasks_from_template workspace template
  else ret tt.

(** ** Observations on a trace *)

(** Characters that [isoformat] writes before the offset. *)
Definition iso_char (c : ascii) : bool :=
  match digit_val c with
  | Some _ => true
  | None => (Ascii.eqb c "-" || Ascii.eqb c "T" || Ascii.eqb c ":" || Ascii.eqb c ".")%bool%char
  end.

Fixpoint all_chars (p : ascii -> bool) (s : string) : bool :=
  match s with
  | EmptyString => true
  | String c s' => (p c && all_chars p s')%bool
  end.

(** The payloads submitted to the task endpoint, in order. *)
Fixpoint task_posts (evs : list event) : list json :=
  match evs with
  | [] => []
  | EPost url data :: evs' =>
    if String.eqb url tasks_url then data :: task_posts evs' else task_posts evs'
  | _ :: evs' => task_posts evs'
  end.

(** The sleeps of a trace, in order. *)
Fixpoint sleeps (evs : list event) : list Z :=
  match evs with
  | [] => []
  | ESleep n :: evs' => n :: sleeps evs'
  | _ :: evs' => sleeps evs'
  end.

(** The requests and sleeps of a trace: what the rate limit is about. *)
Definition paced (e : event) : bool :=
  match e with
  | EPost _ _ | EGet _ _ | ESleep _ => true
  | _ => false
  end.

Definition pace (evs : list event) : list event := filter paced evs.

(** One submission followed by its delay. *)
Definition submit_then_sleep (payload : list (string * json)) : list event :=
  [EPost tasks_url (JObj payload); ESleep DELAY_SECONDS].

(** The text whose date a task spec is given: its [dueDate] string, or the
    fallback constant when the key is absent. *)
Definition due_text (kv : list (string * json)) : option string :=
  match assoc "dueDate" kv with
  | Some (JStr s) => Some s
  | Some _ => None
  | None => Some FALLBACK_DUE_DATE
  end.

(** What [fromisoformat] is applied to. *)
Definition due_parse (s : string) : option datetime :=
  fromisoformat (str_replace s "Z" "+00:00").

(** A task spec from which a payload can be derived: a dictionary with a
    name and a priority, whose due date is a string that either does not
    parse or stays a [datetime] after the shift; and a workspace with an
    id. *)
Definition derivable (P : run_params) (task_data : json) : bool :=
  match task_data with
  | JObj kv =>
    match assoc "name" kv, assoc "priority" kv, due_text kv with
    | Some _, Some _, Some s =>
      (is_ok (py_getitem (workspace P) "id")
       && match due_parse s with
          | Some parsed => is_ok (add_days parsed (due_date_delta P))
          | None => true
          end)%bool
    | _, _, _ => false
    end
  | _ => false
  end.

(** What [post_data] hands back. *)
Definition answer (r : option json) : json :=
  match r with
  | Some body => body
  | None => JNull
  end.

(** An answer the loop can count: the test for an id and the reading of
    the id do not raise.  [None] and every dictionary are such. *)
Definition countable (v : json) : bool :=
  match has_id v with
  | Ok true => is_ok (py_getitem v "id")
  | Ok false => true
  | Raise _ => false
  end.

(** The run of the loop over [tasks] as a list of steps, each the world
    its payload was built in and the payload: the worlds share the clock
    [clk] and their clock readings go forward from [t]. *)
Fixpoint steps_of (P : run_params) (clk : nat -> datetime) (t : nat)
    (tasks : list json) (steps : list (world * list (string * json))) : Prop :=
  match tasks, steps with
  | [], [] => True
  | task_data :: tasks', (w, payload) :: steps' =>
    clock w = clk /\ (t <= ticks w)%nat
    /\ result (build_payload P task_data w) = Ok payload
    /\ steps_of P clk (ticks (final (build_payload P task_data w))) tasks' steps'
  | _, _ => False
  end.

(** The [startDate] of a payload's [autoScheduled] block. *)
Definition start_date (payload : list (string * json)) : option json :=
  match assoc "autoScheduled" payload with
  | Some (JObj block) => assoc "startDate" block
  | _ => None
  end.

(** The schedule name of a payload's [autoScheduled] block. *)
Definition schedule_of (payload : list (string * json)) : option json :=
  match assoc "autoScheduled" payload with
  | Some (JObj block) => assoc "schedule" block
  | _ => None
  end.

(** A clock that never steps back. *)
Definition monotone_clock (w : world) : Prop :=
  forall a b : nat, (a <= b)%nat -> datetime_leb (clock w a) (clock w b) = true.

(** A rejected template: the message, and nothing else happens. *)
Definition rejected (r : run unit) (w : world) : Prop :=
  result r = Ok tt /\ final r = w /\ events r = [EPrint MsgInvalidTemplate].

(** The parts of the world an action leaves alone. *)
Definition same_but_ticks (w w' : world) : Prop :=
  clock w' = clock w /\ server w' = server w /\ files w' = files w
  /\ stdin w' = stdin w /\ requests w' = requests w
  /\ (ticks w <= ticks w')%nat.

(** The answers with an id among the [n] answers from the [k]-th on. *)
Fixpoint ids_answered (srv : nat -> option json) (k n : nat) : Z :=
  match n with
  | O => 0
  | S n' =>
    (match has_id (answer (srv k)) with Ok true => 1 | _ => 0 end)
    + ids_answered srv (S k) n'
  end.

(** The requests and sleeps of a run of steps. *)
Definition submissions (steps : list (world * list (string * json))) : list event :=
  flat_map (fun st => submit_then_sleep (snd st)) steps.

(** Events of the preparation of a run: no task is submitted and nothing
    sleeps. *)
Definition preparatory (e : event) : bool :=
  match e with
  | EPost url _ => negb (String.eqb url tasks_url)
  | ESleep _ => false
  | _ => true
  end.

Definition calm {A : Type} (m : M A) : Prop :=
  forall w : world, forallb preparatory (events (m w)) = true.

(** No action changes what the service will answer or what the clock
    will show. *)
Definition steady {A : Type} (m : M A) : Prop :=
  forall w : world,
    server (final (m w)) = server w /\ clock (final (m w)) = clock w
    /\ files (final (m w)) = files w.

(** A payload built from a task spec, in some world. *)
Definition built_from (P : run_params) (task_data : json)
    (payload : list (string * json)) : Prop :=
  exists w : world, result (build_payload P task_data w) = Ok payload.

(** What a successful action returns. *)
Definition returns {A : Type} (Q : A -> Prop) (m : M A) : Prop :=
  forall (w : world) (a : A), result (m w) = Ok a -> Q a.

(** ** A runtime for the sample runs

    The theorems hold for every runtime.  The sample runs are computed
    with this one, which is CPython's on the texts it reads: [plain_int]
    reads a decimal numeral of ASCII digits with an optional sign and
    white space around it, as [int] does, and nothing else;
    [plain_upper] is [str.upper] on ASCII text; [plain_fromisoformat]
    reads the extended format
    [YYYY-MM-DD[*HH[:MM[:SS[.fff[fff]]]][+HH:MM[:SS[.ffffff]]]]] with [*]
    any one character, which is all that [datetime.fromisoformat] reads
    in Python 3.7 to 3.10 and a part of what it reads from 3.11 on, with
    the same values.  The texts of the samples are within these. *)

Definition is_space (c : ascii) : bool :=
  let n := nat_of_ascii c in
  ((Nat.leb 9 n && Nat.leb n 13) || Nat.eqb n 32)%bool.

Fixpoint lstrip (s : string) : string :=
  match s with
  | String c s' => if is_space c then lstrip s' else s
  | EmptyString => EmptyString
  end.

(** Drops trailing white space: [rstrip s] is [s] without it. *)
Fixpoint rstrip (s : string) : string :=
  match s with
  | EmptyString => EmptyString
  | String c s' =>
    match rstrip s' with
    | EmptyString => if is_space c then EmptyString else String c EmptyString
    | r => String c r
    end
  end.

(** The digits of a numeral, within the length [int] converts. *)
Definition parse_numeral (ds : string) : option Z :=
  if Nat.leb (String.length ds) 4300 then parse_digits ds else None.

(** [int(s)] on a decimal numeral: surrounding white space, an optional
    sign and ASCII digits. *)
Definition plain_int (s : string) : option Z :=
  match rstrip (lstrip s) with
  | String "-" ds => option_map Z.opp (parse_numeral ds)
  | String "+" ds => parse_numeral ds
  | ds => parse_numeral ds
  end.

(** [s.upper()] on ASCII text. *)
Definition plain_upper : string -> string := str_map char_upper.

Definition obind {A B : Type} (o : option A) (f : A -> option B) : option B :=
  match o with
  | Some a => f a
  | None => None
  end.

Definition two_digits (a b : ascii) : option Z :=
  obind (digit_val a) (fun x => obind (digit_val b) (fun y => Some (10 * x + y))).

(** The fraction of a second: three or six digits. *)
Definition parse_fraction (f : string) : option Z :=
  match String.length f with
  | 3%nat => option_map (fun ms => ms * 1000) (parse_digits f)
  | 6%nat => parse_digits f
  | _ => None
  end.

(** [HH[:MM[:SS[.fff[fff]]]]]. *)
Definition parse_hh_mm_ss_ff (s : string) : option (Z * Z * Z * Z) :=
  match s with
  | String h1 (String h2 r) =>
    obind (two_digits h1 h2) (fun hh =>
    match r with
    | EmptyString => Some (hh, 0, 0, 0)
    | String ":" (String m1 (String m2 r)) =>
      obind (two_digits m1 m2) (fun mm =>
      match r with
      | EmptyString => Some (hh, mm, 0, 0)
      | String ":" (String s1 (String s2 r)) =>
        obind (two_digits s1 s2) (fun ss =>
        match r with
        | EmptyString => Some (hh, mm, ss, 0)
        | String "." f => option_map (fun us => (hh, mm, ss, us)) (parse_fraction f)
        | _ => None
        end)
      | _ => None
      end)
    | _ => None
    end)
  | _ => None
  end%char.

(** Cuts a time string at its first sign character. *)
Fixpoint split_sign (s : string) : string * option (ascii * string) :=
  match s with
  | EmptyString => (EmptyString, None)
  | String c s' =>
    if (Ascii.eqb c "+" || Ascii.eqb c "-")%bool%char then (EmptyString, Some (c, s'))
    else let '(t, z) := split_sign s' in (String c t, z)
  end.

(** The offset after the sign: [HH:MM], [HH:MM:SS] or [HH:MM:SS.ffffff].
    An offset of no whole second is UTC, whatever its fraction;
    [timezone] refuses an offset of a day or more. *)
Definition parse_offset (sign : ascii) (tzstr : string) : option Z :=
  let n := String.length tzstr in
  if (Nat.eqb n 5 || Nat.eqb n 8 || Nat.eqb n 15)%bool
  then
    obind (parse_hh_mm_ss_ff tzstr) (fun '(hh, mm, ss, us) =>
    let seconds := (hh * 60 + mm) * 60 + ss in
    if seconds =? 0 then Some 0
    else
      let td := seconds * 1000000 + us in
      let off := if Ascii.eqb sign "-"%char then - td else td in
      if valid_offset off then Some off else None)
  else None.

Definition parse_isoformat_time (tstr : string)
  : option (Z * Z * Z * Z * option Z) :=
  let '(timestr, z) := split_sign tstr in
  obind (parse_hh_mm_ss_ff timestr) (fun '(hh, mm, ss, us) =>
  match z with
  | None => Some (hh, mm, ss, us, None)
  | Some (sign, tzstr) =>
    option_map (fun off => (hh, mm, ss, us, Some off)) (parse_offset sign tzstr)
  end).

(** The constructor call at the end of [fromisoformat]. *)
Definition make_datetime (y m d hh mm ss us : Z) (tz : option Z)
  : option datetime :=
  if (valid_date y m d && valid_time hh mm ss us)%bool
  then Some (mkDatetime y m d hh mm ss us tz)
  else None.

Definition plain_fromisoformat (s : string) : option datetime :=
  match s with
  | String y1 (String y2 (String y3 (String y4 (String "-"
      (String m1 (String m2 (String "-" (String d1 (String d2 rest))))))))) =>
    obind (two_digits y1 y2) (fun yh =>
    obind (two_digits y3 y4) (fun yl =>
    obind (two_digits m1 m2) (fun m =>
    obind (two_digits d1 d2) (fun d =>
    let y := 100 * yh + yl in
    match rest with
    | EmptyString => make_datetime y m d 0 0 0 0 None
    | String _ tstr =>
      obind (parse_isoformat_time tstr) (fun '(hh, mm, ss, us, tz) =>
      make_datetime y m d hh mm ss us tz)
    end))))
  | _ => None
  end%char.

Definition plain_runtime : Runtime :=
  {| py_int := plain_int; str_upper := plain_upper;
     fromisoformat := plain_fromisoformat |}.

(** ** Sample inputs

    A workspace, a clock that shows the k-th second after 10:00 on its
    k-th reading and stands at 10:00:59 from then on, a service that
    lists one schedule, accepts the first
    task and fails afterwards, and a template of two tasks, the second
    with a due date that does not parse.  The operator asks for a shift of
    three days, no new project, autoscheduling, and no schedule. *)

Definition sample_workspace : json :=
  JObj [("id", JStr "ws-1"); ("name", JStr "Home")].

Definition sample_clock (k : nat) : datetime :=
  mkDatetime 2026 11 3 10 0 (Z.min (Z.of_nat k) 59) 0 None.

Definition sample_server (k : nat) : option json :=
  match k with
  | 0%nat => Some (JList [JObj [("name", JStr "Evenings")]])
  | 1%nat => Some (JObj [("id", JStr "task-1")])
  | _ => None
  end.

Definition sample_world (lines : list string) : world :=
  mkWorld lines sample_clock 0 sample_server 0 (fun _ => FileMissing).

Definition sample_tasks : list json :=
  [JObj [("name", JStr "Plan"); ("workspaceId", JStr "ws-0");
         ("dueDate", JStr "2024-12-31T23:59:59Z");
         ("duration", JNum 45); ("priority", JStr "HIGH")];
   JObj [("name", JStr "Review"); ("workspaceId", JStr "ws-0");
         ("dueDate", JStr "not-a-date");
         ("duration", JNum 30); ("priority", JStr "LOW")]].

Definition sample_items : list (string * json) := [("tasks", JList sample_tasks)].

Definition sample_template : json := JObj sample_items.

Definition sample_lines : list string := ["3"; "n"; "y"; "0"].

Definition sample_params : run_params :=
  mkParams sample_workspace 3 JNull JNull true.

(** A task spec with the given due date and nothing amiss. *)
Definition sample_spec (due : string) : list (string * json) :=
  [("name", JStr "Plan"); ("dueDate", JStr due); ("priority", JStr "HIGH")].

(** A service whose answers to the submissions are lists: the test for
    an id succeeds on them and the reading of the id raises. *)
Definition list_server (k : nat) : option json :=
  match k with
  | 0%nat => Some (JList [JObj [("name", JStr "Evenings")]])
  | _ => Some (JList [JStr "id"])
  end.

(** A service that accepts the first task and answers the second
    submission with a text. *)
Definition text_server (k : nat) : option json :=
  match k with
  | 0%nat => Some (JList [JObj [("name", JStr "Evenings")]])
  | 1%nat => Some (JObj [("id", JStr "task-1")])
  | _ => Some (JStr "id-42")
  end.

(** A service that accepts every task, and a clock that is set back two
    seconds after its first reading. *)
Definition accepting_server (k : nat) : option json :=
  match k with
  | 0%nat => Some (JList [JObj [("name", JStr "Evenings")]])
  | _ => Some (JObj [("id", JStr "task-1")])
  end.

Definition reset_clock (k : nat) : datetime :=
  match k with
  | 0%nat => mkDatetime 2026 11 3 10 0 59 0 None
  | _ => mkDatetime 2026 11 3 10 0 57 0 None
  end.

(** The sample world with another service or another clock. *)
Definition served_by (srv : nat -> option json) (lines : list string) : world :=
  mkWorld lines sample_clock 0 srv 0 (fun _ => FileMissing).

Definition reset_world (lines : list string) : world :=
  mkWorld lines reset_clock 0 accepting_server 0 (fun _ => FileMissing).



(** A template whose only task has no name. *)
Definition nameless_template : json :=
  JObj [("tasks",
         JList [JObj [("dueDate", JStr "2024-12-31T23:59:59Z");
                      ("duration", JNum 30); ("priority", JStr "HIGH")]])].

(** A template without tasks, and a world in which the operator has a
    project created first. *)
Definition empty_template : json := JObj [("tasks", JList [])].

Definition project_server (k : nat) : option json :=
  match k with
  | 0%nat => Some (JObj [("id", JStr "proj-1")])
  | _ => None
  end.

Definition project_world : world :=
  mkWorld [""; "y"; "Launch"; ""; "n"] sample_clock 0 project_server 0
    (fun _ => FileMissing).

(** The payload built from [sample_spec "2024-12-31T23:59:59Z"] under
    [sample_params] on the first reading of the clock. *)
Definition sample_payload : list (string * json) :=
  [("name", JStr "Plan"); ("workspaceId", JStr "ws-1");
   ("dueDate", JStr "2025-01-03T23:59:59Z");
   ("duration", JNum 30); ("priority", JStr "HIGH");
   ("autoScheduled",
    JObj [("startDate", JStr "2026-11-03T10:00:00");
          ("deadlineType", JStr "SOFT");
          ("schedule", JStr "Work Hours")])].

(** A schedule the operator can end up with: none, or the name of one of
    the schedules listed. *)
Definition schedule_choice (schedules v : json) : Prop :=
  v = JNull
  \/ exists (i : nat) (item : json),
       py_index schedules i = Ok item /\ py_getitem item "name" = Ok v.

(** ** Further observations on the core *)

(** A [datetime] value as its constructors accept it. *)
Definition well_formed (dt : datetime) : bool :=
  (valid_date (year dt) (month dt) (day dt)
   && valid_time (hour dt) (minute dt) (second dt) (microsecond dt)
   && match tzinfo dt with
      | Some off => valid_offset off
      | None => true
      end)%bool.

(** A task whose due date the replay can shift by [delta] days: a
    dictionary whose [dueDate] is absent or a string that does not parse or
    stays within [datetime]'s range. *)
Definition shiftable (delta : Z) (task : json) : bool :=
  match task with
  | JObj kv =>
    match due_text kv with
    | Some s =>
      match due_parse s with
      | Some parsed => is_ok (add_days parsed delta)
      | None => true
      end
    | None => false
    end
  | _ => false
  end.

(** [d.get(k, default)] on the items of a dictionary. *)
Definition default_of (o : option json) (d : json) : json :=
  match o with Some v => v | None => d end.

(** The entry a template holds for a task with the items [kv], pulled from
    the workspace with the id [wid]. *)
Definition entry_of (wid : json) (kv : list (string * json)) : json :=
  JObj [("name", default_of (assoc "name" kv) (JStr ""));
        ("workspaceId", wid);
        ("dueDate", default_of (assoc "dueDate" kv) (JStr FALLBACK_DUE_DATE));
        ("duration", default_of (assoc "duration" kv) (JNum 30));
        ("priority", default_of (assoc "priority" kv) (JStr "MEDIUM"))].

Definition is_dict (v : json) : bool :=
  match v with JObj _ => true | _ => false end.

Definition not_space (c : ascii) : bool := negb (Ascii.eqb c " "%char).

(** The payloads submitted to the project endpoint, in order. *)
Fixpoint project_posts (evs : list event) : list json :=
  match evs with
  | [] => []
  | EPost url data :: evs' =>
    if String.eqb url projects_url then data :: project_posts evs'
    else project_posts evs'
  | _ :: evs' => project_posts evs'
  end.

(** The requests of a trace, in order. *)
Definition is_request (e : event) : bool :=
  match e with
  | EPost _ _ | EGet _ _ => true
  | _ => false
  end.

(** The payloads the operator is shown after a failed submission. *)
Fixpoint payloads_shown (evs : list event) : list json :=
  match evs with
  | [] => []
  | EPrint (MsgPayloadSent p) :: evs' => p :: payloads_shown evs'
  | _ :: evs' => payloads_shown evs'
  end.

(** The progress lines ["Creating task i/total..."] of a trace. *)
Fixpoint progress (evs : list event) : list (nat * nat) :=
  match evs with
  | [] => []
  | EPrint (MsgCreatingTask i total) :: evs' => (i, total) :: progress evs'
  | _ :: evs' => progress evs'
  end.

(** The priorities [create_project] accepts. *)
Definition PRIORITIES : list string := ["ASAP"; "HIGH"; "MEDIUM"; "LOW"].

(** The offset in days a run takes from what the operator typed: the
    number read from it, and none for a blank or unreadable answer. *)
Definition offset_of (line : string) : Z :=
  if str_truthy line
  then match py_int line with Some n => n | None => 0 end
  else 0.

(** The priority [create_project] sends for what the operator typed. *)
Definition priority_of (line : string) : string :=
  if (str_truthy line && str_mem (str_upper line) PRIORITIES)%bool
  then str_upper line else "MEDIUM".

(** Events that only tell the operator something. *)
Definition is_print (e : event) : bool :=
  match e with
  | EPrint _ => true
  | _ => false
  end.

(** Every event of every run of an action satisfies [ok]. *)
Definition every (ok : event -> bool) {A : Type} (m : M A) : Prop :=
  forall w : world, forallb ok (events (m w)) = true.

(** Events other than a request and a sleep. *)
Definition unpaced (e : event) : bool := negb (paced e).

(** Events other than the summary line. *)
Definition not_summary (e : event) : bool :=
  match e with
  | EPrint (MsgSummary _ _ _) => false
  | _ => true
  end.

(** The run parameters under which a payload gets an [autoScheduled]
    block. *)
Definition scheduled (P : run_params) : bool :=
  (truthy (selected_schedule P) || use_autoschedule P)%bool.

(** The [startDate]s of the payloads submitted to the task endpoint, in
    order; [None] for a payload without one. *)
Definition start_dates (evs : list event) : list (option json) :=
  map (fun data => match data with JObj p => start_date p | _ => None end)
    (task_posts evs).

(** Readings of the clock taken one after another, none before the
    [t]-th: their numbers go up. *)
Fixpoint readings_from (t : nat) (ks : list nat) : Prop :=
  match ks with
  | [] => True
  | k :: ks' => (t <= k)%nat /\ readings_from (S k) ks'
  end.

(** The payloads among [payloads] whose answers, the [k]-th and the ones
    after it, carry no id. *)
Fixpoint failed_of (srv : nat -> option json) (k : nat) (payloads : list json)
  : list json :=
  match payloads with
  | [] => []
  | p :: rest =>
    match has_id (answer (srv k)) with
    | Ok true => failed_of srv (S k) rest
    | _ => p :: failed_of srv (S k) rest
    end
  end.

(** Events of the questions before the loop: no progress line and no
    payload shown. *)
Definition not_loop_report (e : event) : bool :=
  match e with
  | EPrint (MsgCreatingTask _ _) | EPrint (MsgPayloadSent _) => false
  | _ => true
  end.

(** Events other than the first question and the message about its
    answer. *)
Definition not_offset_talk (e : event) : bool :=
  match e with
  | EInput AskDueDateDelta | EPrint MsgInvalidInputDefault => false
  | _ => true
  end.

Definition not_schedule_question (e : event) : bool :=
  match e with
  | EInput AskSchedule => false
  | _ => true
  end.

(** An action only takes lines from the front of the operator's input. *)
Definition consuming {A : Type} (m : M A) : Prop :=
  forall w : world, exists taken : list string,
    stdin w = taken ++ stdin (final (m w)).

(** *** Choosing a workspace or a project

    [list_workspaces] and [list_projects] are the same but for the
    endpoint, the key of the answer, the messages and the question. *)

Record listing : Type := mkListing {
  list_url : string;
  list_params : option json;
  list_key : string;
  msg_no_data : menu_message;
  msg_none : menu_message;
  msg_available : menu_message;
  msg_item : nat -> json -> json -> menu_message;
  list_prompt : menu_prompt
}.

(** The lines [i+1. name (ID: id)]. *)
Fixpoint say_items (mk : nat -> json -> json -> menu_message) (i : nat)
    (items : list json) : IO unit :=
  match items with
  | [] => io_ret tt
  | item :: rest =>
    name <~ io_lift (py_getitem item "name") ;;
    id <~ io_lift (py_getitem item "id") ;;
    say (mk (S i) name id) ~;;
    say_items mk (S i) rest
  end.

(** The [while True] loop that asks for a number, over the lines still to
    be typed: the item chosen, the lines left and what was done. *)
Fixpoint choose_item (p : menu_prompt) (items : json) (count : nat)
    (lines : list string) : outcome json * list string * list action :=
  match lines with
  | [] => (Raise EOFError, [], [Ask p])
  | line :: rest =>
    match py_int line with
    | None =>
      let '(r, rest', acts) := choose_item p items count rest in
      (r, rest', Ask p :: Core (EPrint MsgInvalidNumber) :: acts)
    | Some choice =>
      if ((1 <=? choice) && (choice <=? Z.of_nat count))%bool
      then (py_index items (Z.to_nat (choice - 1)), rest, [Ask p])
      else
        let '(r, rest', acts) := choose_item p items count rest in
        (r, rest', Ask p :: Core (EPrint MsgInvalidSelection) :: acts)
    end
  end.

Definition select_item (p : menu_prompt) (items : json) (count : nat) : IO json :=
  fun s =>
    let '(r, rest, acts) := choose_item p items count (stdin (base s)) in
    mkPlay r (with_base (typed rest (base s)) s) acts.

Definition list_resource (L : listing) : IO json :=
  data <~ core (get_data (list_url L) (list_params L)) ;;
  missing <~ io_lift (lacks (list_key L) data) ;;
  if (missing : bool) then say (msg_no_data L) ~;; io_ret JNull
  else
    found <~ io_lift (py_getitem data (list_key L)) ;;
    if negb (truthy found) then say (msg_none L) ~;; io_ret JNull
    else
      say (msg_available L) ~;;
      items <~ io_lift (py_iter found) ;;
      say_items (msg_item L) O items ~;;
      select_item (list_prompt L) found (List.length items).

(** [list_workspaces()]. *)
Definition list_workspaces : IO json :=
  list_resource
    (mkListing workspaces_url None "workspaces" MsgNoWorkspacesData MsgNoWorkspaces
       MsgAvailableWorkspaces MsgWorkspaceItem AskWorkspace).

(** [list_projects(workspace_id)]. *)
Definition list_projects (workspace_id : json) : IO json :=
  list_resource
    (mkListing projects_url (Some (JObj [("workspaceId", workspace_id)])) "projects"
       MsgNoProjectsData MsgNoProjects MsgAvailableProjects MsgProjectItem AskProject).

(** [get_tasks_for_project(project_id)]. *)
Definition get_tasks_for_project (project_id : json) : IO json :=
  tasks_data <~ core (get_data tasks_url (Some (JObj [("projectId", project_id)]))) ;;
  missing <~ io_lift (lacks "tasks" tasks_data) ;;
  if (missing : bool) then say MsgNoTasksData ~;; io_ret (JList [])
  else io_lift (py_getitem tasks_data "tasks").

(** *** Writing a template *)

(** [strftime("%Y%m%d_%H%M%S")]. *)
Definition strftime_stamp (dt : datetime) : string :=
  pad4 (year dt) +++ pad2 (month dt) +++ pad2 (day dt) +++ "_"
  +++ pad2 (hour dt) +++ pad2 (minute dt) +++ pad2 (second dt).

(** [os.path.join(dir, name)] for a [dir] without a final separator. *)
Definition path_join (dir name : string) : string :=
  if starts_with "/" name then name else dir +++ "/" +++ name.

(** [v['name'].replace(' ', '_')]. *)
Definition name_part (v : json) : outcome string :=
  obind_outcome (py_getitem v "name") (fun name => replace_method name " " "_").

Definition template_filename (workspace_name project_name creation_time : string)
  : string :=
  workspace_name +++ "." +++ project_name +++ "." +++ creation_time +++ ".json".

(** The names of a directory once [filename] has been written into it: a
    name with a separator lies further down. *)
Definition add_name (filename : string) (names : list string) : list string :=
  if (str_contains "/" filename || str_mem filename names)%bool then names
  else names ++ [filename].

(** The session after the file [filename] has come to hold [state]. *)
Definition stored (filename : string) (state : file_state) (s : session) : session :=
  let w := base s in
  mkSession
    (mkWorld (stdin w) (clock w) (ticks w) (server w) (requests w)
       (fun f => if String.eqb f filename then state else files w f))
    (local_clock s) (local_ticks s)
    (match directory s with
     | DirHolds names => DirHolds (add_name filename names)
     | d => d
     end)
    (makedirs_error s) (writing s).

(** The session once the template directory has been made. *)
Definition with_new_dir (s : session) : session :=
  mkSession (base s) (local_clock s) (local_ticks s) (DirHolds [])
    (makedirs_error s) (writing s).

(** [if not os.path.exists(TEMPLATES_DIR): os.makedirs(TEMPLATES_DIR)].
    The call is outside the [try]: what it raises leaves
    [generate_task_template]. *)
Definition ensure_dir : IO unit :=
  fun s =>
    match directory s with
    | DirMissing =>
      match makedirs_error s with
      | None => mkPlay (Ok tt) (with_new_dir s) [MakeDirs]
      | Some e => mkPlay (Raise e) s [MakeDirs]
      end
    | _ => mkPlay (Ok tt) s []
    end.

(** The [try] block that writes the file; an [IOError] is reported. *)
Definition write_template (filename : string) (template : json) : IO unit :=
  fun s =>
    match writing s filename with
    | Written =>
      mkPlay (Ok tt) (stored filename (FileJson template) s)
        [WriteFile filename template;
         Say (MsgTemplateCreated (path_join TEMPLATES_DIR filename))]
    | NotOpened => mkPlay (Ok tt) s [Say MsgTemplateWriteError]
    | Spoiled =>
      mkPlay (Ok tt) (stored filename FileInvalidJson s)
        [SpoilFile filename; Say MsgTemplateWriteError]
    end.

(** [generate_task_template(workspace, project, tasks)] in full: the
    template of [generate_task_template] above, and its file. *)
Definition generate_task_template_file (workspace project tasks : json) : IO unit :=
  now <~ local_now ;;
  let creation_time := strftime_stamp now in
  items <~ io_lift (py_iter tasks) ;;
  template <~ io_lift (generate_task_template workspace items) ;;
  workspace_name <~ io_lift (name_part workspace) ;;
  project_name <~ io_lift (name_part project) ;;
  let filename := template_filename workspace_name project_name creation_time in
  ensure_dir ~;;
  write_template filename template.

(** *** Choosing a template file *)

(** [list_template_files()]: only [FileNotFoundError] is caught. *)
Definition list_template_files : IO (list string) :=
  fun s =>
    match directory s with
    | DirHolds names => mkPlay (Ok (filter (ends_with ".json") names)) s [ListDir]
    | DirMissing => mkPlay (Ok []) s [ListDir; Say MsgTemplateDirNotFound]
    | DirBarred e => mkPlay (Raise e) s [ListDir]
    end.

Fixpoint say_files (i : nat) (files : list string) : IO unit :=
  match files with
  | [] => io_ret tt
  | filename :: rest => say (MsgTemplateItem (S i) filename) ~;; say_files (S i) rest
  end.

(** The loop of [get_template_filename_from_user]; [None] is the blank
    answer. *)
Fixpoint choose_file (files : list string) (lines : list string)
  : outcome (option string) * list string * list action :=
  match lines with
  | [] => (Raise EOFError, [], [Ask AskTemplateFile])
  | choice :: rest =>
    if negb (str_truthy choice) then (Ok None, rest, [Ask AskTemplateFile])
    else
      match py_int choice with
      | None =>
        let '(r, rest', acts) := choose_file files rest in
        (r, rest', Ask AskTemplateFile :: Say MsgNumberOrBlank :: acts)
      | Some n =>
        if ((1 <=? n) && (n <=? Z.of_nat (List.length files)))%bool
        then
          (match nth_error files (Z.to_nat (n - 1)) with
           | Some filename => Ok (Some filename)
           | None => Raise TypeError
           end, rest, [Ask AskTemplateFile])
        else
          let '(r, rest', acts) := choose_file files rest in
          (r, rest', Ask AskTemplateFile :: Core (EPrint MsgInvalidSelection) :: acts)
      end
  end.

(** [get_template_filename_from_user(files)]. *)
Definition get_template_filename_from_user (files : list string)
  : IO (option string) :=
  match files with
  | [] => say MsgNoTemplateFiles ~;; io_ret None
  | _ =>
    say MsgAvailableTemplates ~;;
    say_files O files ~;;
    fun s =>
      let '(r, rest, acts) := choose_file files (stdin (base s)) in
      mkPlay r (with_base (typed rest (base s)) s) acts
  end.

(** *** The main menu *)

(** Choice 1 after the workspace, and the way out of choice 2 without a
    template: a project is chosen and its tasks become a template.
    [otherwise] is what is done when no project is chosen. *)
Definition pull_template (workspace : json) (otherwise : IO unit) : IO unit :=
  workspace_id <~ io_lift (py_getitem workspace "id") ;;
  project <~ list_projects workspace_id ;;
  if truthy project
  then
    project_id <~ io_lift (py_getitem project "id") ;;
    tasks <~ get_tasks_for_project project_id ;;
    generate_task_template_file workspace project tasks
  else otherwise.

(** Choice 2 after the workspace. *)
Definition create_from_template (workspace : json) : IO unit :=
  template_files <~ list_template_files ;;
  template_filename <~ get_template_filename_from_user template_files ;;
  match template_filename with
  | Some filename =>
    if str_truthy filename then core (replay_template_file workspace filename)
    else say MsgWithoutTemplate ~;; pull_template workspace (say MsgNoProjectGiven)
  | None => say MsgWithoutTemplate ~;; pull_template workspace (say MsgNoProjectGiven)
  end.

(** One turn of the menu; [true] when the operator leaves. *)
Definition menu_turn : IO bool :=
  say MsgMainMenu ~;;
  say MsgMenuPull ~;;
  say MsgMenuCreate ~;;
  say MsgMenuExit ~;;
  choice <~ ask AskMenuChoice ;;
  if String.eqb choice "1"
  then
    workspace <~ list_workspaces ;;
    (if truthy workspace then pull_template workspace (io_ret tt) else io_ret tt) ~;;
    io_ret false
  else if String.eqb choice "2"
  then
    workspace <~ list_workspaces ;;
    (if truthy workspace then create_from_template workspace else io_ret tt) ~;;
    io_ret false
  else if String.eqb choice "3"
  then say MsgExiting ~;; io_ret true
  else say MsgInvalidChoice ~;; io_ret false.

(** What every turn starts with: the menu and the question. *)
Definition menu_lines : list action :=
  [Say MsgMainMenu; Say MsgMenuPull; Say MsgMenuCreate; Say MsgMenuExit;
   Ask AskMenuChoice].

(** [main_menu()], for at most [turns] turns of its loop; [None] when the
    loop is still running after them. *)
Fixpoint main_menu (turns : nat) (s : session) : option (play unit) :=
  match turns with
  | O => None
  | S turns' =>
    let r := menu_turn s in
    match outcome_of r with
    | Ok true => Some (mkPlay (Ok tt) (after r) (trace r))
    | Ok false => option_map (io_prepend (trace r)) (main_menu turns' (after r))
    | Raise e => Some (mkPlay (Raise e) (after r) (trace r))
    end
  end.

(** *** Observations on a session *)

(** The events of the core among the actions of a session. *)
Fixpoint core_events (acts : list action) : list event :=
  match acts with
  | [] => []
  | Core e :: acts' => e :: core_events acts'
  | _ :: acts' => core_events acts'
  end.

(** An action that changes nothing on the remote service: no request is
    a POST. *)
Definition read_only (a : action) : bool :=
  match a with
  | Core (EPost _ _) => false
  | _ => true
  end.

(** The files written in a session, in order. *)
Fixpoint files_written (acts : list action) : list (string * json) :=
  match acts with
  | [] => []
  | WriteFile filename content :: acts' => (filename, content) :: files_written acts'
  | _ :: acts' => files_written acts'
  end.

(** A world in which the operator names a project and gives it a
    priority in lower case. *)
Definition naming_world : world :=
  mkWorld ["Launch"; "high"] sample_clock 0 project_server 0 (fun _ => FileMissing).

(** The payload [create_project] sends in [naming_world] with a shift of
    three days. *)
Definition launch_payload : json :=
  JObj [("name", JStr "Launch"); ("workspaceId", JStr "ws-1");
        ("priority", JStr "HIGH"); ("dueDate", JStr "2026-11-06T10:00:01")].

(** An action of a session only takes lines from the front of the
    operator's input. *)
Definition io_consuming {A : Type} (m : IO A) : Prop :=
  forall s : session, exists taken : list string,
    stdin (base s) = taken ++ stdin (base (after (m s))).

(** An action of a session that changes nothing on the remote service. *)
Definition harmless {A : Type} (m : IO A) : Prop :=
  forall s : session, forallb read_only (trace (m s)) = true.

(** A sample session: the sample world, a local clock one hour ahead, and
    a template directory that is not there yet. *)
Definition sample_session (lines : list string) (srv : nat -> option json) : session :=
  mkSession (mkWorld lines sample_clock 0 srv 0 (fun _ => FileMissing))
    (fun k => mkDatetime 2026 11 3 11 0 (Z.of_nat k) 0 None) 0 DirMissing None
    (fun _ => Written).

(** A service with one workspace, one project and two tasks. *)
Definition pull_server (k : nat) : option json :=
  match k with
  | 0%nat => Some (JObj [("workspaces",
                          JList [JObj [("id", JStr "ws-1"); ("name", JStr "My Home")]])])
  | 1%nat => Some (JObj [("projects",
                          JList [JObj [("id", JStr "pr-1"); ("name", JStr "Spring Plan")]])])
  | 2%nat => Some (JObj [("tasks",
                          JList [JObj [("name", JStr "Plan");
                                       ("dueDate", JStr "2024-12-31T23:59:59Z");
                                       ("priority", JStr "HIGH")];
                                 JObj [("name", JStr "Review"); ("duration", JNum 45)]])])
  | _ => None
  end.

(** The workspace, the project and the tasks of [pull_server], and the
    template pulled from them. *)
Definition home_workspace : json :=
  JObj [("id", JStr "ws-1"); ("name", JStr "My Home")].

Definition spring_project : json :=
  JObj [("id", JStr "pr-1"); ("name", JStr "Spring Plan")].

Definition pulled_tasks : list json :=
  [JObj [("name", JStr "Plan"); ("dueDate", JStr "2024-12-31T23:59:59Z");
         ("priority", JStr "HIGH")];
   JObj [("name", JStr "Review"); ("duration", JNum 45)]].

Definition pulled_template : json :=
  JObj [("tasks",
         JList [JObj [("name", JStr "Plan"); ("workspaceId", JStr "ws-1");
                      ("dueDate", JStr "2024-12-31T23:59:59Z");
                      ("duration", JNum 30); ("priority", JStr "HIGH")];
                JObj [("name", JStr "Review"); ("workspaceId", JStr "ws-1");
                      ("dueDate", JStr "2024-12-31T23:59:59Z");
                      ("duration", JNum 45); ("priority", JStr "MEDIUM")]])].

Definition pulled_filename : string := "My_Home.Spring_Plan.20261103_110000.json".

(** A world whose service never answers; the operator leaves the offset
    blank, wants no project and asks for autoscheduling. *)
Definition offline_world : world :=
  mkWorld [""; "n"; "y"] sample_clock 0 (fun _ => None) 0 (fun _ => FileMissing).

(** What [os.makedirs] raises in a session: it is called only when the
    template directory is missing. *)
Definition makedirs_raises (s : session) : option exn :=
  match directory s with
  | DirMissing => makedirs_error s
  | _ => None
  end.

(** The making of the directory in the trace of a session. *)
Definition made (s : session) : list action :=
  match directory s with
  | DirMissing => [MakeDirs]
  | _ => []
  end.

(** The session once the local clock was read and the directory seen
    to. *)
Definition prepared (s : session) : session :=
  mkSession (base s) (local_clock s) (S (local_ticks s))
    (match directory s with
     | DirMissing => DirHolds []
     | d => d
     end)
    (makedirs_error s) (writing s).

(** An answer to the question for a template file that is asked again:
    it is not blank, and the runtime reads no number from it or one that
    is not the number of a file listed. *)
Definition asked_again (count : nat) (line : string) : bool :=
  (str_truthy line
   && match py_int line with
      | Some n => negb ((1 <=? n) && (n <=? Z.of_nat count))
      | None => true
      end)%bool.

(** An action of a session that leaves the template directory as it is. *)
Definition keeps_directory {A : Type} (m : IO A) : Prop :=
  forall s : session, directory (after (m s)) = directory s.

(** A session with one template in the directory: the operator chooses
    to create tasks, the first workspace and the first template, and
    answers the questions of the replay. *)
Definition replay_server (k : nat) : option json :=
  match k with
  | 0%nat => Some (JObj [("workspaces",
                          JList [JObj [("id", JStr "ws-1"); ("name", JStr "My Home")]])])
  | 1%nat => None
  | _ => Some (JObj [("id", JStr "task-1")])
  end.

Definition replay_session : session :=
  mkSession
    (mkWorld ["2"; "1"; "1"; ""; "n"; "n"; "3"] sample_clock 0 replay_server 0
       (fun f => if String.eqb f "plan.json" then FileJson sample_template
                 else FileMissing))
    (fun k => mkDatetime 2026 11 3 11 0 (Z.of_nat k) 0 None) 0
    (DirHolds ["notes.txt"; "plan.json"]) None (fun _ => Written).

(* ================================================================== *)
(** * Part II: lemmas and theorems *)
(* ================================================================== *)

(** ** Strings *)

Lemma ends_with_app (p s : string) : ends_with p (s +++ p) = true.
Proof.
  induction s as [|c s IH]; simpl.
  - destruct p; simpl.
    + reflexivity.
    + rewrite Ascii.eqb_refl, String.eqb_refl. reflexivity.
  - destruct (String.eqb p (String c (s +++ p))); [reflexivity | exact IH].
Qed.

Lemma all_chars_app (p : ascii -> bool) (s t : string) :
  all_chars p (s +++ t) = (all_chars p s && all_chars p t)%bool.
Proof.
  induction s as [|c s IH]; simpl.
  - reflexivity.
  - rewrite IH. apply andb_assoc.
Qed.

Lemma iso_char_digit (d : Z) : iso_char (digit_char d) = true.
Proof.
  destruct d as [|p|p]; try reflexivity.
  do 4 (try (destruct p as [p|p|]; try reflexivity)).
Qed.

Lemma iso_chars_pad2 (n : Z) : all_chars iso_char (pad2 n) = true.
Proof.
  unfold pad2; simpl. rewrite !iso_char_digit. reflexivity.
Qed.

Lemma iso_chars_pad4 (n : Z) : all_chars iso_char (pad4 n) = true.
Proof.
  unfold pad4. rewrite all_chars_app, !iso_chars_pad2. reflexivity.
Qed.

Lemma iso_chars_pad6 (n : Z) : all_chars iso_char (pad6 n) = true.
Proof.
  unfold pad6. rewrite !all_chars_app, !iso_chars_pad2. reflexivity.
Qed.

Lemma iso_chars_local (dt : datetime) :
  all_chars iso_char (isoformat_local dt) = true.
Proof.
  unfold isoformat_local, format_time.
  repeat rewrite all_chars_app.
  rewrite iso_chars_pad4, !iso_chars_pad2.
  destruct (microsecond dt =? 0).
  - reflexivity.
  - rewrite all_chars_app, iso_chars_pad6. reflexivity.
Qed.

Lemma starts_with_head (p0 c : ascii) (p s : string) :
  starts_with (String p0 p) (String c s)
  = if Ascii.eqb p0 c then starts_with p s else false.
Proof.
  unfold starts_with; simpl.
  destruct (ascii_dec p0 c) as [E|E]; destruct (Ascii.eqb_spec p0 c);
    congruence || reflexivity.
Qed.

(** A text of date and time characters holds no place where ["+00:00"]
    starts, so the replacement passes over it. *)
Lemma replace_after_iso_chars (s t : string) :
  all_chars iso_char s = true ->
  str_replace (s +++ t) "+00:00" "Z" = s +++ str_replace t "+00:00" "Z".
Proof.
  unfold str_replace.
  induction s as [|c s IH]; cbn [String.append all_chars]; intros H.
  - reflexivity.
  - apply andb_prop in H. destruct H as [Hc Hs].
    cbn [replace_from]. rewrite starts_with_head.
    destruct (Ascii.eqb_spec "+"%char c) as [<-|_].
    + discriminate Hc.
    + rewrite (IH Hs). reflexivity.
Qed.

Lemma ends_with_Z_iso_chars (s : string) :
  all_chars iso_char s = true -> ends_with "Z" s = false.
Proof.
  induction s as [|c s IH]; cbn [all_chars]; intros H.
  - reflexivity.
  - apply andb_prop in H. destruct H as [Hc Hs].
    cbn [ends_with String.eqb]. rewrite (IH Hs).
    destruct (Ascii.eqb_spec "Z"%char c) as [<-|_].
    + discriminate Hc.
    + reflexivity.
Qed.

(** The text written for a value in UTC ends in [Z]. *)
Lemma iso_z_utc (dt : datetime) :
  tzinfo dt = Some 0 -> iso_z dt = isoformat_local dt +++ "Z".
Proof.
  intros H. unfold iso_z, isoformat. rewrite H.
  rewrite replace_after_iso_chars by apply iso_chars_local.
  reflexivity.
Qed.

Lemma append_empty_r (s : string) : s +++ "" = s.
Proof.
  induction s as [|c s IH]; simpl; [reflexivity | now rewrite IH].
Qed.

(** The text written for a naive value has no suffix at all. *)
Lemma iso_z_naive (dt : datetime) :
  tzinfo dt = None -> iso_z dt = isoformat_local dt.
Proof.
  intros H. unfold iso_z, isoformat. rewrite H.
  rewrite replace_after_iso_chars by apply iso_chars_local.
  apply append_empty_r.
Qed.

(** ** The calendar *)

Lemma days_before_year_era (y q : Z) :
  days_before_year (y + 400 * q) = days_before_year y + DI400Y * q.
Proof.
  unfold days_before_year, DI400Y. cbv zeta.
  Z.div_mod_to_equations. lia.
Qed.

Lemma is_leap_era (y q : Z) : is_leap (y + 400 * q) = is_leap y.
Proof.
  unfold is_leap.
  replace ((y + 400 * q) mod 4) with (y mod 4) by (Z.div_mod_to_equations; lia).
  replace ((y + 400 * q) mod 100) with (y mod 100) by (Z.div_mod_to_equations; lia).
  replace ((y + 400 * q) mod 400) with (y mod 400) by (Z.div_mod_to_equations; lia).
  reflexivity.
Qed.

Lemma ymd2ord_era (y m d q : Z) :
  ymd2ord (y + 400 * q) m d = ymd2ord y m d + DI400Y * q.
Proof.
  unfold ymd2ord, days_before_month.
  rewrite days_before_year_era, is_leap_era. lia.
Qed.

Lemma days_in_month_era (y m q : Z) :
  days_in_month (y + 400 * q) m = days_in_month y m.
Proof.
  unfold days_in_month. rewrite is_leap_era. reflexivity.
Qed.

(** The date of a day is the date of the same day of the first 400
    years, that many periods later. *)
Lemma ord2ymd_era (q r : Z) :
  0 <= r < DI400Y ->
  ord2ymd (q * DI400Y + r + 1)
  = let '(y, m, d) := ord2ymd (r + 1) in (y + 400 * q, m, d).
Proof.
  intros Hr. unfold ord2ymd. cbv zeta.
  replace (q * DI400Y + r + 1 - 1) with (r + q * DI400Y) by lia.
  replace (r + 1 - 1) with r by lia.
  assert (HD : DI400Y <> 0) by (unfold DI400Y; lia).
  rewrite Z.div_add, Z.mod_add by exact HD.
  rewrite (Z.div_small r DI400Y), (Z.mod_small r DI400Y) by lia.
  repeat match goal with
         | |- context [if ?b then _ else _] => destruct b
         end; f_equal; try f_equal; lia.
Qed.

Lemma month_cases (m : Z) :
  1 <= m <= 12 ->
  m = 1 \/ m = 2 \/ m = 3 \/ m = 4 \/ m = 5 \/ m = 6 \/ m = 7 \/ m = 8
  \/ m = 9 \/ m = 10 \/ m = 11 \/ m = 12.
Proof. lia. Qed.

(** The leap years of the first 400 years, by the place of the year in
    its century and of the century in the period. *)
Lemma is_leap_in_era (n100 n4 n1 : Z) :
  0 <= n100 <= 3 -> 0 <= n4 <= 24 -> 0 <= n1 <= 3 ->
  is_leap (1 + n100 * 100 + n4 * 4 + n1)
  = ((n1 =? 3) && (negb (n4 =? 24) || (n100 =? 3)))%bool.
Proof.
  intros H100 H4 H1. unfold is_leap.
  set (y := 1 + n100 * 100 + n4 * 4 + n1).
  destruct (Z.eqb_spec (y mod 4) 0) as [A|A];
    destruct (Z.eqb_spec (y mod 100) 0) as [B|B];
    destruct (Z.eqb_spec (y mod 400) 0) as [C|C];
    destruct (Z.eqb_spec n1 3) as [D|D];
    destruct (Z.eqb_spec n4 24) as [E|E];
    destruct (Z.eqb_spec n100 3) as [F|F];
    cbn; try reflexivity; exfalso; subst y;
    Z.div_mod_to_equations; lia.
Qed.

(** Every day of the first 400 years goes to a date of the calendar and
    back. *)
Lemma era_sound (r : Z) :
  0 <= r < DI400Y ->
  let '(y, m, d) := ord2ymd (r + 1) in
  ymd2ord y m d = r + 1 /\ 1 <= y <= 400 /\ 1 <= m <= 12
  /\ 1 <= d <= days_in_month y m.
Proof.
  intros Hr. unfold ord2ymd. cbv zeta.
  replace (r + 1 - 1) with r by lia.
  rewrite (Z.div_small r DI400Y), (Z.mod_small r DI400Y) by lia.
  unfold DI400Y, DI100Y, DI4Y in *.
  pose proof (Z.div_mod r 36524 ltac:(lia)) as E1.
  pose proof (Z.mod_pos_bound r 36524 ltac:(lia)) as B1.
  set (n100 := r / 36524) in *. set (r1 := r mod 36524) in *.
  pose proof (Z.div_mod r1 1461 ltac:(lia)) as E2.
  pose proof (Z.mod_pos_bound r1 1461 ltac:(lia)) as B2.
  set (n4 := r1 / 1461) in *. set (r2 := r1 mod 1461) in *.
  pose proof (Z.div_mod r2 365 ltac:(lia)) as E3.
  pose proof (Z.mod_pos_bound r2 365 ltac:(lia)) as B3.
  set (n1 := r2 / 365) in *. set (r3 := r2 mod 365) in *.
  clearbody n100 r1 n4 r2 n1 r3.
  assert (H100 : 0 <= n100 <= 4) by lia.
  assert (H4 : 0 <= n4 <= 24) by lia.
  assert (H1 : 0 <= n1 <= 4) by lia.
  destruct ((n1 =? 4) || (n100 =? 4))%bool eqn:Edge.
  - (* the last day of a leap year *)
    unfold ymd2ord, days_before_month, days_in_month, days_before_year, is_leap.
    cbn [DAYS_BEFORE_MONTH DAYS_IN_MONTH Z.ltb Z.eqb Z.compare Pos.compare Pos.compare_cont Pos.eqb andb].
    apply orb_true_iff in Edge. rewrite !Z.eqb_eq in Edge.
    assert (Hy : (0 * 400 + 1 + n100 * 100 + n4 * 4 + n1 - 1) mod 4 = 0
                 /\ ((0 * 400 + 1 + n100 * 100 + n4 * 4 + n1 - 1) mod 100 <> 0
                     \/ (0 * 400 + 1 + n100 * 100 + n4 * 4 + n1 - 1) mod 400 = 0)).
    { Z.div_mod_to_equations. lia. }
    destruct Hy as [Hy4 Hy100].
    rewrite Hy4. cbn [Z.eqb andb].
    assert (Hl : (negb ((0 * 400 + 1 + n100 * 100 + n4 * 4 + n1 - 1) mod 100 =? 0)
                  || ((0 * 400 + 1 + n100 * 100 + n4 * 4 + n1 - 1) mod 400 =? 0))%bool
                 = true).
    { destruct Hy100 as [N|N].
      - apply Z.eqb_neq in N. rewrite N. reflexivity.
      - apply Z.eqb_eq in N. rewrite N. apply orb_true_r. }
    rewrite Hl. Z.div_mod_to_equations. lia.
  - apply orb_false_iff in Edge. rewrite !Z.eqb_neq in Edge.
    replace (0 * 400 + 1 + n100 * 100 + n4 * 4 + n1)
      with (1 + n100 * 100 + n4 * 4 + n1) by lia.
    set (y := 1 + n100 * 100 + n4 * 4 + n1).
    pose proof (is_leap_in_era n100 n4 n1 ltac:(lia) ltac:(lia) ltac:(lia)) as Hleap.
    fold y in Hleap.
    set (leapyear := ((n1 =? 3) && (negb (n4 =? 24) || (n100 =? 3)))%bool) in *.
    assert (Hdby : days_before_year y = r - r3).
    { unfold days_before_year, y. cbv zeta. Z.div_mod_to_equations. lia. }
    assert (Hy : 1 <= y <= 400) by (unfold y; lia).
    rewrite Z.shiftr_div_pow2 by lia. change (2 ^ 5) with 32.
    pose proof (Z.div_mod (r3 + 50) 32 ltac:(lia)) as E4.
    pose proof (Z.mod_pos_bound (r3 + 50) 32 ltac:(lia)) as B4.
    set (month := (r3 + 50) / 32) in *. set (r4 := (r3 + 50) mod 32) in *.
    clearbody month r4 y.
    assert (Hm : 1 <= month <= 12) by lia.
    destruct (month_cases month Hm) as
      [->|[->|[->|[->|[->|[->|[->|[->|[->|[->|[->| ->]]]]]]]]]]];
      destruct leapyear;
      cbn [DAYS_BEFORE_MONTH DAYS_IN_MONTH Z.ltb Z.eqb Z.compare Pos.compare
           Pos.compare_cont Pos.eqb andb Z.sub Z.add Z.opp Z.pos_sub Pos.pred_double
           Z.succ_double Z.pred_double Z.double Pos.add Pos.succ];
      match goal with
      | |- context [if ?b then _ else _] => destruct b eqn:Hb
      end;
      (apply Z.ltb_lt in Hb || apply Z.ltb_ge in Hb);
      cbv beta iota;
      unfold ymd2ord, days_before_month, days_in_month;
      rewrite Hdby, Hleap;
      cbn [DAYS_BEFORE_MONTH DAYS_IN_MONTH Z.ltb Z.eqb Z.compare Pos.compare
           Pos.compare_cont Pos.eqb andb Z.sub Z.add Z.opp Z.pos_sub Pos.pred_double
           Z.succ_double Z.pred_double Z.double Pos.add Pos.succ];
      lia.
Qed.

(** [ord2ymd] gives a date of the calendar whose day number is the one it
    was given. *)
Lemma ord2ymd_sound (n : Z) :
  1 <= n ->
  let '(y, m, d) := ord2ymd n in
  ymd2ord y m d = n /\ 1 <= m <= 12 /\ 1 <= d <= days_in_month y m
  /\ 400 * ((n - 1) / DI400Y) + 1 <= y <= 400 * ((n - 1) / DI400Y) + 400.
Proof.
  intros Hn.
  assert (HD : 0 < DI400Y) by (unfold DI400Y; lia).
  pose proof (Z.div_mod (n - 1) DI400Y ltac:(lia)) as E.
  pose proof (Z.mod_pos_bound (n - 1) DI400Y HD) as Hr.
  set (q := (n - 1) / DI400Y) in *. set (r := (n - 1) mod DI400Y) in *.
  replace n with (q * DI400Y + r + 1) by lia.
  rewrite (ord2ymd_era q r Hr).
  pose proof (era_sound r Hr) as C.
  destruct (ord2ymd (r + 1)) as [[y m] d].
  rewrite ymd2ord_era, days_in_month_era.
  lia.
Qed.

Lemma days_before_month_nonneg (y m : Z) :
  1 <= m <= 12 -> 0 <= days_before_month y m.
Proof.
  intros Hm. unfold days_before_month.
  assert (0 <= DAYS_BEFORE_MONTH m).
  { assert (C : m = 1 \/ m = 2 \/ m = 3 \/ m = 4 \/ m = 5 \/ m = 6 \/ m = 7
                \/ m = 8 \/ m = 9 \/ m = 10 \/ m = 11 \/ m = 12) by lia.
    repeat destruct C as [-> | C]; try subst m; simpl; lia. }
  destruct ((2 <? m) && is_leap y)%bool; lia.
Qed.

(** Moving a value by whole days: the day number moves by that much, the
    time of day and the offset stay, and the date is one of the calendar. *)
Lemma add_days_ok (dt dt' : datetime) (n : Z) :
  add_days dt n = Ok dt' ->
  toordinal dt' = toordinal dt + n
  /\ hour dt' = hour dt /\ minute dt' = minute dt /\ second dt' = second dt
  /\ microsecond dt' = microsecond dt /\ tzinfo dt' = tzinfo dt
  /\ valid_date (year dt') (month dt') (day dt') = true.
Proof.
  unfold add_days.
  destruct ((0 <? toordinal dt + n) && (toordinal dt + n <=? MAXORDINAL))%bool eqn:R;
    [|discriminate].
  apply andb_prop in R. destruct R as [R1 R2].
  apply Z.ltb_lt in R1. apply Z.leb_le in R2.
  pose proof (ord2ymd_sound (toordinal dt + n) ltac:(lia)) as S.
  destruct (ord2ymd (toordinal dt + n)) as [[y m] d].
  destruct S as (S1 & S2 & S3 & S4).
  intros E. injection E as <-. unfold toordinal; cbn.
  repeat split; try assumption.
  unfold valid_date.
  assert (Hq : 0 <= (toordinal dt + n - 1) / DI400Y < 25).
  { unfold MAXORDINAL, DI400Y in *. split.
    - apply Z.div_pos; lia.
    - apply Z.div_lt_upper_bound; lia. }
  assert (Hy : y <= 9999).
  { destruct (Z_le_gt_dec y 9999) as [L|G]; [exact L|exfalso].
    assert (y = 10000) by lia. subst y.
    pose proof (days_before_month_nonneg 10000 m S2).
    unfold ymd2ord in S1. unfold MAXORDINAL in R2.
    change (days_before_year 10000) with 3652059 in S1. lia. }
  rewrite !andb_true_iff, !Z.leb_le. lia.
Qed.

(** Moving a value by [n] days moves its instant by [n] days. *)
Lemma add_days_instant (dt dt' : datetime) (n : Z) :
  add_days dt n = Ok dt' -> instant_us dt' = instant_us dt + n * DAY_US.
Proof.
  intros H. apply add_days_ok in H.
  destruct H as (Ho & Hh & Hm & Hs & Hu & Ht & _).
  unfold instant_us, time_of_day_us. rewrite Ho, Hh, Hm, Hs, Hu, Ht. lia.
Qed.

(** The move succeeds exactly when the day number stays within years
    1..9999. *)
Lemma add_days_in_range (dt : datetime) (n : Z) :
  is_ok (add_days dt n) = ((0 <? toordinal dt + n) && (toordinal dt + n <=? MAXORDINAL))%bool.
Proof.
  unfold add_days.
  destruct ((0 <? toordinal dt + n) && (toordinal dt + n <=? MAXORDINAL))%bool.
  - destruct (ord2ymd (toordinal dt + n)) as [[y m] d]. reflexivity.
  - reflexivity.
Qed.

(** ** Offsets *)

Lemma ends_with_char_app (c0 c : ascii) (s t : string) :
  ends_with (String c0 "") (s +++ String c t) = ends_with (String c0 "") (String c t).
Proof.
  induction s as [|a s IH]; [reflexivity|].
  cbn [String.append]. rewrite <- IH. cbn [ends_with String.eqb].
  destruct (s +++ String c t) eqn:E.
  - destruct s; discriminate E.
  - destruct (Ascii.eqb c0 a); reflexivity.
Qed.

Lemma str_replace_iso_chars (s : string) :
  all_chars iso_char s = true -> str_replace s "+00:00" "Z" = s.
Proof.
  intros H. rewrite <- (append_empty_r s) at 1.
  rewrite replace_after_iso_chars by exact H. apply append_empty_r.
Qed.

Lemma digit_char_zero (x : Z) :
  0 <= x <= 9 -> digit_char x = "0"%char -> x = 0.
Proof.
  intros Hx.
  assert (C : x = 0 \/ x = 1 \/ x = 2 \/ x = 3 \/ x = 4 \/ x = 5 \/ x = 6
              \/ x = 7 \/ x = 8 \/ x = 9) by lia.
  repeat destruct C as [->|C]; try subst x; cbn; intros E;
    (reflexivity || discriminate E).
Qed.

Lemma pad2_zero (n : Z) : 0 <= n < 100 -> pad2 n = "00" -> n = 0.
Proof.
  intros Hn. unfold pad2. intros E. injection E as E1 E2.
  apply digit_char_zero in E1; [|Z.div_mod_to_equations; lia].
  apply digit_char_zero in E2; [|Z.div_mod_to_equations; lia].
  Z.div_mod_to_equations. lia.
Qed.

Lemma iso_chars_offset_seconds (ss : Z) :
  all_chars iso_char (offset_seconds ss) = true.
Proof.
  unfold offset_seconds. destruct (ss =? 0); [reflexivity|].
  rewrite !all_chars_app, iso_chars_pad2.
  destruct (ss mod 1000000 =? 0); [reflexivity|].
  rewrite all_chars_app, iso_chars_pad6. reflexivity.
Qed.

(** An offset other than zero is never written as a bare [Z]. *)
Lemma offset_text_not_z (off : Z) :
  valid_offset off = true -> off <> 0 ->
  exists (c : ascii) (t : string),
    str_replace (format_offset (Some off)) "+00:00" "Z" = String c t
    /\ ends_with "Z" (String c t) = false.
Proof.
  unfold valid_offset, DAY_US. intros V Hne.
  apply andb_prop in V. destruct V as [V1 V2].
  apply Z.ltb_lt in V1. apply Z.ltb_lt in V2.
  unfold format_offset.
  set (a := Z.abs off).
  assert (Ha : 0 < a < 86400000000) by (unfold a; lia).
  set (hh := a / 3600000000). set (rest := a mod 3600000000).
  set (mm := rest / 60000000). set (ss := rest mod 60000000).
  assert (Hhh : 0 <= hh < 24) by (unfold hh; Z.div_mod_to_equations; lia).
  assert (Hmm : 0 <= mm < 60) by (unfold mm, rest; Z.div_mod_to_equations; lia).
  assert (Htail : all_chars iso_char (pad2 hh +++ ":" +++ pad2 mm +++ offset_seconds ss)
                  = true).
  { rewrite !all_chars_app, !iso_chars_pad2, iso_chars_offset_seconds. reflexivity. }
  destruct (off <? 0).
  - (* a negative offset holds no [+] *)
    exists "-"%char, (pad2 hh +++ ":" +++ pad2 mm +++ offset_seconds ss).
    split.
    + apply str_replace_iso_chars. cbn [String.append all_chars]. exact Htail.
    + apply ends_with_Z_iso_chars. cbn [String.append all_chars]. exact Htail.
  - destruct (Z.eq_dec hh 0) as [Eh|Nh]; [destruct (Z.eq_dec mm 0) as [Em|Nm]|].
    + (* hours and minutes are zero, so seconds follow *)
      assert (Hss : ss <> 0).
      { unfold ss, rest. unfold hh in Eh. unfold mm, rest in Em.
        Z.div_mod_to_equations. lia. }
      rewrite Eh, Em. unfold offset_seconds.
      destruct (Z.eqb_spec ss 0) as [|_]; [contradiction|].
      set (T := pad2 (ss / 1000000)
                +++ (if ss mod 1000000 =? 0 then "" else "." +++ pad6 (ss mod 1000000))).
      assert (HT : all_chars iso_char T = true).
      { unfold T. rewrite all_chars_app, iso_chars_pad2.
        destruct (ss mod 1000000 =? 0); [reflexivity|].
        rewrite all_chars_app, iso_chars_pad6. reflexivity. }
      exists "Z"%char, (String ":" T). split.
      * change ("+" +++ pad2 0 +++ ":" +++ pad2 0 +++ ":" +++ T)
          with (String "+" (String "0" (String "0" (String ":" (String "0"
                 (String "0" (String ":" T))))))).
        unfold str_replace. cbn [replace_from String.length Nat.pred].
        rewrite !starts_with_head. cbn [Ascii.eqb Bool.eqb].
        change (starts_with "" (String ":" T)) with true.
        cbn iota. cbn [String.append].
        fold (str_replace T "+00:00" "Z").
        rewrite (str_replace_iso_chars T HT). reflexivity.
      * cbn [ends_with String.eqb Ascii.eqb Bool.eqb].
        apply ends_with_Z_iso_chars. exact HT.
    + (* minutes are not zero: no ["+00:00"] to replace *)
      exists "+"%char, (pad2 hh +++ ":" +++ pad2 mm +++ offset_seconds ss).
      split.
      * unfold str_replace. cbn [String.append replace_from].
        assert (Hs : starts_with "+00:00"
                       (String "+" (pad2 hh +++ String ":" (pad2 mm +++ offset_seconds ss)))
                     = false).
        { unfold pad2. cbn [String.append]. rewrite !starts_with_head.
          rewrite !Ascii.eqb_refl.
          destruct (Ascii.eqb_spec "0" (digit_char (hh / 10 mod 10))); [|reflexivity].
          destruct (Ascii.eqb_spec "0" (digit_char (hh mod 10))); [|reflexivity].
          destruct (Ascii.eqb_spec "0" (digit_char (mm / 10 mod 10))); [|reflexivity].
          destruct (Ascii.eqb_spec "0" (digit_char (mm mod 10))); [|reflexivity].
          exfalso. apply Nm. apply pad2_zero; [lia|]. unfold pad2. congruence. }
        rewrite Hs. f_equal.
        apply (str_replace_iso_chars _ Htail).
      * cbn [ends_with String.eqb Ascii.eqb Bool.eqb].
        apply ends_with_Z_iso_chars. exact Htail.
    + (* hours are not zero *)
      exists "+"%char, (pad2 hh +++ ":" +++ pad2 mm +++ offset_seconds ss).
      split.
      * unfold str_replace. cbn [String.append replace_from].
        assert (Hs : starts_with "+00:00"
                       (String "+" (pad2 hh +++ String ":" (pad2 mm +++ offset_seconds ss)))
                     = false).
        { unfold pad2. cbn [String.append]. rewrite !starts_with_head.
          rewrite !Ascii.eqb_refl.
          destruct (Ascii.eqb_spec "0" (digit_char (hh / 10 mod 10))); [|reflexivity].
          destruct (Ascii.eqb_spec "0" (digit_char (hh mod 10))); [|reflexivity].
          exfalso. apply Nh. apply pad2_zero; [lia|]. unfold pad2. congruence. }
        rewrite Hs. f_equal.
        apply (str_replace_iso_chars _ Htail).
      * cbn [ends_with String.eqb Ascii.eqb Bool.eqb].
        apply ends_with_Z_iso_chars. exact Htail.
Qed.

(** The text written for a value ends in [Z] exactly when the value is in
    UTC. *)
Lemma iso_z_ends_with_z (dt : datetime) :
  match tzinfo dt with Some off => valid_offset off = true | None => True end ->
  ends_with "Z" (iso_z dt) = true <-> tzinfo dt = Some 0.
Proof.
  intros V. destruct (tzinfo dt) as [off|] eqn:E.
  - destruct (Z.eq_dec off 0) as [->|Hne].
    + rewrite (iso_z_utc dt E), ends_with_app. tauto.
    + destruct (offset_text_not_z off V Hne) as (c & t & Hr & He).
      unfold iso_z, isoformat. rewrite E.
      rewrite replace_after_iso_chars by apply iso_chars_local.
      rewrite Hr, ends_with_char_app, He.
      split; [discriminate | congruence].
  - rewrite (iso_z_naive dt E), ends_with_Z_iso_chars by apply iso_chars_local.
    split; discriminate.
Qed.

(** An offset of a minute or more is written as it is. *)
Lemma offset_text_kept (off : Z) :
  valid_offset off = true -> 60000000 <= Z.abs off ->
  str_replace (format_offset (Some off)) "+00:00" "Z" = format_offset (Some off).
Proof.
  unfold valid_offset, DAY_US. intros V Hmin.
  apply andb_prop in V. destruct V as [V1 V2].
  apply Z.ltb_lt in V1. apply Z.ltb_lt in V2.
  unfold format_offset.
  set (a := Z.abs off) in *.
  assert (Ha : 60000000 <= a < 86400000000) by (unfold a; lia).
  set (hh := a / 3600000000). set (rest := a mod 3600000000).
  set (mm := rest / 60000000). set (ss := rest mod 60000000).
  assert (Hhh : 0 <= hh < 24) by (unfold hh; Z.div_mod_to_equations; lia).
  assert (Hmm : 0 <= mm < 60) by (unfold mm, rest; Z.div_mod_to_equations; lia).
  assert (Hnz : hh <> 0 \/ mm <> 0)
    by (unfold hh, mm, rest; Z.div_mod_to_equations; lia).
  assert (Htail : all_chars iso_char (pad2 hh +++ ":" +++ pad2 mm +++ offset_seconds ss)
                  = true).
  { rewrite !all_chars_app, !iso_chars_pad2, iso_chars_offset_seconds. reflexivity. }
  destruct (off <? 0).
  - apply str_replace_iso_chars. cbn [String.append all_chars]. exact Htail.
  - unfold str_replace. cbn [String.append replace_from].
    assert (Hs : starts_with "+00:00"
                   (String "+" (pad2 hh +++ String ":" (pad2 mm +++ offset_seconds ss)))
                 = false).
    { unfold pad2. cbn [String.append]. rewrite !starts_with_head.
      rewrite !Ascii.eqb_refl.
      destruct (Ascii.eqb_spec "0" (digit_char (hh / 10 mod 10))); [|reflexivity].
      destruct (Ascii.eqb_spec "0" (digit_char (hh mod 10))); [|reflexivity].
      destruct (Ascii.eqb_spec "0" (digit_char (mm / 10 mod 10))); [|reflexivity].
      destruct (Ascii.eqb_spec "0" (digit_char (mm mod 10))); [|reflexivity].
      exfalso. destruct Hnz as [Nh|Nm]; [apply Nh | apply Nm];
        (apply pad2_zero; [lia|]); unfold pad2; congruence. }
    rewrite Hs. f_equal.
    apply (str_replace_iso_chars _ Htail).
Qed.

Lemma iso_z_whole_minutes (dt : datetime) (off : Z) :
  tzinfo dt = Some off -> valid_offset off = true -> 60000000 <= Z.abs off ->
  iso_z dt = isoformat dt.
Proof.
  intros E V Hmin. unfold iso_z, isoformat. rewrite E.
  rewrite replace_after_iso_chars by apply iso_chars_local.
  now rewrite offset_text_kept.
Qed.

(** ** Runs *)

Ltac run_cbn :=
  cbn [bind prepend ret lift emit print sleep utcnow exchange
       result final events app] in *.

Lemma prepend_nil {A : Type} (r : run A) : prepend [] r = r.
Proof. destruct r; reflexivity. Qed.

Lemma bind_ok {A B : Type} (m : M A) (f : A -> M B) (w : world) (a : A) :
  result (m w) = Ok a ->
  bind m f w = prepend (events (m w)) (f a (final (m w))).
Proof. intros H. unfold bind. rewrite H. reflexivity. Qed.

Lemma bind_raise {A B : Type} (m : M A) (f : A -> M B) (w : world) (e : exn) :
  result (m w) = Raise e ->
  bind m f w = mkRun (Raise e) (final (m w)) (events (m w)).
Proof. intros H. unfold bind. rewrite H. reflexivity. Qed.

Lemma bind_assoc {A B C : Type} (m : M A) (f : A -> M B) (g : B -> M C)
    (w : world) :
  bind (bind m f) g w = bind m (fun a => bind (f a) g) w.
Proof.
  unfold bind. destruct (result (m w)) as [a|e]; cbn; [|reflexivity].
  destruct (result (f a (final (m w)))) as [b|e]; cbn.
  - unfold prepend; cbn. now rewrite app_assoc.
  - reflexivity.
Qed.

Lemma bind_ret {A B : Type} (a : A) (f : A -> M B) (w : world) :
  bind (ret a) f w = f a w.
Proof. unfold bind; cbn. apply prepend_nil. Qed.

Lemma bind_lift_ok {A B : Type} (a : A) (f : A -> M B) (w : world) :
  bind (lift (Ok a)) f w = f a w.
Proof. unfold bind; cbn. apply prepend_nil. Qed.

Lemma bind_lift_raise {A B : Type} (e : exn) (f : A -> M B) (w : world) :
  bind (lift (Raise e)) f w = mkRun (Raise e) w [].
Proof. reflexivity. Qed.

Lemma bind_print {B : Type} (m : message) (f : unit -> M B) (w : world) :
  bind (print m) f w = prepend [EPrint m] (f tt w).
Proof. reflexivity. Qed.

Lemma bind_sleep {B : Type} (n : Z) (f : unit -> M B) (w : world) :
  bind (sleep n) f w = prepend [ESleep n] (f tt w).
Proof. reflexivity. Qed.

Lemma bind_utcnow {B : Type} (f : datetime -> M B) (w : world) :
  bind utcnow f w = f (as_naive (clock w (ticks w))) (ticked w).
Proof. unfold bind; cbn. apply prepend_nil. Qed.

Lemma returns_ret {A : Type} (Q : A -> Prop) (a : A) : Q a -> returns Q (ret a).
Proof. intros Ha w a' H. injection H as <-. exact Ha. Qed.

Lemma returns_bind {A B : Type} (Q : B -> Prop) (m : M A) (f : A -> M B) :
  (forall a, returns Q (f a)) -> returns Q (bind m f).
Proof.
  intros Hf w b. unfold bind.
  destruct (result (m w)) as [a|e]; cbn [prepend result].
  - apply Hf.
  - discriminate.
Qed.

Lemma returns_bind_with {A B : Type} (R : A -> Prop) (Q : B -> Prop)
    (m : M A) (f : A -> M B) :
  returns R m -> (forall a, R a -> returns Q (f a)) -> returns Q (bind m f).
Proof.
  intros Hm Hf w b. unfold bind.
  destruct (result (m w)) as [a|e] eqn:E; cbn [prepend result].
  - apply (Hf a (Hm w a E)).
  - discriminate.
Qed.

(** What [post_data] does, all at once. *)
Lemma post_data_run (url : string) (data : json) (w : world) :
  post_data url data w
  = mkRun (Ok (answer (server w (requests w)))) (served w)
      (EPost url data
       :: match server w (requests w) with
          | Some _ => []
          | None => [EPrint MsgErrorPosting]
          end).
Proof.
  unfold post_data, bind, exchange; cbn.
  destruct (server w (requests w)); reflexivity.
Qed.

Lemma bind_post_data {B : Type} (url : string) (data : json) (f : json -> M B)
    (w : world) :
  bind (post_data url data) f w
  = prepend (EPost url data
             :: match server w (requests w) with
                | Some _ => []
                | None => [EPrint MsgErrorPosting]
                end)
      (f (answer (server w (requests w))) (served w)).
Proof.
  unfold bind at 1. rewrite post_data_run. reflexivity.
Qed.

Lemma pace_app (a b : list event) : pace (a ++ b) = pace a ++ pace b.
Proof. apply filter_app. Qed.

Lemma pace_cons (e : event) (l : list event) :
  pace (e :: l) = if paced e then e :: pace l else pace l.
Proof. reflexivity. Qed.

Ltac pace_norm := repeat (rewrite pace_app || rewrite pace_cons).

Lemma task_posts_pace (evs : list event) : task_posts (pace evs) = task_posts evs.
Proof.
  induction evs as [|e evs IH]; [reflexivity|].
  destruct e as [q|m|u o|u d|n]; cbn [pace filter paced task_posts];
    fold (pace evs); try assumption.
  destruct (String.eqb u tasks_url); [now rewrite IH | assumption].
Qed.

Lemma sleeps_pace (evs : list event) : sleeps (pace evs) = sleeps evs.
Proof.
  induction evs as [|e evs IH]; [reflexivity|].
  destruct e as [q|m|u o|u d|n]; cbn [pace filter paced sleeps];
    fold (pace evs); try assumption.
  now rewrite IH.
Qed.

Lemma get_data_run (url : string) (params : option json) (w : world) :
  get_data url params w
  = mkRun (Ok (answer (server w (requests w)))) (served w)
      (EGet url params
       :: match server w (requests w) with
          | Some _ => []
          | None => [EPrint MsgErrorFetching]
          end).
Proof.
  unfold get_data, bind, exchange. cbn.
  destruct (server w (requests w)); reflexivity.
Qed.

(** ** Events that never occur *)

Lemma every_ret (ok : event -> bool) {A : Type} (a : A) : every ok (ret a).
Proof. intros w; reflexivity. Qed.

Lemma every_lift (ok : event -> bool) {A : Type} (r : outcome A) : every ok (lift r).
Proof. intros w; reflexivity. Qed.

Lemma every_utcnow (ok : event -> bool) : every ok utcnow.
Proof. intros w; reflexivity. Qed.

Lemma every_print (ok : event -> bool) (m : message) :
  ok (EPrint m) = true -> every ok (print m).
Proof. intros H w. cbn. now rewrite H. Qed.

Lemma every_input (ok : event -> bool) (p : prompt) :
  ok (EInput p) = true -> every ok (input p).
Proof. intros H w. unfold input. destruct (stdin w); cbn; now rewrite H. Qed.

Lemma every_bind (ok : event -> bool) {A B : Type} (m : M A) (f : A -> M B) :
  every ok m -> (forall a, every ok (f a)) -> every ok (bind m f).
Proof.
  intros Hm Hf w. unfold bind. specialize (Hm w).
  destruct (result (m w)) as [a|e]; cbn [prepend events]; [|exact Hm].
  rewrite forallb_app, Hm. exact (Hf a _).
Qed.

Lemma every_get_data (ok : event -> bool) (url : string) (params : option json) :
  ok (EGet url params) = true -> ok (EPrint MsgErrorFetching) = true ->
  every ok (get_data url params).
Proof.
  intros H1 H2 w. rewrite get_data_run. cbn [events forallb]. rewrite H1.
  destruct (server w (requests w)); cbn; [reflexivity | now rewrite H2].
Qed.

Lemma every_post_data (ok : event -> bool) (url : string) (data : json) :
  ok (EPost url data) = true -> ok (EPrint MsgErrorPosting) = true ->
  every ok (post_data url data).
Proof.
  intros H1 H2 w. rewrite post_data_run. cbn [events forallb]. rewrite H1.
  destruct (server w (requests w)); cbn; [reflexivity | now rewrite H2].
Qed.

Ltac every_step :=
  first
    [ apply every_ret | apply every_lift | apply every_utcnow
    | apply every_print; reflexivity | apply every_input; reflexivity
    | apply every_get_data; reflexivity | apply every_post_data; reflexivity
    | apply every_bind; [|intros ?]
    | match goal with
      | |- every _ (if ?b then _ else _) => destruct b
      | |- every _ (match ?x with _ => _ end) => destruct x
      end ].

Lemma every_print_schedules (ok : event -> bool) (items : list json) :
  (forall i name, ok (EPrint (MsgScheduleItem i name)) = true) ->
  forall i : nat, every ok (print_schedules i items).
Proof.
  intros H. induction items as [|x items IH]; intros i; cbn [print_schedules].
  - apply every_ret.
  - apply every_bind; [apply every_lift|intros name].
    apply every_bind; [apply every_print, H|intros _]. apply IH.
Qed.

Lemma choose_schedule_every (ok : event -> bool) (schedules : json) (count : nat)
    (lines : list string) :
  ok (EInput AskSchedule) = true -> ok (EPrint MsgNoScheduleSelected) = true ->
  ok (EPrint MsgInvalidNumber) = true -> ok (EPrint MsgInvalidSelection) = true ->
  forallb ok (snd (choose_schedule schedules count lines)) = true.
Proof.
  intros H1 H2 H3 H4.
  induction lines as [|line rest IH]; cbn [choose_schedule].
  - cbn. now rewrite H1.
  - destruct (negb (str_truthy line)); [cbn; now rewrite H1, H2|].
    destruct (py_int line) as [choice|].
    + destruct (choice =? 0); [cbn; now rewrite H1|].
      destruct ((1 <=? choice) && (choice <=? Z.of_nat count))%bool;
        [cbn; now rewrite H1|].
      destruct (choose_schedule schedules count rest) as [[r rest'] evs].
      cbn [snd forallb] in *. now rewrite H1, H4, IH.
    + destruct (choose_schedule schedules count rest) as [[r rest'] evs].
      cbn [snd forallb] in *. now rewrite H1, H3, IH.
Qed.

Lemma every_select_schedule (ok : event -> bool) (schedules : json) (count : nat) :
  ok (EInput AskSchedule) = true -> ok (EPrint MsgNoScheduleSelected) = true ->
  ok (EPrint MsgInvalidNumber) = true -> ok (EPrint MsgInvalidSelection) = true ->
  every ok (select_schedule schedules count).
Proof.
  intros H1 H2 H3 H4 w. unfold select_schedule.
  pose proof (choose_schedule_every ok schedules count (stdin w) H1 H2 H3 H4) as H.
  destruct (choose_schedule schedules count (stdin w)) as [[r rest] evs].
  exact H.
Qed.

(** The questions before the loop print no progress line and show no
    payload. *)
Lemma gather_params_no_report (workspace : json) :
  every not_loop_report (gather_params workspace).
Proof.
  unfold gather_params, create_project, list_schedules.
  repeat (first [ apply every_print_schedules; reflexivity
                | apply every_select_schedule; reflexivity
                | every_step ]).
Qed.

(** ** The due date of a task *)

Lemma derive_due_date_run (delta : Z) (kv : list (string * json)) (s : string) (w : world) :
  due_text kv = Some s ->
  derive_due_date delta (JObj kv) w
  = match due_parse s with
    | Some parsed => mkRun (add_days parsed delta) w []
    | None => mkRun (Ok (as_naive (clock w (ticks w)))) (ticked w)
                [EPrint (MsgInvalidDate (JStr s))]
    end.
Proof.
  unfold due_text, due_parse, derive_due_date, py_get, replace_method. intros H.
  destruct (assoc "dueDate" kv) as [[]|]; try discriminate; injection H as <-;
    run_cbn; (destruct (fromisoformat _); [destruct (add_days _ _)|]); reflexivity.
Qed.

Lemma derive_due_date_inv (delta : Z) (td : json) (w : world) (due : datetime) :
  result (derive_due_date delta td w) = Ok due ->
  exists kv s, td = JObj kv /\ due_text kv = Some s.
Proof.
  unfold due_text, derive_due_date, py_get, replace_method.
  destruct td; run_cbn; try discriminate. intros H.
  exists kv. destruct (assoc "dueDate" kv) as [[]|]; run_cbn; try discriminate; eauto.
Qed.

Lemma same_but_ticks_refl (w : world) : same_but_ticks w w.
Proof. repeat split; auto. Qed.

Lemma same_but_ticks_ticked (w w' : world) :
  same_but_ticks w w' -> same_but_ticks w (ticked w').
Proof.
  intros (H1 & H2 & H3 & H4 & H5 & H6). repeat split; cbn; auto.
Qed.

Lemma derive_due_date_quiet (delta : Z) (td : json) (w : world) (due : datetime) :
  result (derive_due_date delta td w) = Ok due ->
  pace (events (derive_due_date delta td w)) = []
  /\ same_but_ticks w (final (derive_due_date delta td w)).
Proof.
  intros H. destruct (derive_due_date_inv _ _ _ _ H) as (kv & s & -> & Hs).
  rewrite (derive_due_date_run _ _ _ _ Hs) in *.
  destruct (due_parse s); cbn; split; auto using same_but_ticks_refl.
  apply same_but_ticks_ticked, same_but_ticks_refl.
Qed.

(** ** The payload of a task *)

Lemma build_payload_inv (P : run_params) (td : json) (w : world)
    (p : list (string * json)) :
  result (build_payload P td w) = Ok p ->
  exists kv due name wsid priority,
    td = JObj kv
    /\ result (derive_due_date (due_date_delta P) td w) = Ok due
    /\ assoc "name" kv = Some name
    /\ py_getitem (workspace P) "id" = Ok wsid
    /\ assoc "priority" kv = Some priority
    /\ events (build_payload P td w) = events (derive_due_date (due_date_delta P) td w)
    /\ let w1 := final (derive_due_date (due_date_delta P) td w) in
       let base :=
         [("name", name); ("workspaceId", wsid); ("dueDate", JStr (iso_z due));
          ("duration", match assoc "duration" kv with Some d => d | None => JNum 30 end);
          ("priority", priority)]
         ++ (if truthy (project_id P) then [("projectId", project_id P)] else []) in
       if (truthy (selected_schedule P) || use_autoschedule P)%bool
       then p = base ++ [("autoScheduled",
                          auto_block (as_naive (clock w1 (ticks w1)))
                            (if truthy (selected_schedule P) then selected_schedule P
                             else JStr "Work Hours"))]
            /\ final (build_payload P td w) = ticked w1
       else p = base /\ final (build_payload P td w) = w1.
Proof.
  intros H.
  destruct (result (derive_due_date (due_date_delta P) td w)) as [due|e] eqn:E0.
  2:{ unfold build_payload, bind in H. rewrite E0 in H. discriminate. }
  destruct (derive_due_date_inv _ _ _ _ E0) as (kv & s & -> & Hs).
  exists kv, due.
  unfold build_payload, bind in *. rewrite E0 in *. 
  unfold auto_scheduled, py_getitem, py_get in *. run_cbn.
  destruct (assoc "name" kv) as [name|]; run_cbn; [|discriminate].
  destruct (workspace P) as [| | | | |wkv]; run_cbn; try discriminate.
  destruct (assoc "id" wkv) as [wsid|]; run_cbn; [|discriminate].
  destruct (assoc "duration" kv) as [duration|]; run_cbn;
    (destruct (assoc "priority" kv) as [priority|]; run_cbn; [|discriminate]);
    exists name, wsid, priority;
    (destruct (truthy (project_id P)); destruct (truthy (selected_schedule P));
     destruct (use_autoschedule P); run_cbn; cbn [andb orb negb dict_set String.eqb Ascii.eqb Bool.eqb] in *;
     injection H as <-; rewrite ?app_nil_r; repeat split; reflexivity).
Qed.

Lemma build_payload_quiet (P : run_params) (td : json) (w : world)
    (p : list (string * json)) :
  result (build_payload P td w) = Ok p ->
  pace (events (build_payload P td w)) = []
  /\ same_but_ticks w (final (build_payload P td w)).
Proof.
  intros H.
  destruct (build_payload_inv _ _ _ _ H)
    as (kv & due & name & wsid & priority & -> & Hd & _ & _ & _ & He & Hp).
  destruct (derive_due_date_quiet _ _ _ _ Hd) as (Q1 & Q2).
  rewrite He. cbv zeta in Hp.
  destruct (truthy (selected_schedule P) || use_autoschedule P)%bool;
    destruct Hp as [_ ->]; split; auto using same_but_ticks_ticked.
Qed.

(** A payload can be built from every derivable spec. *)
Lemma build_payload_total (P : run_params) (td : json) (w : world) :
  derivable P td = true -> is_ok (result (build_payload P td w)) = true.
Proof.
  unfold derivable. destruct td as [| | | | |kv]; try discriminate.
  destruct (assoc "name" kv) as [name|] eqn:En; [|discriminate].
  destruct (assoc "priority" kv) as [priority|] eqn:Ep; [|discriminate].
  destruct (due_text kv) as [s|] eqn:Es; [|discriminate].
  intros H. apply andb_prop in H. destruct H as [Hw Hd].
  destruct (py_getitem (workspace P) "id") as [wsid|] eqn:Ew; [|discriminate].
  unfold build_payload.
  assert (exists due, result (derive_due_date (due_date_delta P) (JObj kv) w) = Ok due)
    as [due E0].
  { rewrite (derive_due_date_run _ _ _ _ Es).
    destruct (due_parse s) as [parsed|]; cbn.
    - destruct (add_days parsed (due_date_delta P)); [eauto | discriminate].
    - eauto. }
  rewrite (bind_ok _ _ _ _ E0).
  unfold py_getitem at 1. rewrite En, bind_lift_ok, Ew, bind_lift_ok.
  unfold py_get, py_getitem. rewrite Ep. 
  destruct (assoc "duration" kv); rewrite !bind_lift_ok;
    destruct (truthy (selected_schedule P)); destruct (use_autoschedule P);
    reflexivity.
Qed.

(** Derivable specs are the specs a payload is built from. *)
Lemma build_payload_derivable (P : run_params) (td : json) (w : world)
    (p : list (string * json)) :
  result (build_payload P td w) = Ok p -> derivable P td = true.
Proof.
  intros H.
  destruct (build_payload_inv _ _ _ _ H)
    as (kv & due & name & wsid & priority & -> & Hd & Hn & Hw & Hp & _).
  destruct (derive_due_date_inv _ _ _ _ Hd) as (kv' & s & E & Hs).
  injection E as <-.
  unfold derivable. rewrite Hn, Hp, Hs, Hw. cbn [is_ok andb].
  rewrite (derive_due_date_run _ _ _ _ Hs) in Hd.
  destruct (due_parse s) as [parsed|]; [|reflexivity].
  cbn in Hd. rewrite Hd. reflexivity.
Qed.

(** ** One turn of the loop *)

Lemma same_but_ticks_requests (w w' : world) :
  same_but_ticks w w' -> requests w' = requests w /\ server w' = server w.
Proof. intros (H1 & H2 & H3 & H4 & H5 & H6). auto. Qed.

Ltac run_steps :=
  repeat (first [ rewrite bind_assoc | rewrite bind_lift_ok | rewrite bind_print
                | rewrite bind_ret | rewrite bind_sleep ]; cbv beta iota).

(** A turn that does not raise built a payload, got a countable answer,
    sent the payload once and slept once, and moved one counter by one. *)
Lemma dispatch_task_inv (P : run_params) (total i : nat) (td : json)
    (s f : Z) (w : world) (c' : Z * Z) :
  result (dispatch_task P total i td (s, f) w) = Ok c' ->
  exists p,
    result (build_payload P td w) = Ok p
    /\ let w1 := final (build_payload P td w) in
       let body := answer (server w (requests w)) in
       countable body = true
       /\ (has_id body = Ok true /\ c' = (s + 1, f)
           \/ has_id body = Ok false /\ c' = (s, f + 1))
       /\ final (dispatch_task P total i td (s, f) w) = served w1
       /\ pace (events (dispatch_task P total i td (s, f) w)) = submit_then_sleep p.
Proof.
  unfold dispatch_task. rewrite bind_print.
  destruct (result (build_payload P td w)) as [p|e] eqn:E0.
  2:{ rewrite (bind_raise _ _ _ _ E0). discriminate. }
  destruct (build_payload_quiet _ _ _ _ E0) as (Q & F).
  destruct (same_but_ticks_requests _ _ F) as [Fr Fs].
  destruct (build_payload_inv _ _ _ _ E0) as (kv & _ & name & _ & _ & -> & _ & En & _).
  assert (Hname : py_getitem (JObj kv) "name" = Ok name)
    by (unfold py_getitem; now rewrite En).
  rewrite (bind_ok _ _ _ _ E0), bind_post_data, Fr, Fs, Hname.
  cbv zeta. unfold countable.
  set (body := answer (server w (requests w))).
  set (err := match server w (requests w) with
              | Some _ => []
              | None => [EPrint MsgErrorPosting]
              end).
  assert (Herr : pace err = [])
    by (subst err; destruct (server w (requests w)); reflexivity).
  destruct (has_id body) as [[|]|e].
  - rewrite bind_lift_ok; cbv beta iota. rewrite bind_assoc, bind_lift_ok.
    destruct (py_getitem body "id") as [id|e].
    + run_steps. cbn [prepend result final events].
      intros H. injection H as <-. exists p. repeat split; auto.
      pace_norm. rewrite Q, Herr. reflexivity.
    + rewrite bind_assoc, bind_lift_raise; cbn [prepend result]. discriminate.
  - run_steps. cbn [prepend result final events].
    intros H. injection H as <-. exists p. repeat split; auto.
    pace_norm. rewrite Q, Herr. reflexivity.
  - rewrite bind_lift_raise; cbn [prepend result]. discriminate.
Qed.

(** A turn on a derivable spec with a countable answer does not raise. *)
Lemma dispatch_task_total (P : run_params) (total i : nat) (td : json)
    (c : Z * Z) (w : world) :
  derivable P td = true ->
  countable (answer (server w (requests w))) = true ->
  is_ok (result (dispatch_task P total i td c w)) = true.
Proof.
  intros Hd Hc. destruct c as [s f].
  pose proof (build_payload_total P td w Hd) as Hb.
  destruct (result (build_payload P td w)) as [p|e] eqn:E0; [|discriminate].
  destruct (build_payload_quiet _ _ _ _ E0) as (Q & F).
  destruct (same_but_ticks_requests _ _ F) as [Fr Fs].
  destruct (build_payload_inv _ _ _ _ E0) as (kv & _ & name & _ & _ & -> & _ & En & _).
  assert (Hname : py_getitem (JObj kv) "name" = Ok name)
    by (unfold py_getitem; now rewrite En).
  unfold dispatch_task.
  rewrite bind_print, (bind_ok _ _ _ _ E0), bind_post_data, Fr, Fs, Hname.
  unfold countable in Hc.
  destruct (has_id (answer (server w (requests w)))) as [[|]|e]; [| |discriminate Hc].
  - destruct (py_getitem (answer (server w (requests w))) "id") as [id|e];
      [|discriminate Hc].
    run_steps. reflexivity.
  - run_steps. reflexivity.
Qed.

(** ** The loop *)

Lemma ids_answered_bounds (srv : nat -> option json) (n k : nat) :
  0 <= ids_answered srv k n <= Z.of_nat n.
Proof.
  revert k. induction n as [|n IH]; intros k; cbn [ids_answered].
  - lia.
  - specialize (IH (S k)).
    destruct (has_id (answer (srv k))) as [[|]|]; lia.
Qed.

(** A run of the loop that does not raise: a payload was built for every
    spec in turn, each was sent once and followed by the delay, and the
    successes are the answers with an id, the failures the others. *)
Lemma dispatch_loop_inv (P : run_params) (total : nat) (tasks : list json) :
  forall (i : nat) (c : Z * Z) (w : world) (c' : Z * Z),
  result (dispatch_loop P total i tasks c w) = Ok c' ->
  exists steps,
    steps_of P (clock w) (ticks w) tasks steps
    /\ pace (events (dispatch_loop P total i tasks c w)) = submissions steps
    /\ fst c' = fst c + ids_answered (server w) (requests w) (List.length tasks)
    /\ snd c' = snd c + (Z.of_nat (List.length tasks)
                         - ids_answered (server w) (requests w) (List.length tasks))
    /\ requests (final (dispatch_loop P total i tasks c w))
       = (requests w + List.length tasks)%nat
    /\ stdin (final (dispatch_loop P total i tasks c w)) = stdin w.
Proof.
  induction tasks as [|td rest IH]; intros i c w c'; cbn [dispatch_loop].
  - cbn. intros H. injection H as <-. exists []. cbn.
    repeat split; auto; lia.
  - destruct c as [s f].
    destruct (result (dispatch_task P total i td (s, f) w)) as [c1|e] eqn:E1.
    2:{ rewrite (bind_raise _ _ _ _ E1). discriminate. }
    rewrite (bind_ok _ _ _ _ E1). cbn [prepend result final events].
    destruct (dispatch_task_inv _ _ _ _ _ _ _ _ E1) as (p & Hp & Hc & Hcount & Hw & He).
    destruct (build_payload_quiet _ _ _ _ Hp) as (_ & Fc & Fs & Ff & Fi & Fr & Ft).
    rewrite Hw. intros H.
    destruct (IH _ _ _ _ H) as (steps & S1 & S2 & S3 & S4 & S5 & S6).
    exists ((w, p) :: steps).
    cbn [served clock ticks server requests stdin] in *.
    rewrite Fc, Fs, Fr in *.
    split; [|split; [|split; [|split; [|split]]]].
    + cbn [steps_of]. repeat split; auto.
    + rewrite pace_app, He, S2. reflexivity.
    + rewrite S3. cbn [List.length ids_answered].
      destruct Hcount as [[-> ->]|[-> ->]]; cbn [fst]; lia.
    + rewrite S4. cbn [List.length ids_answered].
      destruct Hcount as [[-> ->]|[-> ->]]; cbn [snd]; lia.
    + rewrite S5. cbn [List.length]. lia.
    + rewrite S6. exact Fi.
Qed.

(** The loop over derivable specs, with countable answers, does not
    raise. *)
Lemma dispatch_loop_total (P : run_params) (total : nat) (tasks : list json) :
  forall (i : nat) (c : Z * Z) (w : world),
  forallb (derivable P) tasks = true ->
  (forall k : nat, (requests w <= k)%nat -> countable (answer (server w k)) = true) ->
  is_ok (result (dispatch_loop P total i tasks c w)) = true.
Proof.
  induction tasks as [|td rest IH]; intros i c w Hd Hc; cbn [dispatch_loop].
  - reflexivity.
  - cbn [forallb] in Hd. apply andb_prop in Hd. destruct Hd as [Hd1 Hd2].
    pose proof (dispatch_task_total P total i td c w Hd1 (Hc _ (le_n _))) as Ht.
    destruct (result (dispatch_task P total i td c w)) as [c1|e] eqn:E1;
      [|discriminate].
    rewrite (bind_ok _ _ _ _ E1). cbn [prepend result].
    apply IH; [exact Hd2|].
    destruct c as [s f].
    destruct (dispatch_task_inv _ _ _ _ _ _ _ _ E1) as (p & Hp & _ & _ & Hw & _).
    destruct (build_payload_quiet _ _ _ _ Hp) as (_ & _ & Fs & _ & _ & Fr & _).
    rewrite Hw. cbn [served server requests]. rewrite Fs, Fr.
    intros k Hk. apply Hc. lia.
Qed.

(** ** The questions before the loop *)

Lemma preparatory_quiet (evs : list event) :
  forallb preparatory evs = true -> task_posts evs = [] /\ sleeps evs = [].
Proof.
  induction evs as [|e evs IH]; [auto|].
  cbn [forallb]. intros H. apply andb_prop in H. destruct H as [He Hr].
  destruct (IH Hr) as [IH1 IH2].
  destruct e as [q|m|u o|u d|n]; cbn [task_posts sleeps preparatory] in *;
    auto; try discriminate He.
  destruct (String.eqb u tasks_url); [discriminate He | auto].
Qed.

Lemma calm_ret {A : Type} (a : A) : calm (ret a).
Proof. intros w; reflexivity. Qed.

Lemma calm_lift {A : Type} (r : outcome A) : calm (lift r).
Proof. intros w; reflexivity. Qed.

Lemma calm_print (m : message) : calm (print m).
Proof. intros w; reflexivity. Qed.

Lemma calm_input (p : prompt) : calm (input p).
Proof. intros w; unfold input. destruct (stdin w); reflexivity. Qed.

Lemma calm_utcnow : calm utcnow.
Proof. intros w; reflexivity. Qed.

Lemma calm_bind {A B : Type} (m : M A) (f : A -> M B) :
  calm m -> (forall a, calm (f a)) -> calm (bind m f).
Proof.
  intros Hm Hf w. unfold bind.
  destruct (result (m w)) as [a|e]; cbn [prepend events].
  - rewrite forallb_app, Hm, Hf. reflexivity.
  - apply Hm.
Qed.

Lemma calm_get_data (url : string) (params : option json) : calm (get_data url params).
Proof.
  intros w. unfold get_data, bind, exchange; cbn.
  destruct (server w (requests w)); reflexivity.
Qed.

Lemma calm_post_project (data : json) : calm (post_data projects_url data).
Proof.
  intros w. rewrite post_data_run. cbn [events].
  destruct (server w (requests w)); reflexivity.
Qed.

Ltac calm_step :=
  first
    [ apply calm_ret | apply calm_lift | apply calm_print | apply calm_input
    | apply calm_utcnow | apply calm_get_data | apply calm_post_project
    | apply calm_bind; [|intros ?]
    | match goal with
      | |- calm (if ?b then _ else _) => destruct b
      | |- calm (match ?x with _ => _ end) => destruct x
      end ].

Lemma calm_list_schedules : calm list_schedules.
Proof. unfold list_schedules. repeat calm_step. Qed.

Lemma calm_create_project (workspace : json) (delta : Z) :
  calm (create_project workspace delta).
Proof. unfold create_project. repeat calm_step. Qed.

Lemma calm_print_schedules (items : list json) :
  forall i : nat, calm (print_schedules i items).
Proof.
  induction items as [|x items IH]; intros i; cbn [print_schedules].
  - apply calm_ret.
  - repeat calm_step. apply IH.
Qed.

Lemma choose_schedule_events (schedules : json) (count : nat) (lines : list string) :
  forallb preparatory (snd (choose_schedule schedules count lines)) = true.
Proof.
  induction lines as [|line rest IH]; cbn [choose_schedule].
  - reflexivity.
  - destruct (negb (str_truthy line)); [reflexivity|].
    destruct (py_int line) as [choice|].
    + destruct (choice =? 0); [reflexivity|].
      destruct ((1 <=? choice) && (choice <=? Z.of_nat count))%bool; [reflexivity|].
      destruct (choose_schedule schedules count rest) as [[r rest'] evs].
      exact IH.
    + destruct (choose_schedule schedules count rest) as [[r rest'] evs].
      exact IH.
Qed.

Lemma calm_select_schedule (schedules : json) (count : nat) :
  calm (select_schedule schedules count).
Proof.
  intros w. unfold select_schedule.
  pose proof (choose_schedule_events schedules count (stdin w)) as H.
  destruct (choose_schedule schedules count (stdin w)) as [[r rest] evs].
  exact H.
Qed.

(** Before the loop no task is submitted and nothing sleeps. *)
Lemma calm_gather_params (workspace : json) : calm (gather_params workspace).
Proof.
  unfold gather_params.
  repeat (first [ apply calm_create_project | apply calm_list_schedules
                | apply calm_print_schedules | apply calm_select_schedule
                | calm_step ]).
Qed.

Lemma steady_ret {A : Type} (a : A) : steady (ret a).
Proof. intros w; repeat split. Qed.

Lemma steady_lift {A : Type} (r : outcome A) : steady (lift r).
Proof. intros w; repeat split. Qed.

Lemma steady_print (m : message) : steady (print m).
Proof. intros w; repeat split. Qed.

Lemma steady_input (p : prompt) : steady (input p).
Proof. intros w; unfold input. destruct (stdin w); repeat split. Qed.

Lemma steady_utcnow : steady utcnow.
Proof. intros w; repeat split. Qed.

Lemma steady_bind {A B : Type} (m : M A) (f : A -> M B) :
  steady m -> (forall a, steady (f a)) -> steady (bind m f).
Proof.
  intros Hm Hf w. unfold bind.
  destruct (result (m w)) as [a|e]; cbn [prepend final].
  - destruct (Hm w) as (M1 & M2 & M3).
    destruct (Hf a (final (m w))) as (F1 & F2 & F3).
    rewrite F1, F2, F3. auto.
  - apply Hm.
Qed.

Lemma steady_get_data (url : string) (params : option json) :
  steady (get_data url params).
Proof.
  intros w. unfold get_data, bind, exchange; cbn.
  destruct (server w (requests w)); repeat split.
Qed.

Lemma steady_post_data (url : string) (data : json) : steady (post_data url data).
Proof. intros w. rewrite post_data_run. repeat split. Qed.

Ltac steady_step :=
  first
    [ apply steady_ret | apply steady_lift | apply steady_print | apply steady_input
    | apply steady_utcnow | apply steady_get_data | apply steady_post_data
    | apply steady_bind; [|intros ?]
    | match goal with
      | |- steady (if ?b then _ else _) => destruct b
      | |- steady (match ?x with _ => _ end) => destruct x
      end ].

Lemma steady_print_schedules (items : list json) :
  forall i : nat, steady (print_schedules i items).
Proof.
  induction items as [|x items IH]; intros i; cbn [print_schedules].
  - apply steady_ret.
  - repeat steady_step. apply IH.
Qed.

Lemma steady_select_schedule (schedules : json) (count : nat) :
  steady (select_schedule schedules count).
Proof.
  intros w. unfold select_schedule.
  destruct (choose_schedule schedules count (stdin w)) as [[r rest] evs].
  repeat split.
Qed.

Lemma gather_params_frame (workspace : json) : steady (gather_params workspace).
Proof.
  unfold gather_params, create_project, list_schedules.
  repeat (first [ apply steady_print_schedules | apply steady_select_schedule
                | steady_step ]).
Qed.

(** ** The whole of [create_tasks_from_template] *)

Lemma create_tasks_rejects (workspace template : json) (w : world) :
  invalid_template template = Ok true ->
  rejected (create_tasks_from_template workspace template w) w.
Proof.
  intros H. unfold create_tasks_from_template. rewrite H, bind_lift_ok.
  repeat split.
Qed.

(** A run past the guard that does not raise: the questions, then the
    loop, then the summary. *)
Lemma create_tasks_inv (workspace template : json) (w : world) :
  invalid_template template = Ok false ->
  result (create_tasks_from_template workspace template w) = Ok tt ->
  exists P tasks s f,
    result (gather_params workspace w) = Ok P
    /\ tasks_of template = Ok tasks
    /\ let w1 := final (gather_params workspace w) in
       let loop := dispatch_loop P (List.length tasks) O tasks (0, 0) w1 in
       result loop = Ok (s, f)
       /\ events (create_tasks_from_template workspace template w)
          = events (gather_params workspace w) ++ events loop
            ++ [EPrint (MsgSummary s (List.length tasks) f)].
Proof.
  intros Hg. unfold create_tasks_from_template.
  rewrite Hg, bind_lift_ok.
  destruct (result (gather_params workspace w)) as [P|e] eqn:E0.
  2:{ rewrite (bind_raise _ _ _ _ E0). discriminate. }
  rewrite (bind_ok _ _ _ _ E0).
  destruct (tasks_of template) as [tasks|e].
  2:{ rewrite bind_lift_raise. discriminate. }
  rewrite bind_lift_ok. cbv zeta.
  destruct (result (dispatch_loop P (List.length tasks) 0 tasks (0, 0)
                      (final (gather_params workspace w)))) as [[s f]|e] eqn:E1.
  2:{ rewrite (bind_raise _ _ _ _ E1). discriminate. }
  rewrite (bind_ok _ _ _ _ E1). intros _.
  exists P, tasks, s, f. repeat split. exact E1.
Qed.

(** Past the guard, with the questions answered, derivable specs and
    countable answers, the run does not raise. *)
Lemma create_tasks_total (workspace template : json) (w : world)
    (P : run_params) (tasks : list json) :
  invalid_template template = Ok false ->
  result (gather_params workspace w) = Ok P ->
  tasks_of template = Ok tasks ->
  forallb (derivable P) tasks = true ->
  (forall k : nat, (requests (final (gather_params workspace w)) <= k)%nat ->
                   countable (answer (server w k)) = true) ->
  result (create_tasks_from_template workspace template w) = Ok tt.
Proof.
  intros Hg E0 Et Hd Hc. unfold create_tasks_from_template.
  rewrite Hg, bind_lift_ok, (bind_ok _ _ _ _ E0), Et, bind_lift_ok.
  cbv zeta.
  assert (Hs : server (final (gather_params workspace w)) = server w)
    by apply (gather_params_frame workspace w).
  pose proof (dispatch_loop_total P (List.length tasks) tasks O (0, 0)
                (final (gather_params workspace w)) Hd) as Hl.
  rewrite Hs in Hl. specialize (Hl Hc).
  destruct (result (dispatch_loop P (List.length tasks) 0 tasks (0, 0)
                      (final (gather_params workspace w)))) as [[s f]|e] eqn:E1;
    [|discriminate].
  rewrite (bind_ok _ _ _ _ E1). reflexivity.
Qed.

(** ** The fields of a payload *)

Lemma build_payload_fields (P : run_params) (td : json) (w : world)
    (p : list (string * json)) :
  result (build_payload P td w) = Ok p ->
  exists kv due name wsid priority,
    td = JObj kv
    /\ result (derive_due_date (due_date_delta P) td w) = Ok due
    /\ assoc "name" kv = Some name
    /\ py_getitem (workspace P) "id" = Ok wsid
    /\ assoc "priority" kv = Some priority
    /\ assoc "name" p = Some name
    /\ assoc "workspaceId" p = Some wsid
    /\ assoc "dueDate" p = Some (JStr (iso_z due))
    /\ assoc "duration" p
       = Some (match assoc "duration" kv with Some d => d | None => JNum 30 end)
    /\ assoc "priority" p = Some priority
    /\ assoc "projectId" p
       = (if truthy (project_id P) then Some (project_id P) else None)
    /\ let w1 := final (derive_due_date (due_date_delta P) td w) in
       assoc "autoScheduled" p
       = if (truthy (selected_schedule P) || use_autoschedule P)%bool
         then Some (auto_block (as_naive (clock w1 (ticks w1)))
                      (if truthy (selected_schedule P) then selected_schedule P
                       else JStr "Work Hours"))
         else None.
Proof.
  intros H.
  destruct (build_payload_inv _ _ _ _ H)
    as (kv & due & name & wsid & priority & -> & Hd & Hn & Hw & Hp & _ & Hpay).
  exists kv, due, name, wsid, priority. cbv zeta in *.
  split; [reflexivity|]. repeat (split; [assumption|]).
  destruct (truthy (project_id P));
    destruct (truthy (selected_schedule P) || use_autoschedule P)%bool;
    destruct Hpay as [-> _]; repeat split; reflexivity.
Qed.

Lemma task_posts_app (a b : list event) :
  task_posts (a ++ b) = task_posts a ++ task_posts b.
Proof.
  induction a as [|e a IH]; [reflexivity|].
  destruct e as [q|m|u o|u d|n]; cbn [app task_posts]; try assumption.
  destruct (String.eqb u tasks_url); [cbn; now rewrite IH | assumption].
Qed.

Lemma sleeps_app (a b : list event) : sleeps (a ++ b) = sleeps a ++ sleeps b.
Proof.
  induction a as [|e a IH]; [reflexivity|].
  destruct e as [q|m|u o|u d|n]; cbn [app sleeps]; try assumption.
  cbn. now rewrite IH.
Qed.

Lemma task_posts_submissions (steps : list (world * list (string * json))) :
  task_posts (submissions steps) = map (fun st => JObj (snd st)) steps.
Proof.
  induction steps as [|st steps IH]; [reflexivity|].
  unfold submissions in *. cbn [flat_map map submit_then_sleep app task_posts].
  rewrite String.eqb_refl, IH. reflexivity.
Qed.

Lemma sleeps_submissions (steps : list (world * list (string * json))) :
  sleeps (submissions steps) = repeat DELAY_SECONDS (List.length steps).
Proof.
  induction steps as [|st steps IH]; [reflexivity|].
  unfold submissions in *. cbn [flat_map submit_then_sleep app sleeps List.length repeat].
  rewrite IH. reflexivity.
Qed.

Lemma submissions_flat (steps : list (world * list (string * json))) :
  submissions steps = flat_map submit_then_sleep (map snd steps).
Proof.
  induction steps as [|st steps IH]; [reflexivity|].
  unfold submissions in *. cbn [flat_map map]. now rewrite IH.
Qed.

Lemma steps_of_built (P : run_params) (clk : nat -> datetime) (tasks : list json) :
  forall (t : nat) (steps : list (world * list (string * json))),
  steps_of P clk t tasks steps -> Forall2 (built_from P) tasks (map snd steps).
Proof.
  induction tasks as [|td tasks IH]; intros t [|[w p] steps] H; cbn in H;
    try contradiction.
  - constructor.
  - destruct H as (_ & _ & Hb & Hr). cbn [map snd]. constructor.
    + exists w. exact Hb.
    + exact (IH _ _ Hr).
Qed.

Lemma Forall2_same_length {A B : Type} (R : A -> B -> Prop) (l : list A) (l' : list B) :
  Forall2 R l l' -> List.length l = List.length l'.
Proof. induction 1; cbn; congruence. Qed.

Lemma steps_of_length (P : run_params) (clk : nat -> datetime) (tasks : list json)
    (t : nat) (steps : list (world * list (string * json))) :
  steps_of P clk t tasks steps -> List.length steps = List.length tasks.
Proof.
  intros H. apply steps_of_built in H. apply Forall2_same_length in H.
  rewrite length_map in H. auto.
Qed.

(** The trace of a run that reaches the summary, cut into its parts. *)
Lemma create_tasks_trace (workspace template : json) (w : world) :
  invalid_template template = Ok false ->
  result (create_tasks_from_template workspace template w) = Ok tt ->
  exists P tasks steps s f,
    result (gather_params workspace w) = Ok P
    /\ tasks_of template = Ok tasks
    /\ steps_of P (clock w) (ticks (final (gather_params workspace w))) tasks steps
    /\ events (create_tasks_from_template workspace template w)
       = events (gather_params workspace w)
         ++ events (dispatch_loop P (List.length tasks) O tasks (0, 0)
                      (final (gather_params workspace w)))
         ++ [EPrint (MsgSummary s (List.length tasks) f)]
    /\ pace (events (create_tasks_from_template workspace template w))
       = pace (events (gather_params workspace w)) ++ submissions steps
    /\ task_posts (events (create_tasks_from_template workspace template w))
       = map (fun st => JObj (snd st)) steps
    /\ sleeps (events (create_tasks_from_template workspace template w))
       = repeat DELAY_SECONDS (List.length tasks)
    /\ s = ids_answered (server w) (requests (final (gather_params workspace w)))
             (List.length tasks)
    /\ f = Z.of_nat (List.length tasks) - s.
Proof.
  intros Hg Hr.
  destruct (create_tasks_inv _ _ _ Hg Hr) as (P & tasks & s & f & E0 & Et & El & Ee).
  cbv zeta in *.
  destruct (dispatch_loop_inv _ _ _ _ _ _ _ El) as (steps & S1 & S2 & S3 & S4 & _).
  destruct (gather_params_frame workspace w) as (Fs & Fc & _).
  destruct (preparatory_quiet _ (calm_gather_params workspace w)) as [Q1 Q2].
  rewrite Fs, Fc in *. cbn [fst snd] in *.
  exists P, tasks, steps, s, f.
  repeat (split; [assumption|]).
  assert (Hpace : pace (events (create_tasks_from_template workspace template w))
                  = pace (events (gather_params workspace w)) ++ submissions steps).
  { rewrite Ee, !pace_app, S2. cbn. now rewrite app_nil_r. }
  split; [exact Hpace|].
  split; [|split; [|split]].
  - rewrite <- task_posts_pace, Hpace, task_posts_app, task_posts_pace, Q1.
    apply task_posts_submissions.
  - rewrite <- sleeps_pace, Hpace, sleeps_app, sleeps_pace, Q2.
    rewrite sleeps_submissions, (steps_of_length _ _ _ _ _ S1). reflexivity.
  - lia.
  - lia.
Qed.

(** ** Turns and loops, whatever their outcome *)

Lemma unpaced_pace (evs : list event) :
  forallb unpaced evs = true -> pace evs = [].
Proof.
  induction evs as [|e evs IH]; [reflexivity|].
  cbn [forallb]. intros H. apply andb_prop in H. destruct H as [He Hr].
  rewrite pace_cons. unfold unpaced in He.
  destruct (paced e); [discriminate He | exact (IH Hr)].
Qed.

Lemma build_payload_unpaced (P : run_params) (td : json) :
  every unpaced (build_payload P td).
Proof.
  unfold build_payload, derive_due_date, auto_scheduled.
  repeat every_step.
Qed.

(** A turn whose payload cannot be built sends nothing; a turn whose
    answer cannot be counted has sent its payload and does not sleep. *)
Lemma dispatch_task_cases (P : run_params) (total i : nat) (td : json)
    (c : Z * Z) (w : world) :
  match result (build_payload P td w) with
  | Raise e =>
    result (dispatch_task P total i td c w) = Raise e
    /\ pace (events (dispatch_task P total i td c w)) = []
  | Ok p =>
    if countable (answer (server w (requests w)))
    then is_ok (result (dispatch_task P total i td c w)) = true
    else is_ok (result (dispatch_task P total i td c w)) = false
         /\ pace (events (dispatch_task P total i td c w)) = [EPost tasks_url (JObj p)]
  end.
Proof.
  destruct c as [s f].
  destruct (result (build_payload P td w)) as [p|e] eqn:E0.
  2:{ unfold dispatch_task. rewrite bind_print, (bind_raise _ _ _ _ E0).
      cbn [prepend result events]. split; [reflexivity|].
      pace_norm. cbn [paced].
      apply unpaced_pace, build_payload_unpaced. }
  destruct (countable (answer (server w (requests w)))) eqn:C.
  { apply dispatch_task_total; [exact (build_payload_derivable _ _ _ _ E0) | exact C]. }
  destruct (build_payload_quiet _ _ _ _ E0) as (Q & F).
  destruct (same_but_ticks_requests _ _ F) as [Fr Fs].
  destruct (build_payload_inv _ _ _ _ E0) as (kv & _ & name & _ & _ & -> & _ & En & _).
  assert (Hname : py_getitem (JObj kv) "name" = Ok name)
    by (unfold py_getitem; now rewrite En).
  unfold dispatch_task.
  rewrite bind_print, (bind_ok _ _ _ _ E0), bind_post_data, Fr, Fs, Hname.
  unfold countable in C.
  set (err := match server w (requests w) with
              | Some _ => []
              | None => [EPrint MsgErrorPosting]
              end).
  assert (Herr : pace err = [])
    by (subst err; destruct (server w (requests w)); reflexivity).
  destruct (has_id (answer (server w (requests w)))) as [[|]|e]; [|discriminate C|].
  - destruct (py_getitem (answer (server w (requests w))) "id") as [id|e];
      [discriminate C|].
    rewrite bind_lift_ok; cbv beta iota.
    rewrite bind_assoc, bind_lift_ok, bind_assoc, bind_lift_raise.
    cbn [prepend result events]. split; [reflexivity|].
    pace_norm. cbn [paced]. rewrite Q, Herr. reflexivity.
  - rewrite bind_lift_raise. cbn [prepend result events]. split; [reflexivity|].
    pace_norm. cbn [paced]. rewrite Q, Herr. reflexivity.
Qed.

Lemma underivable_not_built (P : run_params) (td : json) (w : world) (e : exn) :
  result (build_payload P td w) = Raise e -> derivable P td = false.
Proof.
  intros H. destruct (derivable P td) eqn:D; [|reflexivity].
  pose proof (build_payload_total P td w D) as T. rewrite H in T. discriminate T.
Qed.

(** The requests and sleeps of a run of the loop, whatever its outcome:
    a submission and a sleep for each spec in turn, up to the end of the
    list or to the spec the loop is cut short on.  A loop cut short
    stops before sending a spec no payload can be built from, or on the
    answer to a submission, which is then the last event: no sleep
    follows it. *)
Lemma dispatch_loop_cases (P : run_params) (total : nat) (tasks : list json) :
  forall (i : nat) (c : Z * Z) (w : world),
  exists sent : list (world * list (string * json)),
    steps_of P (clock w) (ticks w) (firstn (List.length sent) tasks) sent
    /\ (List.length sent <= List.length tasks)%nat
    /\ match result (dispatch_loop P total i tasks c w) with
       | Ok _ =>
         List.length sent = List.length tasks
         /\ pace (events (dispatch_loop P total i tasks c w)) = submissions sent
       | Raise e =>
         (exists td : json,
            nth_error tasks (List.length sent) = Some td
            /\ derivable P td = false
            /\ pace (events (dispatch_loop P total i tasks c w)) = submissions sent)
         \/ exists (done : list (world * list (string * json)))
                   (last : world * list (string * json)),
              sent = done ++ [last]
              /\ countable (answer (server w (requests w + List.length done))) = false
              /\ pace (events (dispatch_loop P total i tasks c w))
                 = submissions done ++ [EPost tasks_url (JObj (snd last))]
       end.
Proof.
  induction tasks as [|td rest IH]; intros i c w; cbn [dispatch_loop].
  - exists []. cbn. repeat split; auto.
  - pose proof (dispatch_task_cases P total i td c w) as T.
    destruct (result (build_payload P td w)) as [p|e] eqn:E0.
    2:{ destruct T as [T1 T2]. exists [].
        rewrite (bind_raise _ _ _ _ T1).
        cbn [result events List.length firstn steps_of nth_error].
        split; [exact I|]. split; [lia|]. left. exists td.
        split; [reflexivity|].
        split; [exact (underivable_not_built _ _ _ _ E0) | exact T2]. }
    destruct (countable (answer (server w (requests w)))) eqn:C.
    2:{ destruct T as [T1 T2].
        destruct (result (dispatch_task P total i td c w)) as [c1|e] eqn:E1;
          [discriminate T1|].
        exists [(w, p)]. rewrite (bind_raise _ _ _ _ E1).
        cbn [result events List.length firstn steps_of].
        split; [repeat split; auto|]. split; [lia|].
        right. exists [], (w, p). rewrite Nat.add_0_r.
        repeat split; [exact C | exact T2]. }
    destruct (result (dispatch_task P total i td c w)) as [c1|e] eqn:E1;
      [|discriminate T].
    destruct c as [s f].
    destruct (dispatch_task_inv _ _ _ _ _ _ _ _ E1) as (p' & Hp & _ & _ & Hw & He).
    rewrite E0 in Hp. injection Hp as <-.
    destruct (build_payload_quiet _ _ _ _ E0) as (_ & Fc & Fs & Ff & Fi & Fr & Ft).
    rewrite (bind_ok _ _ _ _ E1). cbn [prepend result events].
    destruct (IH (S i) c1 (final (dispatch_task P total i td (s, f) w)))
      as (sent & S1 & S2 & S3).
    rewrite Hw in *. cbn [served clock ticks server requests] in *.
    rewrite Fc, Fs, Fr in *.
    exists ((w, p) :: sent). cbn [List.length firstn steps_of].
    split; [repeat split; auto|]. split; [lia|].
    destruct (result (dispatch_loop P total (S i) rest c1
                        (served (final (build_payload P td w))))) as [c2|e].
    + destruct S3 as [L S3]. split; [congruence|].
      rewrite pace_app, He, S3. reflexivity.
    + destruct S3 as [(td' & N & D & S3)|(done & last & Hd & Hc & S3)].
      * left. exists td'. cbn [nth_error]. split; [exact N|]. split; [exact D|].
        rewrite pace_app, He, S3. reflexivity.
      * right. exists ((w, p) :: done), last.
        split; [rewrite Hd; reflexivity|].
        split; [cbn [List.length]; rewrite <- Hc; f_equal; f_equal; f_equal; lia|].
        rewrite pace_app, He, S3. reflexivity.
Qed.

(** The loop ends without raising only over derivable specs whose
    answers are countable. *)
Lemma dispatch_loop_ok_only (P : run_params) (total : nat) (tasks : list json) :
  forall (i : nat) (c : Z * Z) (w : world),
  is_ok (result (dispatch_loop P total i tasks c w)) = true ->
  forallb (derivable P) tasks = true
  /\ forall k : nat, (k < List.length tasks)%nat ->
                     countable (answer (server w (requests w + k))) = true.
Proof.
  induction tasks as [|td rest IH]; intros i c w; cbn [dispatch_loop].
  - intros _. split; [reflexivity|]. cbn. intros k Hk. lia.
  - pose proof (dispatch_task_cases P total i td c w) as T. intros H.
    destruct (result (build_payload P td w)) as [p|e] eqn:E0.
    2:{ destruct T as [T1 _]. rewrite (bind_raise _ _ _ _ T1) in H. discriminate H. }
    destruct (countable (answer (server w (requests w)))) eqn:C.
    2:{ destruct T as [T1 _].
        destruct (result (dispatch_task P total i td c w)) as [c1|e] eqn:E1;
          [discriminate T1|].
        rewrite (bind_raise _ _ _ _ E1) in H. discriminate H. }
    destruct (result (dispatch_task P total i td c w)) as [c1|e] eqn:E1;
      [|discriminate T].
    rewrite (bind_ok _ _ _ _ E1) in H. cbn [prepend result] in H.
    destruct (IH _ _ _ H) as [D K].
    destruct c as [s f].
    destruct (dispatch_task_inv _ _ _ _ _ _ _ _ E1) as (p' & Hp & _ & _ & Hw & _).
    destruct (build_payload_quiet _ _ _ _ Hp) as (_ & _ & Fs & _ & _ & Fr & _).
    rewrite Hw in K. cbn [served server requests] in K. rewrite Fs, Fr in K.
    split.
    + cbn [forallb]. now rewrite (build_payload_derivable _ _ _ _ E0), D.
    + intros [|k] Hk; [now rewrite Nat.add_0_r|].
      replace (requests w + S k)%nat with (S (requests w) + k)%nat by lia.
      apply K. cbn [List.length] in Hk. lia.
Qed.

(** The loop over derivable specs whose answers are countable does not
    raise. *)
Lemma dispatch_loop_total_upto (P : run_params) (total : nat) (tasks : list json) :
  forall (i : nat) (c : Z * Z) (w : world),
  forallb (derivable P) tasks = true ->
  (forall k : nat, (k < List.length tasks)%nat ->
                   countable (answer (server w (requests w + k))) = true) ->
  is_ok (result (dispatch_loop P total i tasks c w)) = true.
Proof.
  induction tasks as [|td rest IH]; intros i c w Hd Hc; cbn [dispatch_loop].
  - reflexivity.
  - cbn [forallb] in Hd. apply andb_prop in Hd. destruct Hd as [Hd1 Hd2].
    assert (H0 : countable (answer (server w (requests w))) = true).
    { rewrite <- (Nat.add_0_r (requests w)). apply Hc. cbn [List.length]. lia. }
    pose proof (dispatch_task_total P total i td c w Hd1 H0) as Ht.
    destruct (result (dispatch_task P total i td c w)) as [c1|e] eqn:E1;
      [|discriminate].
    rewrite (bind_ok _ _ _ _ E1). cbn [prepend result].
    apply IH; [exact Hd2|].
    destruct c as [s f].
    destruct (dispatch_task_inv _ _ _ _ _ _ _ _ E1) as (p & Hp & _ & _ & Hw & _).
    destruct (build_payload_quiet _ _ _ _ Hp) as (_ & _ & Fs & _ & _ & Fr & _).
    rewrite Hw. cbn [served server requests]. rewrite Fs, Fr.
    intros k Hk. replace (S (requests w) + k)%nat with (requests w + S k)%nat by lia.
    apply Hc. cbn [List.length]. lia.
Qed.

(** A run past the guard and the questions is the questions, the loop
    and, unless the loop was cut short, the summary. *)
Lemma create_tasks_cases (workspace template : json) (w : world)
    (P : run_params) (tasks : list json) :
  invalid_template template = Ok false ->
  result (gather_params workspace w) = Ok P ->
  tasks_of template = Ok tasks ->
  match result (dispatch_loop P (List.length tasks) O tasks (0, 0)
                  (final (gather_params workspace w))) with
  | Ok (s, f) =>
    result (create_tasks_from_template workspace template w) = Ok tt
    /\ events (create_tasks_from_template workspace template w)
       = events (gather_params workspace w)
         ++ events (dispatch_loop P (List.length tasks) O tasks (0, 0)
                      (final (gather_params workspace w)))
         ++ [EPrint (MsgSummary s (List.length tasks) f)]
  | Raise e =>
    result (create_tasks_from_template workspace template w) = Raise e
    /\ events (create_tasks_from_template workspace template w)
       = events (gather_params workspace w)
         ++ events (dispatch_loop P (List.length tasks) O tasks (0, 0)
                      (final (gather_params workspace w)))
  end.
Proof.
  intros Hg E0 Et. unfold create_tasks_from_template.
  rewrite Hg, bind_lift_ok, (bind_ok _ _ _ _ E0), Et, bind_lift_ok. cbv zeta.
  destruct (result (dispatch_loop P (List.length tasks) 0 tasks (0, 0)
                      (final (gather_params workspace w)))) as [[s f]|e] eqn:E1.
  - rewrite (bind_ok _ _ _ _ E1). split; reflexivity.
  - rewrite (bind_raise _ _ _ _ E1). cbn [prepend result events]. split; reflexivity.
Qed.

(** A run whose questions are cut short is the questions. *)
Lemma create_tasks_unasked (workspace template : json) (w : world) (e : exn) :
  invalid_template template = Ok false ->
  result (gather_params workspace w) = Raise e ->
  result (create_tasks_from_template workspace template w) = Raise e
  /\ events (create_tasks_from_template workspace template w)
     = events (gather_params workspace w).
Proof.
  intros Hg E0. unfold create_tasks_from_template.
  rewrite Hg, bind_lift_ok, (bind_raise _ _ _ _ E0). split; reflexivity.
Qed.

Lemma dispatch_task_no_summary (P : run_params) (total i : nat) (td : json)
    (c : Z * Z) :
  every not_summary (dispatch_task P total i td c).
Proof.
  destruct c as [s f].
  unfold dispatch_task, build_payload, derive_due_date, auto_scheduled.
  repeat (first [ every_step | intros w; reflexivity ]).
Qed.

Lemma dispatch_loop_no_summary (P : run_params) (total : nat) (tasks : list json) :
  forall (i : nat) (c : Z * Z), every not_summary (dispatch_loop P total i tasks c).
Proof.
  induction tasks as [|td rest IH]; intros i c; cbn [dispatch_loop].
  - apply every_ret.
  - apply every_bind; [apply dispatch_task_no_summary | intros c'; apply IH].
Qed.

Lemma gather_params_no_summary (workspace : json) :
  every not_summary (gather_params workspace).
Proof.
  unfold gather_params, create_project, list_schedules.
  repeat (first [ apply every_print_schedules; reflexivity
                | apply every_select_schedule; reflexivity
                | every_step ]).
Qed.

(** A run past the guard ends without raising exactly when the
    questions are answered, every spec is derivable and the answers to
    the submissions are countable. *)
Lemma create_tasks_completes (workspace template : json) (w : world)
    (P : run_params) (tasks : list json) :
  invalid_template template = Ok false ->
  result (gather_params workspace w) = Ok P ->
  tasks_of template = Ok tasks ->
  result (create_tasks_from_template workspace template w) = Ok tt
  <-> forallb (derivable P) tasks = true
      /\ forall k : nat, (k < List.length tasks)%nat ->
           countable
             (answer (server w (requests (final (gather_params workspace w)) + k)))
           = true.
Proof.
  intros Hg E0 Et.
  pose proof (create_tasks_cases _ _ _ _ _ Hg E0 Et) as C.
  assert (Hs : server (final (gather_params workspace w)) = server w)
    by apply (gather_params_frame workspace w).
  pose proof (dispatch_loop_total_upto P (List.length tasks) tasks O (0, 0)
                (final (gather_params workspace w))) as Hl.
  pose proof (dispatch_loop_ok_only P (List.length tasks) tasks O (0, 0)
                (final (gather_params workspace w))) as Ho.
  rewrite Hs in Hl, Ho.
  destruct (result (dispatch_loop P (List.length tasks) 0 tasks (0, 0)
                      (final (gather_params workspace w)))) as [[s f]|e].
  - split; [intros _; apply Ho; reflexivity | intros _; apply C].
  - destruct C as [C _]. split.
    + intros H. rewrite C in H. discriminate H.
    + intros [D K]. specialize (Hl D K). discriminate Hl.
Qed.

(** What a run past the guard and the questions has sent: the payloads
    of the steps of the loop, each followed by the delay but for a last
    one whose answer the loop could not count. *)
Lemma create_tasks_sent (workspace template : json) (w : world)
    (P : run_params) (tasks : list json) :
  invalid_template template = Ok false ->
  result (gather_params workspace w) = Ok P ->
  tasks_of template = Ok tasks ->
  exists sent : list (world * list (string * json)),
    steps_of P (clock w) (ticks (final (gather_params workspace w)))
      (firstn (List.length sent) tasks) sent
    /\ (List.length sent <= List.length tasks)%nat
    /\ task_posts (events (create_tasks_from_template workspace template w))
       = map (fun st => JObj (snd st)) sent
    /\ match result (create_tasks_from_template workspace template w) with
       | Ok _ =>
         List.length sent = List.length tasks
         /\ pace (events (create_tasks_from_template workspace template w))
            = pace (events (gather_params workspace w)) ++ submissions sent
       | Raise e =>
         forallb not_summary
           (events (create_tasks_from_template workspace template w)) = true
         /\ ((exists td : json,
                nth_error tasks (List.length sent) = Some td
                /\ derivable P td = false
                /\ pace (events (create_tasks_from_template workspace template w))
                   = pace (events (gather_params workspace w)) ++ submissions sent)
             \/ exists (done : list (world * list (string * json)))
                       (last : world * list (string * json)),
                  sent = done ++ [last]
                  /\ countable
                       (answer (server w (requests (final (gather_params workspace w))
                                          + List.length done)))
                     = false
                  /\ pace (events (create_tasks_from_template workspace template w))
                     = pace (events (gather_params workspace w))
                       ++ submissions done ++ [EPost tasks_url (JObj (snd last))])
       end.
Proof.
  intros Hg E0 Et.
  pose proof (create_tasks_cases _ _ _ _ _ Hg E0 Et) as C.
  destruct (dispatch_loop_cases P (List.length tasks) tasks O (0, 0)
              (final (gather_params workspace w))) as (sent & S1 & S2 & S3).
  destruct (gather_params_frame workspace w) as (Fs & Fc & _).
  destruct (preparatory_quiet _ (calm_gather_params workspace w)) as [Q1 Q2].
  rewrite Fs, Fc in *.
  exists sent. split; [exact S1|]. split; [exact S2|].
  assert (Posts : forall evs,
             pace evs = submissions sent
             \/ (exists done last, sent = done ++ [last]
                  /\ pace evs = submissions done ++ [EPost tasks_url (JObj (snd last))]) ->
             task_posts evs = map (fun st => JObj (snd st)) sent).
  { intros evs [H|(done & last & -> & H)];
      rewrite <- task_posts_pace, H.
    - apply task_posts_submissions.
    - rewrite task_posts_app, task_posts_submissions, map_app.
      cbn [task_posts map]. now rewrite String.eqb_refl. }
  destruct (result (dispatch_loop P (List.length tasks) 0 tasks (0, 0)
                      (final (gather_params workspace w)))) as [[s f]|e].
  - destruct C as [C1 C2]. destruct S3 as [L S3]. rewrite C1, C2.
    split.
    + rewrite !task_posts_app, Q1. cbn [task_posts app]. rewrite app_nil_r.
      apply Posts. now left.
    + split; [exact L|]. rewrite !pace_app, S3. cbn. now rewrite app_nil_r.
  - destruct C as [C1 C2]. rewrite C1, C2.
    split.
    + rewrite task_posts_app, Q1. cbn [app]. apply Posts.
      destruct S3 as [(_ & _ & _ & S3)|(done & last & Hd & _ & S3)]; [now left|].
      right. exists done, last. split; assumption.
    + split.
      * rewrite forallb_app, (gather_params_no_summary workspace w).
        apply dispatch_loop_no_summary.
      * destruct S3 as [(td & N & D & S3)|(done & last & Hd & Hc & S3)].
        -- left. exists td. split; [exact N|]. split; [exact D|].
           now rewrite pace_app, S3.
        -- right. exists done, last. split; [exact Hd|]. split; [exact Hc|].
           now rewrite pace_app, S3.
Qed.

Lemma steps_of_built_prefix (P : run_params) (clk : nat -> datetime) (t : nat)
    (tasks : list json) (steps : list (world * list (string * json))) :
  steps_of P clk t (firstn (List.length steps) tasks) steps ->
  Forall2 (built_from P) (firstn (List.length (map snd steps)) tasks) (map snd steps).
Proof. rewrite length_map. apply steps_of_built. Qed.

(** A template with a list of task specs passes the guard, and the specs
    are what the loop goes over. *)
Lemma tasks_list_accepted (kv : list (string * json)) (tasks : list json) :
  assoc "tasks" kv = Some (JList tasks) ->
  invalid_template (JObj kv) = Ok false /\ tasks_of (JObj kv) = Ok tasks.
Proof.
  intros H. unfold invalid_template, tasks_of, str_in, py_getitem, truthy.
  rewrite H. destruct kv as [|p kv']; [discriminate H|]. split; reflexivity.
Qed.


(** The last of the steps of a loop cut short on an answer. *)
Lemma steps_of_last (P : run_params) (clk : nat -> datetime)
    (done : list (world * list (string * json)))
    (last : world * list (string * json)) :
  forall (t : nat) (tasks : list json),
  steps_of P clk t (firstn (List.length (done ++ [last])) tasks) (done ++ [last]) ->
  steps_of P clk t (firstn (List.length done) tasks) done
  /\ exists td : json,
       nth_error tasks (List.length done) = Some td /\ built_from P td (snd last).
Proof.
  induction done as [|[w0 p0] done IH]; intros t [|td tasks] H;
    cbn [app List.length firstn steps_of nth_error] in *; try contradiction.
  - destruct last as [wl pl]. destruct H as (_ & _ & Hb & _).
    split; [exact I|]. exists td. split; [reflexivity|]. exists wl. exact Hb.
  - destruct H as (Hc & Ht & Hb & Hr). destruct (IH _ _ Hr) as (S1 & td' & N & B).
    split; [repeat split; assumption|]. exists td'. split; assumption.
Qed.


(** ** Start dates *)

(** The [startDate] of a payload is the reading of the clock taken last
    while the payload was built; without a schedule and without
    autoscheduling there is none. *)
Lemma build_payload_start (P : run_params) (td : json) (w : world)
    (p : list (string * json)) :
  result (build_payload P td w) = Ok p ->
  if scheduled P
  then exists k : nat,
         (ticks w <= k)%nat
         /\ ticks (final (build_payload P td w)) = S k
         /\ start_date p = Some (JStr (isoformat_local (clock w k)))
  else start_date p = None.
Proof.
  intros H.
  destruct (build_payload_fields _ _ _ _ H)
    as (kv & due & name & wsid & priority & -> & Hd & _ & _ & _ & _ & _ & _ & _ & _ & _ & Hauto).
  destruct (build_payload_inv _ _ _ _ H)
    as (kv' & due' & name' & wsid' & priority' & _ & _ & _ & _ & _ & _ & Hfin).
  destruct (derive_due_date_quiet _ _ _ _ Hd) as (_ & Fc & _ & _ & _ & _ & Ft).
  cbv zeta in *. unfold start_date, scheduled. rewrite Hauto.
  destruct (truthy (selected_schedule P) || use_autoschedule P)%bool;
    [|reflexivity].
  destruct Hfin as [_ ->].
  exists (ticks (final (derive_due_date (due_date_delta P) (JObj kv) w))).
  split; [exact Ft|]. split; [reflexivity|].
  cbn [auto_block assoc String.eqb Ascii.eqb Bool.eqb].
  rewrite Fc, iso_z_naive by reflexivity. reflexivity.
Qed.

(** The start dates of a run of steps are readings of the clock taken
    one after another, one in each step. *)
Lemma steps_start_dates (P : run_params) (clk : nat -> datetime) (tasks : list json) :
  forall (t : nat) (steps : list (world * list (string * json))),
  steps_of P clk t tasks steps ->
  exists ks : list nat,
    readings_from t ks
    /\ map (fun st => start_date (snd st)) steps
       = if scheduled P
         then map (fun k => Some (JStr (isoformat_local (clk k)))) ks
         else map (fun _ => None) steps.
Proof.
  induction tasks as [|td tasks IH]; intros t [|[w p] steps] H; cbn in H;
    try contradiction.
  - exists []. split; [exact I|]. destruct (scheduled P); reflexivity.
  - destruct H as (Hc & Ht & Hb & Hr).
    destruct (IH _ _ Hr) as (ks & K1 & K2).
    pose proof (build_payload_start _ _ _ _ Hb) as Hs.
    cbn [map snd]. rewrite K2.
    destruct (scheduled P).
    + destruct Hs as (k & Hk & Hf & ->). rewrite Hf in K1.
      exists (k :: ks). rewrite Hc. split; [|reflexivity].
      cbn [readings_from]. split; [lia | exact K1].
    + rewrite Hs. exists []. split; [exact I | reflexivity].
Qed.

Lemma readings_in_order (ks : list nat) :
  forall (t j ka kb : nat),
  readings_from t ks ->
  nth_error ks j = Some ka -> nth_error ks (S j) = Some kb ->
  (t <= ka)%nat /\ (ka < kb)%nat.
Proof.
  induction ks as [|k ks IH]; intros t j ka kb H Ha Hb.
  - destruct j; discriminate Ha.
  - destruct H as [Hk Hr]. destruct j as [|j]; cbn [nth_error] in Ha, Hb.
    + injection Ha as <-. split; [exact Hk|].
      destruct ks as [|k' ks']; [discriminate Hb|].
      cbn [nth_error] in Hb. injection Hb as <-. destruct Hr as [Hr _]. lia.
    + destruct (IH _ _ _ _ Hr Ha Hb) as [I1 I2]. split; lia.
Qed.
Lemma compare_digit (a b : Z) (s t : string) :
  0 <= a <= 9 -> 0 <= b <= 9 ->
  String.compare (String (digit_char a) s) (String (digit_char b) t)
  = match a ?= b with
    | Eq => String.compare s t
    | Lt => Lt
    | Gt => Gt
    end.
Proof.
  intros Ha Hb.
  assert (A : a = 0 \/ a = 1 \/ a = 2 \/ a = 3 \/ a = 4 \/ a = 5 \/ a = 6
              \/ a = 7 \/ a = 8 \/ a = 9) by lia.
  assert (B : b = 0 \/ b = 1 \/ b = 2 \/ b = 3 \/ b = 4 \/ b = 5 \/ b = 6
              \/ b = 7 \/ b = 8 \/ b = 9) by lia.
  repeat (destruct A as [->|A]); try subst a;
    repeat (destruct B as [->|B]); try subst b; reflexivity.
Qed.

Lemma compare_pad2 (x y : Z) (s t : string) :
  0 <= x < 100 -> 0 <= y < 100 ->
  String.compare (pad2 x +++ s) (pad2 y +++ t)
  = match x ?= y with
    | Eq => String.compare s t
    | Lt => Lt
    | Gt => Gt
    end.
Proof.
  intros Hx Hy. unfold pad2. cbn [String.append].
  rewrite compare_digit
    by (split; [apply Z.mod_pos_bound | pose proof (Z.mod_pos_bound (x / 10) 10);
                                        pose proof (Z.mod_pos_bound (y / 10) 10)]; lia).
  rewrite (Z.mod_small (x / 10) 10), (Z.mod_small (y / 10) 10)
    by (split; [apply Z.div_pos | apply Z.div_lt_upper_bound]; lia).
  pose proof (Z.div_mod x 10 ltac:(lia)) as Dx.
  pose proof (Z.div_mod y 10 ltac:(lia)) as Dy.
  pose proof (Z.mod_pos_bound x 10 ltac:(lia)) as Mx.
  pose proof (Z.mod_pos_bound y 10 ltac:(lia)) as My.
  destruct (Z.compare_spec (x / 10) (y / 10)) as [E|L|G].
  - rewrite compare_digit by lia.
    destruct (Z.compare_spec (x mod 10) (y mod 10)) as [E'|L'|G'];
      destruct (Z.compare_spec x y); try reflexivity; lia.
  - destruct (Z.compare_spec x y); try reflexivity; lia.
  - destruct (Z.compare_spec x y); try reflexivity; lia.
Qed.

Lemma append_assoc (a b c : string) : (a +++ b) +++ c = a +++ (b +++ c).
Proof. induction a as [|x a IH]; cbn; [reflexivity | now rewrite IH]. Qed.

Lemma compare_pad4 (x y : Z) (s t : string) :
  0 <= x < 10000 -> 0 <= y < 10000 ->
  String.compare (pad4 x +++ s) (pad4 y +++ t)
  = match x ?= y with
    | Eq => String.compare s t
    | Lt => Lt
    | Gt => Gt
    end.
Proof.
  intros Hx Hy. unfold pad4. rewrite !append_assoc.
  pose proof (Z.div_mod x 100 ltac:(lia)) as Dx.
  pose proof (Z.div_mod y 100 ltac:(lia)) as Dy.
  pose proof (Z.mod_pos_bound x 100 ltac:(lia)) as Mx.
  pose proof (Z.mod_pos_bound y 100 ltac:(lia)) as My.
  assert (0 <= x / 100 < 100)
    by (split; [apply Z.div_pos | apply Z.div_lt_upper_bound]; lia).
  assert (0 <= y / 100 < 100)
    by (split; [apply Z.div_pos | apply Z.div_lt_upper_bound]; lia).
  rewrite compare_pad2 by lia.
  destruct (Z.compare_spec (x / 100) (y / 100)) as [E|L|G].
  - rewrite compare_pad2 by lia.
    destruct (Z.compare_spec (x mod 100) (y mod 100));
      destruct (Z.compare_spec x y); try reflexivity; lia.
  - destruct (Z.compare_spec x y); try reflexivity; lia.
  - destruct (Z.compare_spec x y); try reflexivity; lia.
Qed.



Lemma compare_pad6 (x y : Z) :
  0 <= x < 1000000 -> 0 <= y < 1000000 ->
  String.compare (pad6 x) (pad6 y) = (x ?= y).
Proof.
  intros Hx Hy.
  rewrite <- (append_empty_r (pad6 x)), <- (append_empty_r (pad6 y)).
  unfold pad6. rewrite !append_assoc.
  pose proof (Z.div_mod x 100 ltac:(lia)) as Dx.
  pose proof (Z.div_mod y 100 ltac:(lia)) as Dy.
  pose proof (Z.mod_pos_bound x 100 ltac:(lia)) as Mx.
  pose proof (Z.mod_pos_bound y 100 ltac:(lia)) as My.
  pose proof (Z.div_mod (x / 100) 100 ltac:(lia)) as Dx'.
  pose proof (Z.div_mod (y / 100) 100 ltac:(lia)) as Dy'.
  pose proof (Z.mod_pos_bound (x / 100) 100 ltac:(lia)) as Mx'.
  pose proof (Z.mod_pos_bound (y / 100) 100 ltac:(lia)) as My'.
  assert (Ex : x / 10000 = x / 100 / 100) by (rewrite Z.div_div; [reflexivity | lia | lia]).
  assert (Ey : y / 10000 = y / 100 / 100) by (rewrite Z.div_div; [reflexivity | lia | lia]).
  assert (0 <= x / 10000 < 100)
    by (split; [apply Z.div_pos | apply Z.div_lt_upper_bound]; lia).
  assert (0 <= y / 10000 < 100)
    by (split; [apply Z.div_pos | apply Z.div_lt_upper_bound]; lia).
  rewrite !compare_pad2 by lia. cbn [String.compare].
  destruct (Z.compare_spec (x / 10000) (y / 10000));
    destruct (Z.compare_spec (x / 100 mod 100) (y / 100 mod 100));
    destruct (Z.compare_spec (x mod 100) (y mod 100));
    destruct (Z.compare_spec x y); try reflexivity; lia.
Qed.

Lemma compare_sep (c : ascii) (s t : string) :
  String.compare (String c s) (String c t) = String.compare s t.
Proof.
  cbn [String.compare]. unfold Ascii.compare. now rewrite N.compare_refl.
Qed.

Lemma days_in_month_bound (y m : Z) : 1 <= m <= 12 -> days_in_month y m <= 31.
Proof.
  intros Hm. unfold days_in_month, DAYS_IN_MONTH.
  destruct ((m =? 2) && is_leap y)%bool; [lia|].
  assert (M : m = 1 \/ m = 2 \/ m = 3 \/ m = 4 \/ m = 5 \/ m = 6 \/ m = 7
              \/ m = 8 \/ m = 9 \/ m = 10 \/ m = 11 \/ m = 12) by lia.
  repeat (destruct M as [->|M]); try subst m; lia.
Qed.

(** The texts of two naive values are in the order of the values: the
    fields have a fixed width, and a text without microseconds is the
    start of every text with the same second. *)
Lemma isoformat_local_leb (a b : datetime) :
  well_formed a = true -> well_formed b = true ->
  datetime_leb a b = true ->
  String.leb (isoformat_local a) (isoformat_local b) = true.
Proof.
  unfold well_formed, valid_date, valid_time. intros Ha Hb.
  repeat (apply andb_prop in Ha; destruct Ha as [Ha ?]).
  repeat (apply andb_prop in Hb; destruct Hb as [Hb ?]).
  repeat match goal with
         | H : (_ <=? _) = true |- _ => apply Z.leb_le in H
         | H : (_ <? _) = true |- _ => apply Z.ltb_lt in H
         end.
  pose proof (days_in_month_bound (year a) (month a) ltac:(lia)) as Da.
  pose proof (days_in_month_bound (year b) (month b) ltac:(lia)) as Db.
  unfold datetime_leb, naive_key, lex_leb, String.leb, isoformat_local, format_time.
  rewrite compare_pad4 by lia.
  repeat (cbn [String.append]; rewrite compare_sep, compare_pad2 by lia).
  repeat match goal with
         | |- context [?x <? ?y] => destruct (Z.ltb_spec x y)
         end;
    repeat match goal with
           | |- context [?x ?= ?y] => destruct (Z.compare_spec x y)
           end; try lia; try reflexivity; try discriminate.
  all: intros _.
  all: repeat match goal with
         | |- context [?x =? 0] => destruct (Z.eqb_spec x 0)
         end; try reflexivity; try lia.
  all: cbn [String.append]; rewrite compare_sep, compare_pad6 by lia.
  all: repeat match goal with
           | |- context [?x ?= ?y] => destruct (Z.compare_spec x y)
           end; try lia; try reflexivity.
Qed.


(** ** Derived fields *)

Lemma choose_schedule_choice (schedules : json) (count : nat) (lines : list string) :
  forall v : json,
  fst (fst (choose_schedule schedules count lines)) = Ok v ->
  schedule_choice schedules v.
Proof.
  induction lines as [|line rest IH]; intros v; cbn [choose_schedule].
  - discriminate.
  - destruct (negb (str_truthy line)).
    { cbn. intros H. injection H as <-. now left. }
    destruct (py_int line) as [choice|].
    + destruct (choice =? 0).
      { cbn. intros H. injection H as <-. now left. }
      destruct ((1 <=? choice) && (choice <=? Z.of_nat count))%bool.
      * cbn [fst]. unfold obind_outcome.
        destruct (py_index schedules (Z.to_nat (choice - 1))) as [item|e] eqn:E;
          [|discriminate].
        intros H. right. eauto.
      * destruct (choose_schedule schedules count rest) as [[r rest'] evs].
        exact (IH v).
    + destruct (choose_schedule schedules count rest) as [[r rest'] evs].
      exact (IH v).
Qed.

Lemma select_schedule_choice (schedules : json) (count : nat) :
  returns (schedule_choice schedules) (select_schedule schedules count).
Proof.
  intros w v. unfold select_schedule.
  pose proof (choose_schedule_choice schedules count (stdin w) v) as H.
  destruct (choose_schedule schedules count (stdin w)) as [[r rest] evs].
  exact H.
Qed.

(** The schedule of the gathered parameters is none, or the name of a
    schedule the service listed. *)
Lemma gather_params_schedule (ws : json) :
  returns (fun P => exists schedules, schedule_choice schedules (selected_schedule P))
    (gather_params ws).
Proof.
  unfold gather_params.
  do 6 (apply returns_bind; intros ?).
  apply (returns_bind_with (fun v => exists schedules, schedule_choice schedules v)).
  - destruct (truthy _).
    + do 3 (apply returns_bind; intros ?).
      intros w v H. eexists. exact (select_schedule_choice _ _ w v H).
    + apply returns_ret. exists JNull. now left.
  - intros v Hv. apply returns_ret. exact Hv.
Qed.

(** C3.  A payload carries an [autoScheduled] block exactly when a
    schedule was selected or the autoschedule flag is set; a selected
    schedule gives the block its name, also when the flag is set; the flag
    alone gives the name "Work Hours"; with neither the key is absent.
    A schedule counts as selected when its name is truthy: [None], which
    stands for no choice, does not, and every non-empty name does; the
    schedule of a run is [None] or the name of a schedule the service
    listed.  A payload is built from every derivable spec. *)
Theorem auto_schedule_rule (P : run_params) (td : json) (w : world) :
  (derivable P td = true -> exists p, result (build_payload P td w) = Ok p)
  /\ (forall p : list (string * json),
      result (build_payload P td w) = Ok p ->
      (assoc "autoScheduled" p <> None
       <-> truthy (selected_schedule P) = true \/ use_autoschedule P = true)
      /\ (truthy (selected_schedule P) = true ->
          schedule_of p = Some (selected_schedule P))
      /\ (truthy (selected_schedule P) = false -> use_autoschedule P = true ->
          schedule_of p = Some (JStr "Work Hours"))
      /\ (truthy (selected_schedule P) = false -> use_autoschedule P = false ->
          assoc "autoScheduled" p = None))
  /\ (truthy JNull = false
      /\ forall name : string, name <> "" -> truthy (JStr name) = true)
  /\ (forall (ws : json) (w0 : world),
      result (gather_params ws w0) = Ok P ->
      exists schedules, schedule_choice schedules (selected_schedule P)).
Proof.
  split; [|split; [|split]].
  - intros Hd. pose proof (build_payload_total P td w Hd) as H.
    destruct (result (build_payload P td w)) as [p|e]; [eauto | discriminate].
  - intros p H.
    destruct (build_payload_fields _ _ _ _ H)
      as (kv & due & name & wsid & priority & _ & _ & _ & _ & _ & _ & _ & _ & _ & _ & _ & Ha).
    cbv zeta in Ha. unfold schedule_of. rewrite Ha.
    destruct (truthy (selected_schedule P)); destruct (use_autoschedule P);
      cbn [orb auto_block assoc String.eqb Ascii.eqb Bool.eqb].
    + repeat split; auto; discriminate.
    + repeat split; auto; discriminate.
    + repeat split; auto; discriminate.
    + split; [|repeat split; auto; discriminate].
      split; [intros Hn; now contradiction Hn | intros [Hn|Hn]; discriminate Hn].
  - split; [reflexivity|]. intros [|c name] Hn; [contradiction | reflexivity].
  - intros ws w0. apply gather_params_schedule.
Qed.

Lemma due_text_absent (kv : list (string * json)) :
  assoc "dueDate" kv = None -> due_text kv = Some FALLBACK_DUE_DATE.
Proof. unfold due_text. intros ->. reflexivity. Qed.

(** The due date of a payload whose stored date parses. *)
Lemma build_payload_due (P : run_params) (kv : list (string * json)) (w : world)
    (p : list (string * json)) (s : string) (parsed : datetime) :
  due_text kv = Some s ->
  due_parse s = Some parsed ->
  result (build_payload P (JObj kv) w) = Ok p ->
  exists due,
    add_days parsed (due_date_delta P) = Ok due
    /\ assoc "dueDate" p = Some (JStr (iso_z due)).
Proof.
  intros Hs Hp H.
  destruct (build_payload_fields _ _ _ _ H)
    as (kv' & due & name & wsid & priority & E & Hd & _ & _ & _ & _ & _ & Hdue & _).
  exists due. split; [|exact Hdue].
  rewrite (derive_due_date_run _ _ _ _ Hs), Hp in Hd. exact Hd.
Qed.


(** The fields of a date moved by some days. *)
Lemma add_days_fields (dt dt' : datetime) (n : Z) :
  add_days dt n = Ok dt' ->
  (year dt', month dt', day dt') = ord2ymd (toordinal dt + n).
Proof.
  unfold add_days. cbv zeta.
  destruct ((0 <? toordinal dt + n) && (toordinal dt + n <=? MAXORDINAL))%bool;
    [|discriminate].
  destruct (ord2ymd (toordinal dt + n)) as [[y m] d].
  intros H. injection H as <-. reflexivity.
Qed.



(** ** The workspace of the run *)

Lemma assoc_dict_set_other (k k' : string) (v : json) (kv : list (string * json)) :
  String.eqb k k' = false -> assoc k (dict_set k' v kv) = assoc k kv.
Proof.
  intros Hk. induction kv as [|[k0 v0] kv IH]; cbn [dict_set assoc].
  - now rewrite Hk.
  - destruct (String.eqb_spec k' k0) as [->|Hne]; cbn [assoc].
    + now rewrite Hk.
    + now rewrite IH.
Qed.

(** The [workspaceId] stored in a task spec has no part in its payload. *)
Lemma build_payload_ignores_stored_workspace (P : run_params)
    (kv : list (string * json)) (v : json) (w : world) :
  build_payload P (JObj (dict_set "workspaceId" v kv)) w
  = build_payload P (JObj kv) w.
Proof.
  unfold build_payload, derive_due_date, py_get, py_getitem.
  rewrite !assoc_dict_set_other by reflexivity.
  reflexivity.
Qed.

(** The parameters gathered for a run name the workspace it was given. *)
Lemma gather_params_workspace (ws : json) :
  returns (fun P => workspace P = ws) (gather_params ws).
Proof.
  unfold gather_params.
  repeat (apply returns_bind; intros ?).
  apply returns_ret. reflexivity.
Qed.

(** C10.  The [workspaceId] of a payload is the id of the workspace of
    the run, which is the workspace [create_tasks_from_template] was
    called with; the [workspaceId] that [generate_task_template] stored in
    the template entry is the id of the workspace the template was taken
    from, and it has no part in the payload: setting it to any other value
    leaves the run of the derivation unchanged.  A payload is built from
    every derivable spec. *)
Theorem workspace_retargeted (P : run_params) (td : json) (w : world) :
  (derivable P td = true -> exists p, result (build_payload P td w) = Ok p)
  /\ (forall p : list (string * json),
      result (build_payload P td w) = Ok p ->
      exists run_id : json,
        py_getitem (workspace P) "id" = Ok run_id
        /\ assoc "workspaceId" p = Some run_id)
  /\ (forall (kv : list (string * json)) (v : json),
      td = JObj kv ->
      build_payload P (JObj (dict_set "workspaceId" v kv)) w = build_payload P td w)
  /\ (forall (source task : json),
      template_entry source task = Ok td ->
      exists source_id : json,
        py_getitem source "id" = Ok source_id
        /\ py_getitem td "workspaceId" = Ok source_id)
  /\ (forall (ws : json) (w0 : world),
      result (gather_params ws w0) = Ok P -> workspace P = ws).
Proof.
  split; [|split; [|split; [|split]]].
  - intros Hd. pose proof (build_payload_total P td w Hd) as H.
    destruct (result (build_payload P td w)) as [p|e]; [eauto | discriminate].
  - intros p H.
    destruct (build_payload_fields _ _ _ _ H)
      as (kv & due & name & wsid & priority & _ & _ & _ & Hw & _ & _ & Hf & _).
    eauto.
  - intros kv v ->. apply build_payload_ignores_stored_workspace.
  - intros source task. unfold template_entry, obind_outcome.
    destruct (py_get task "name" (JStr "")); [|discriminate].
    destruct (py_getitem source "id") as [source_id|]; [|discriminate].
    destruct (py_get task "dueDate" (JStr FALLBACK_DUE_DATE)); [|discriminate].
    destruct (py_get task "duration" (JNum 30)); [|discriminate].
    destruct (py_get task "priority" (JStr "MEDIUM")); [|discriminate].
    intros E. injection E as <-. exists source_id. split; reflexivity.
  - intros ws w0. apply gather_params_workspace.
Qed.

(** ** Templates the guard lets through or turns away *)

(** Without task specs the whole run is preparation. *)
Lemma calm_create_tasks_empty (workspace template : json) :
  tasks_of template = Ok [] ->
  calm (create_tasks_from_template workspace template).
Proof.
  intros Ht w. unfold create_tasks_from_template.
  destruct (invalid_template template) as [[|]|e].
  - rewrite bind_lift_ok. reflexivity.
  - rewrite bind_lift_ok.
    destruct (result (gather_params workspace w)) as [P|e] eqn:E0.
    + rewrite (bind_ok _ _ _ _ E0), Ht, bind_lift_ok.
      cbn [dispatch_loop List.length]. rewrite bind_ret.
      cbn [prepend events print emit]. rewrite forallb_app, calm_gather_params.
      reflexivity.
    + rewrite (bind_raise _ _ _ _ E0). apply calm_gather_params.
  - rewrite bind_lift_raise. reflexivity.
Qed.

Lemma invalid_template_falsy (template : json) :
  truthy template = false -> invalid_template template = Ok true.
Proof. unfold invalid_template. intros ->. reflexivity. Qed.

Lemma invalid_template_no_tasks (kv : list (string * json)) :
  assoc "tasks" kv = None -> invalid_template (JObj kv) = Ok true.
Proof.
  unfold invalid_template, str_in. intros ->.
  destruct (negb (truthy (JObj kv))); reflexivity.
Qed.

(** What the replay of a template file is, file by file: a file that
    cannot be opened, read or parsed is reported and nothing else is done;
    a file whose bytes are no text, or whose nesting is too deep, ends the
    replay in the exception of [json.load]; a file holding a falsy value
    is dropped without a word; any other value is handed on. *)
Lemma replay_unusable_file (workspace : json) (filename : string) (w : world) :
  match files w filename with
  | FileMissing =>
    result (replay_template_file workspace filename w) = Ok tt
    /\ final (replay_template_file workspace filename w) = w
    /\ events (replay_template_file workspace filename w)
       = [EPrint (MsgTemplateNotFound filename)]
  | FileUnreadable =>
    result (replay_template_file workspace filename w) = Ok tt
    /\ final (replay_template_file workspace filename w) = w
    /\ events (replay_template_file workspace filename w)
       = [EPrint (MsgTemplateUnreadable filename)]
  | FileInvalidJson =>
    result (replay_template_file workspace filename w) = Ok tt
    /\ final (replay_template_file workspace filename w) = w
    /\ events (replay_template_file workspace filename w)
       = [EPrint (MsgTemplateInvalidJson filename)]
  | FileUndecodable =>
    result (replay_template_file workspace filename w) = Raise UnicodeDecodeError
    /\ final (replay_template_file workspace filename w) = w
    /\ events (replay_template_file workspace filename w) = []
  | FileTooDeep =>
    result (replay_template_file workspace filename w) = Raise RecursionError
    /\ final (replay_template_file workspace filename w) = w
    /\ events (replay_template_file workspace filename w) = []
  | FileJson v =>
    if truthy v
    then
      result (replay_template_file workspace filename w)
      = result (create_tasks_from_template workspace v w)
      /\ final (replay_template_file workspace filename w)
         = final (create_tasks_from_template workspace v w)
      /\ events (replay_template_file workspace filename w)
         = events (create_tasks_from_template workspace v w)
    else
      result (replay_template_file workspace filename w) = Ok tt
      /\ final (replay_template_file workspace filename w) = w
      /\ events (replay_template_file workspace filename w) = []
  end.
Proof.
  unfold replay_template_file, load_template, bind.
  destruct (files w filename) as [| | |v| |]; cbn; try (repeat split; fail).
  destruct (truthy v); cbn; repeat split.
Qed.

Lemma empty_tasks_accepted (kv : list (string * json)) :
  assoc "tasks" kv = Some (JList []) ->
  invalid_template (JObj kv) = Ok false /\ tasks_of (JObj kv) = Ok [].
Proof.
  intros H. unfold invalid_template, tasks_of, str_in, py_getitem, truthy.
  rewrite H. destruct kv as [|p kv']; [discriminate H|]. split; reflexivity.
Qed.

(** A run past the guard starts with the first question. *)
Lemma create_tasks_asks (workspace template : json) (w : world) :
  invalid_template template = Ok false ->
  exists tail : list event,
    events (create_tasks_from_template workspace template w)
    = EInput AskDueDateDelta :: tail.
Proof.
  intros Hg. unfold create_tasks_from_template, gather_params.
  rewrite Hg, bind_lift_ok, !bind_assoc.
  unfold bind at 1, input.
  destruct (stdin w) as [|line rest]; cbn [result events final prepend app];
    eexists; reflexivity.
Qed.

(** Without task specs the run past the guard is its questions and the
    summary of nothing. *)
Lemma create_tasks_empty_run (workspace template : json) (w : world) :
  invalid_template template = Ok false ->
  tasks_of template = Ok [] ->
  match result (gather_params workspace w) with
  | Ok _ =>
    result (create_tasks_from_template workspace template w) = Ok tt
    /\ events (create_tasks_from_template workspace template w)
       = events (gather_params workspace w) ++ [EPrint (MsgSummary 0 0 0)]
  | Raise e =>
    result (create_tasks_from_template workspace template w) = Raise e
    /\ events (create_tasks_from_template workspace template w)
       = events (gather_params workspace w)
  end.
Proof.
  intros Hg Ht. unfold create_tasks_from_template.
  rewrite Hg, bind_lift_ok.
  destruct (result (gather_params workspace w)) as [P|e] eqn:E0.
  - rewrite (bind_ok _ _ _ _ E0), Ht, bind_lift_ok.
    cbn [dispatch_loop List.length]. rewrite bind_ret.
    cbn [prepend result events print emit]. split; reflexivity.
  - rewrite (bind_raise _ _ _ _ E0). split; reflexivity.
Qed.


(** ** A task spec without a name *)

(** No payload is built from a spec that lacks its name or its
    priority. *)
Lemma missing_key_not_built (P : run_params) (kv : list (string * json)) (w : world) :
  assoc "name" kv = None \/ assoc "priority" kv = None ->
  is_ok (result (build_payload P (JObj kv) w)) = false.
Proof.
  intros H.
  destruct (result (build_payload P (JObj kv) w)) as [p|e] eqn:E; [|reflexivity].
  apply build_payload_derivable in E. unfold derivable in E.
  destruct H as [H|H]; rewrite H in E.
  - discriminate E.
  - destruct (assoc "name" kv); discriminate E.
Qed.

Lemma Forall2_in_left {A B : Type} (R : A -> B -> Prop) (l : list A) (l' : list B)
    (x : A) :
  Forall2 R l l' -> In x l -> exists y : B, R x y.
Proof.
  induction 1 as [|a b l l' Hab _ IH]; intros Hin.
  - contradiction.
  - destruct Hin as [->|Hin]; [eauto | exact (IH Hin)].
Qed.

(** In no world does a run over a template with such a spec reach the
    summary. *)
Lemma missing_key_never_summarised (workspace template : json) (w : world)
    (tasks : list json) (kv : list (string * json)) :
  invalid_template template = Ok false ->
  tasks_of template = Ok tasks ->
  In (JObj kv) tasks ->
  assoc "name" kv = None \/ assoc "priority" kv = None ->
  result (create_tasks_from_template workspace template w) <> Ok tt.
Proof.
  intros Hg Et Hin Hmiss Hr.
  destruct (create_tasks_trace _ _ _ Hg Hr)
    as (P & tasks' & steps & s & f & _ & Et' & S1 & _).
  rewrite Et in Et'. injection Et' as <-.
  destruct (Forall2_in_left _ _ _ _ (steps_of_built _ _ _ _ _ S1) Hin) as (p & w' & Hp).
  pose proof (missing_key_not_built P kv w' Hmiss) as Hno.
  rewrite Hp in Hno. discriminate Hno.
Qed.

(* ================================================================== *)
(** * Part III: the rest of the program *)
(* ================================================================== *)

(** ** Generated templates *)

Lemma template_entry_inv (ws task e : json) :
  template_entry ws task = Ok e ->
  exists kv wid,
    task = JObj kv /\ py_getitem ws "id" = Ok wid
    /\ e = entry_of wid kv.
Proof.
  unfold template_entry. destruct task as [| | | | |kv]; try discriminate.
  unfold py_get. destruct (py_getitem ws "id") as [wid|] eqn:E.
  - intros H. exists kv, wid. split; [reflexivity|]. split; [reflexivity|].
    unfold entry_of.
    destruct (assoc "name" kv), (assoc "dueDate" kv), (assoc "duration" kv),
      (assoc "priority" kv); cbn in H; injection H as <-; reflexivity.
  - destruct (assoc "name" kv); discriminate.
Qed.

Lemma template_entry_ok (ws : json) (kv : list (string * json)) (wid : json) :
  py_getitem ws "id" = Ok wid ->
  exists e, template_entry ws (JObj kv) = Ok e.
Proof.
  intros E. unfold template_entry, py_get. rewrite E.
  destruct (assoc "name" kv), (assoc "dueDate" kv), (assoc "duration" kv),
    (assoc "priority" kv); cbn; eauto.
Qed.

Lemma template_entries_inv (ws : json) (tasks : list json) :
  forall entries, template_entries ws tasks = Ok entries ->
  Forall2 (fun task e => template_entry ws task = Ok e) tasks entries.
Proof.
  induction tasks as [|task tasks IH]; cbn [template_entries]; intros entries H.
  - injection H as <-. constructor.
  - destruct (template_entry ws task) as [e|] eqn:E; [|discriminate H].
    cbn [obind_outcome] in H.
    destruct (template_entries ws tasks) as [es|]; [|discriminate H].
    cbn [obind_outcome] in H. injection H as <-.
    constructor; [exact E | apply IH; reflexivity].
Qed.

Lemma generate_inv (ws : json) (tasks : list json) (template : json) :
  generate_task_template ws tasks = Ok template ->
  exists entries,
    template = JObj [("tasks", JList entries)]
    /\ Forall2 (fun task e => template_entry ws task = Ok e) tasks entries.
Proof.
  unfold generate_task_template.
  destruct (template_entries ws tasks) as [es|] eqn:E; [|discriminate].
  cbn [obind_outcome]. intros H. injection H as <-.
  exists es. split; [reflexivity | apply template_entries_inv, E].
Qed.

Lemma is_ok_template_entries (ws : json) (tasks : list json) :
  is_ok (template_entries ws tasks)
  = (forallb is_dict tasks
     && match tasks with
        | [] => true
        | _ => is_ok (py_getitem ws "id")
        end)%bool.
Proof.
  induction tasks as [|task tasks IH]; [reflexivity|].
  cbn [template_entries forallb].
  destruct task as [| | | | |kv]; try reflexivity.
  cbn [is_dict andb].
  destruct (py_getitem ws "id") as [wid|] eqn:E.
  - destruct (template_entry_ok ws kv wid E) as (e & ->). cbn [obind_outcome].
    assert (O : is_ok (obind_outcome (template_entries ws tasks)
                         (fun es => Ok (e :: es)))
                = is_ok (template_entries ws tasks))
      by (destruct (template_entries ws tasks); reflexivity).
    rewrite O, IH. cbn [is_ok]. rewrite andb_true_r.
    destruct tasks; [reflexivity | apply andb_true_r].
  - assert (F : is_ok (template_entry ws (JObj kv)) = false).
    { unfold template_entry, py_get. rewrite E. destruct (assoc "name" kv); reflexivity. }
    destruct (template_entry ws (JObj kv)); [discriminate F|].
    cbn. rewrite andb_false_r. reflexivity.
Qed.

Lemma derivable_entry (P : run_params) (ws task e : json) :
  template_entry ws task = Ok e ->
  derivable P e
  = (is_ok (py_getitem (workspace P) "id") && shiftable (due_date_delta P) task)%bool.
Proof.
  intros H. destruct (template_entry_inv _ _ _ H) as (kv & wid & -> & _ & ->).
  unfold derivable, shiftable, entry_of.
  assert (T : due_text [("name", default_of (assoc "name" kv) (JStr ""));
                        ("workspaceId", wid);
                        ("dueDate", default_of (assoc "dueDate" kv) (JStr FALLBACK_DUE_DATE));
                        ("duration", default_of (assoc "duration" kv) (JNum 30));
                        ("priority", default_of (assoc "priority" kv) (JStr "MEDIUM"))]
              = due_text kv).
  { unfold due_text. cbn [assoc String.eqb Ascii.eqb Bool.eqb].
    destruct (assoc "dueDate" kv); reflexivity. }
  rewrite T. cbn [assoc String.eqb Ascii.eqb Bool.eqb].
  destruct (due_text kv) as [s|]; [|rewrite andb_false_r; reflexivity].
  destruct (due_parse s); [reflexivity|].
  rewrite andb_true_r. reflexivity.
Qed.

Lemma derivable_entries (P : run_params) (ws : json) (tasks entries : list json) :
  Forall2 (fun task e => template_entry ws task = Ok e) tasks entries ->
  is_ok (py_getitem (workspace P) "id") = true ->
  forallb (shiftable (due_date_delta P)) tasks = true ->
  forallb (derivable P) entries = true.
Proof.
  intros F Hid. induction F as [|task e tasks entries H F IH]; cbn [forallb]; intros S.
  - reflexivity.
  - apply andb_prop in S. destruct S as [S1 S2].
    rewrite (derivable_entry P ws task e H), Hid, S1, (IH S2). reflexivity.
Qed.

(** X3. The template of [generate_task_template] is built exactly when
    every task is a dictionary and, if there is a task at all, the
    workspace has an id.  It holds one entry per task, in order, with the
    keys name, workspaceId, dueDate, duration and priority: the id of the
    workspace, and for the other keys the value of the task or, when the
    task lacks the key, the empty name, 2024-12-31T23:59:59Z, 30 and
    MEDIUM. *)
Theorem generate_template_entries (ws : json) (tasks : list json) :
  is_ok (generate_task_template ws tasks)
  = (forallb is_dict tasks
     && match tasks with
        | [] => true
        | _ => is_ok (py_getitem ws "id")
        end)%bool
  /\ forall template : json,
     generate_task_template ws tasks = Ok template ->
     exists entries : list json,
       template = JObj [("tasks", JList entries)]
       /\ List.length entries = List.length tasks
       /\ Forall2 (fun task e =>
                     exists kv wid,
                       task = JObj kv /\ py_getitem ws "id" = Ok wid
                       /\ e = entry_of wid kv) tasks entries.
Proof.
  split.
  - unfold generate_task_template. rewrite <- is_ok_template_entries.
    destruct (template_entries ws tasks); reflexivity.
  - intros template H. destruct (generate_inv _ _ _ H) as (entries & -> & F).
    exists entries. split; [reflexivity|].
    split; [symmetry; exact (Forall2_same_length _ _ _ F)|].
    eapply Forall2_impl; [|exact F].
    intros task e E. exact (template_entry_inv _ _ _ E).
Qed.


(** ** Project creation *)

Lemma bind_input_cons {B : Type} (p : prompt) (f : string -> M B) (w : world)
    (line : string) (rest : list string) :
  stdin w = line :: rest ->
  bind (input p) f w = prepend [EInput p] (f line (typed rest w)).
Proof. intros H. unfold bind, input. rewrite H. reflexivity. Qed.

Lemma bind_input_nil {B : Type} (p : prompt) (f : string -> M B) (w : world) :
  stdin w = [] ->
  bind (input p) f w = mkRun (Raise EOFError) w [EInput p].
Proof. intros H. unfold bind, input. rewrite H. reflexivity. Qed.

Lemma prepend_prepend {A : Type} (a b : list event) (r : run A) :
  prepend a (prepend b r) = prepend (a ++ b) r.
Proof. unfold prepend; cbn. now rewrite app_assoc. Qed.

(** The run of [create_project] once a name and a priority are typed. *)
Lemma create_project_named (ws : json) (delta : Z) (w : world)
    (name line : string) (rest : list string) :
  stdin w = name :: line :: rest ->
  str_truthy name = true ->
  create_project ws delta w
  = let pr := priority_of line in
    let said := if (str_truthy line && negb (str_mem (str_upper line) PRIORITIES))%bool
                then [EPrint MsgPriorityReverted] else [] in
    let w1 := ticked (typed rest w) in
    let w2 := if delta =? 0 then w1 else ticked w1 in
    let due := if delta =? 0 then Ok (as_naive (clock w (ticks w)))
               else add_days (as_naive (clock w (S (ticks w)))) delta in
    prepend ([EInput AskProjectName; EInput AskPriority] ++ said)
      match due with
      | Raise e => mkRun (Raise e) w2 []
      | Ok d =>
        match py_getitem ws "id" with
        | Raise e => mkRun (Raise e) w2 []
        | Ok wid =>
          let body := answer (server w (requests w)) in
          prepend
            (EPost projects_url
               (JObj [("name", JStr name); ("workspaceId", wid);
                      ("priority", JStr pr); ("dueDate", JStr (iso_z d))])
             :: match server w (requests w) with
                | Some _ => []
                | None => [EPrint MsgErrorPosting]
                end)
            match has_id body with
            | Raise e => mkRun (Raise e) (served w2) []
            | Ok false => mkRun (Ok JNull) (served w2) [EPrint (MsgProjectError name)]
            | Ok true =>
              match py_getitem body "id" with
              | Ok id => mkRun (Ok id) (served w2) [EPrint (MsgProjectCreated name id)]
              | Raise e => mkRun (Raise e) (served w2) []
              end
            end
        end
      end.
Proof.
  intros Hin Hname. unfold create_project.
  rewrite (bind_input_cons _ _ _ _ _ Hin). rewrite Hname. cbn [negb].
  rewrite (bind_input_cons _ _ (typed (line :: rest) w) line rest eq_refl).
  cbv zeta. rewrite <- (prepend_prepend [EInput AskProjectName; EInput AskPriority]).
  rewrite (prepend_prepend [EInput AskProjectName] [EInput AskPriority]).
  change ([EInput AskProjectName] ++ [EInput AskPriority])
    with [EInput AskProjectName; EInput AskPriority].
  f_equal.
  set (k := fun priority : string => _).
  set (w0 := typed rest (typed (line :: rest) w)).
  assert (Tail : forall pr : string,
             k pr w0
             = match (if delta =? 0 then Ok (as_naive (clock w (ticks w)))
                      else add_days (as_naive (clock w (S (ticks w)))) delta) with
               | Raise e =>
                 mkRun (Raise e)
                   (if delta =? 0 then ticked (typed rest w)
                    else ticked (ticked (typed rest w))) []
               | Ok d =>
                 match py_getitem ws "id" with
                 | Raise e =>
                   mkRun (Raise e)
                     (if delta =? 0 then ticked (typed rest w)
                      else ticked (ticked (typed rest w))) []
                 | Ok wid =>
                   prepend
                     (EPost projects_url
                        (JObj [("name", JStr name); ("workspaceId", wid);
                               ("priority", JStr pr); ("dueDate", JStr (iso_z d))])
                      :: match server w (requests w) with
                         | Some _ => []
                         | None => [EPrint MsgErrorPosting]
                         end)
                     match has_id (answer (server w (requests w))) with
                     | Raise e =>
                       mkRun (Raise e)
                         (served (if delta =? 0 then ticked (typed rest w)
                                  else ticked (ticked (typed rest w)))) []
                     | Ok false =>
                       mkRun (Ok JNull)
                         (served (if delta =? 0 then ticked (typed rest w)
                                  else ticked (ticked (typed rest w))))
                         [EPrint (MsgProjectError name)]
                     | Ok true =>
                       match py_getitem (answer (server w (requests w))) "id" with
                       | Ok id =>
                         mkRun (Ok id)
                           (served (if delta =? 0 then ticked (typed rest w)
                                    else ticked (ticked (typed rest w))))
                           [EPrint (MsgProjectCreated name id)]
                       | Raise e =>
                         mkRun (Raise e)
                           (served (if delta =? 0 then ticked (typed rest w)
                                    else ticked (ticked (typed rest w)))) []
                       end
                     end
                 end
               end).
  { intros pr. subst k w0. cbv beta. rewrite bind_utcnow.
    destruct (delta =? 0) eqn:D; cbn [negb Z.eqb].
    - rewrite bind_ret.
      destruct (py_getitem ws "id") as [wid|e].
      + rewrite bind_lift_ok, bind_post_data.
        cbn [typed ticked served clock ticks server requests stdin files]. f_equal.
        destruct (has_id (answer (server w (requests w)))) as [[|]|e].
        * rewrite bind_lift_ok.
          destruct (py_getitem (answer (server w (requests w))) "id") as [id|e].
          -- rewrite bind_lift_ok, bind_print. reflexivity.
          -- rewrite bind_lift_raise. reflexivity.
        * rewrite bind_lift_ok, bind_print. reflexivity.
        * rewrite bind_lift_raise. reflexivity.
      + rewrite bind_lift_raise. reflexivity.
    - rewrite D. cbn [negb]. rewrite bind_assoc, bind_utcnow.
      cbn [typed ticked served clock ticks server requests stdin files].
      destruct (add_days (as_naive (clock w (S (ticks w)))) delta) as [d|e].
      + rewrite bind_lift_ok.
        destruct (py_getitem ws "id") as [wid|e].
        * rewrite bind_lift_ok, bind_post_data.
          cbn [typed ticked served clock ticks server requests stdin files]. f_equal.
          destruct (has_id (answer (server w (requests w)))) as [[|]|e].
          -- rewrite bind_lift_ok.
             destruct (py_getitem (answer (server w (requests w))) "id") as [id|e].
             ++ rewrite bind_lift_ok, bind_print. reflexivity.
             ++ rewrite bind_lift_raise. reflexivity.
          -- rewrite bind_lift_ok, bind_print. reflexivity.
          -- rewrite bind_lift_raise. reflexivity.
        * rewrite bind_lift_raise. reflexivity.
      + rewrite bind_lift_raise. reflexivity. }
  unfold priority_of, PRIORITIES.
  destruct (str_truthy line) eqn:T;
    [destruct (str_mem (str_upper line) ["ASAP"; "HIGH"; "MEDIUM"; "LOW"]) eqn:Mm|];
    cbn [negb andb].
  - rewrite bind_ret, Tail, prepend_nil. reflexivity.
  - rewrite bind_assoc, bind_print, bind_ret, Tail. reflexivity.
  - rewrite bind_ret, Tail, prepend_nil. reflexivity.
Qed.

Lemma project_posts_app (a b : list event) :
  project_posts (a ++ b) = project_posts a ++ project_posts b.
Proof.
  induction a as [|e a IH]; [reflexivity|].
  destruct e as [q|m|u o|u d|n]; cbn [app project_posts]; try exact IH.
  destruct (String.eqb u projects_url); cbn [app]; now rewrite IH.
Qed.

Lemma requests_app (a b : list event) :
  filter is_request (a ++ b) = filter is_request a ++ filter is_request b.
Proof. apply filter_app. Qed.

(** What [create_project] sends: nothing, or one payload made of the name
    typed, the id of the workspace, a priority and a due date. *)
Lemma create_project_posts (ws : json) (delta : Z) (w : world) :
  let r := create_project ws delta w in
  (project_posts (events r) = [] /\ filter is_request (events r) = []
   /\ requests (final r) = requests w
   /\ (forall v, result r = Ok v -> v = JNull))
  \/ exists (name line : string) (rest : list string) (due : datetime) (wid : json),
       stdin w = name :: line :: rest
       /\ str_truthy name = true
       /\ (if delta =? 0 then Ok (as_naive (clock w (ticks w)))
           else add_days (as_naive (clock w (S (ticks w)))) delta) = Ok due
       /\ py_getitem ws "id" = Ok wid
       /\ project_posts (events r)
          = [JObj [("name", JStr name); ("workspaceId", wid);
                   ("priority",
                    JStr (priority_of line));
                   ("dueDate", JStr (iso_z due))]]
       /\ filter is_request (events r)
          = map (EPost projects_url) (project_posts (events r))
       /\ requests (final r) = S (requests w)
       /\ ticks (final r) = (ticks w + (if (delta =? 0)%Z then 1 else 2))%nat
       /\ stdin (final r) = rest
       /\ (forall v, result r = Ok v ->
           v = JNull
           \/ exists body, server w (requests w) = Some body
                           /\ py_getitem body "id" = Ok v).
Proof.
  cbv zeta.
  destruct (stdin w) as [|name [|line rest]] eqn:Hin.
  - left. unfold create_project. rewrite (bind_input_nil _ _ _ Hin). cbn.
    repeat split; auto. discriminate.
  - left. unfold create_project. rewrite (bind_input_cons _ _ _ _ _ Hin).
    destruct (str_truthy name); cbn [negb].
    + rewrite bind_input_nil by reflexivity. cbn. repeat split; auto. discriminate.
    + rewrite bind_print. cbn. repeat split; auto. congruence.
  - destruct (str_truthy name) eqn:Hname.
    2:{ left. unfold create_project. rewrite (bind_input_cons _ _ _ _ _ Hin), Hname.
        cbn [negb]. rewrite bind_print. cbn. repeat split; auto. congruence. }
    rewrite (create_project_named ws delta w name line rest Hin Hname). cbv zeta.
    set (said := if (str_truthy line && negb (str_mem (str_upper line) PRIORITIES))%bool
                 then [EPrint MsgPriorityReverted] else []).
    assert (S1 : project_posts ([EInput AskProjectName; EInput AskPriority] ++ said) = []
                 /\ filter is_request ([EInput AskProjectName; EInput AskPriority] ++ said)
                    = [])
      by (subst said; destruct (_ && _)%bool; split; reflexivity).
    destruct S1 as [S1 S2].
    set (err := match server w (requests w) with
                | Some _ => []
                | None => [EPrint MsgErrorPosting]
                end).
    assert (S3 : project_posts err = [] /\ filter is_request err = [])
      by (subst err; destruct (server w (requests w)); split; reflexivity).
    destruct S3 as [S3 S4].
    destruct (if delta =? 0 then Ok (as_naive (clock w (ticks w)))
              else add_days (as_naive (clock w (S (ticks w)))) delta) as [due|e] eqn:Hd.
    2:{ left. cbn [prepend events result final]. rewrite app_nil_r, S1, S2.
        destruct (delta =? 0); repeat split; auto; discriminate. }
    destruct (py_getitem ws "id") as [wid|e] eqn:Hw.
    2:{ left. cbn [prepend events result final]. rewrite app_nil_r, S1, S2.
        destruct (delta =? 0); repeat split; auto; discriminate. }
    right. exists name, line, rest, due, wid.
    split; [reflexivity|]. split; [exact Hname|]. split; [reflexivity|].
    split; [reflexivity|].
    assert (B : forall (r : run json),
               forallb is_print (events r) = true ->
               project_posts (events (prepend ([EInput AskProjectName; EInput AskPriority]
                                               ++ said)
                                        (prepend (EPost projects_url
                 (JObj [("name", JStr name); ("workspaceId", wid);
                        ("priority",
                         JStr (priority_of line));
                        ("dueDate", JStr (iso_z due))]) :: err) r)))
               = [JObj [("name", JStr name); ("workspaceId", wid);
                        ("priority",
                         JStr (priority_of line));
                        ("dueDate", JStr (iso_z due))]]
               /\ filter is_request
                    (events (prepend ([EInput AskProjectName; EInput AskPriority] ++ said)
                                        (prepend (EPost projects_url
                 (JObj [("name", JStr name); ("workspaceId", wid);
                        ("priority",
                         JStr (priority_of line));
                        ("dueDate", JStr (iso_z due))]) :: err) r)))
                  = [EPost projects_url
                       (JObj [("name", JStr name); ("workspaceId", wid);
                        ("priority",
                         JStr (priority_of line));
                        ("dueDate", JStr (iso_z due))])]).
    { intros r Hr.
      assert (Q : project_posts (events r) = [] /\ filter is_request (events r) = []).
      { induction (events r) as [|e l IH]; [split; reflexivity|].
        cbn [forallb] in Hr. apply andb_prop in Hr. destruct Hr as [He Hl].
        destruct e; try discriminate He. exact (IH Hl). }
      destruct Q as [Q1 Q2].
      cbn [prepend events].
      rewrite project_posts_app, requests_app, S1, S2.
      cbn [app project_posts filter is_request]. rewrite String.eqb_refl.
      rewrite project_posts_app, requests_app, S3, S4, Q1, Q2. split; reflexivity. }
    destruct (has_id (answer (server w (requests w)))) as [[|]|e] eqn:Hh.
    + destruct (py_getitem (answer (server w (requests w))) "id") as [id|e] eqn:Hi.
      * destruct (B (mkRun (Ok id)
                      (served (if delta =? 0 then ticked (typed rest w)
                               else ticked (ticked (typed rest w))))
                      [EPrint (MsgProjectCreated name id)]) eq_refl) as [B1 B2].
        rewrite B1, B2. cbn [prepend events result final].
        split; [reflexivity|]. split; [reflexivity|].
        split; [destruct (delta =? 0); reflexivity|].
        split; [destruct (delta =? 0); cbn; lia|].
        split; [destruct (delta =? 0); reflexivity|].
        intros v Hv. injection Hv as <-. right.
        destruct (server w (requests w)) as [body|] eqn:Hs; [|discriminate Hh].
        exists body. split; [reflexivity | exact Hi].
      * destruct (B (mkRun (Raise e)
                      (served (if delta =? 0 then ticked (typed rest w)
                               else ticked (ticked (typed rest w)))) []) eq_refl)
          as [B1 B2].
        rewrite B1, B2. cbn [prepend events result final].
        split; [reflexivity|]. split; [reflexivity|].
        split; [destruct (delta =? 0); reflexivity|].
        split; [destruct (delta =? 0); cbn; lia|].
        split; [destruct (delta =? 0); reflexivity|].
        discriminate.
    + destruct (B (mkRun (Ok JNull)
                    (served (if delta =? 0 then ticked (typed rest w)
                             else ticked (ticked (typed rest w))))
                    [EPrint (MsgProjectError name)]) eq_refl) as [B1 B2].
      rewrite B1, B2. cbn [prepend events result final].
      split; [reflexivity|]. split; [reflexivity|].
      split; [destruct (delta =? 0); reflexivity|].
      split; [destruct (delta =? 0); cbn; lia|].
      split; [destruct (delta =? 0); reflexivity|].
      intros v Hv. injection Hv as <-. left. reflexivity.
    + destruct (B (mkRun (Raise e)
                    (served (if delta =? 0 then ticked (typed rest w)
                             else ticked (ticked (typed rest w)))) []) eq_refl)
        as [B1 B2].
      rewrite B1, B2. cbn [prepend events result final].
      split; [reflexivity|]. split; [reflexivity|].
      split; [destruct (delta =? 0); reflexivity|].
      split; [destruct (delta =? 0); cbn; lia|].
      split; [destruct (delta =? 0); reflexivity|].
      discriminate.
Qed.

Lemma str_mem_in (s : string) (l : list string) : str_mem s l = true <-> In s l.
Proof.
  unfold str_mem. rewrite existsb_exists. split.
  - intros (x & Hx & E). apply String.eqb_eq in E. now subst.
  - intros H. exists s. split; [exact H | apply String.eqb_refl].
Qed.

(** X5. [create_project] sends at most one request, a POST to the project
    endpoint, and none when the name is left blank; it returns [None] or
    the id the service answered. *)
Theorem create_project_one_request (ws : json) (delta : Z) (w : world) :
  (List.length (project_posts (events (create_project ws delta w))) <= 1)%nat
  /\ filter is_request (events (create_project ws delta w))
     = map (EPost projects_url) (project_posts (events (create_project ws delta w)))
  /\ requests (final (create_project ws delta w))
     = (requests w + List.length (project_posts (events (create_project ws delta w))))%nat
  /\ (forall rest : list string,
      stdin w = "" :: rest ->
      create_project ws delta w
      = mkRun (Ok JNull) (typed rest w)
          [EInput AskProjectName; EPrint MsgProjectNameEmpty])
  /\ (forall v : json,
      result (create_project ws delta w) = Ok v ->
      v = JNull
      \/ (project_posts (events (create_project ws delta w)) <> []
          /\ exists body : json,
               server w (requests w) = Some body /\ py_getitem body "id" = Ok v)).
Proof.
  pose proof (create_project_posts ws delta w) as C. cbv zeta in C.
  split; [|split; [|split; [|split]]].
  - destruct C as [(-> & _)|(n & l & r & d & i & _ & _ & _ & _ & -> & _)]; cbn; lia.
  - destruct C as [(-> & -> & _)|(n & l & r & d & i & _ & _ & _ & _ & _ & -> & _)];
      reflexivity.
  - destruct C as [(-> & _ & -> & _)|(n & l & r & d & i & _ & _ & _ & _ & -> & _ & -> & _)];
      cbn; lia.
  - intros rest Hin. unfold create_project.
    rewrite (bind_input_cons _ _ _ _ _ Hin). reflexivity.
  - intros v Hv.
    destruct C as [(_ & _ & _ & H)|(n & l & r & d & i & _ & _ & _ & _ & E & _ & _ & _ & _ & H)].
    + left. exact (H v Hv).
    + destruct (H v Hv) as [->|B]; [now left|]. right. split; [|exact B].
      rewrite E. discriminate.
Qed.

(** X6. The priority of a new project is one of the four the service
    knows: what the operator typed, in upper case as [str.upper] gives it,
    when that is one of them, and MEDIUM when the answer is blank or its
    upper case is none of the four. *)
Theorem create_project_priority (ws : json) (delta : Z) (w : world) (payload : json) :
  In payload (project_posts (events (create_project ws delta w))) ->
  exists (name line : string) (rest : list string) (kv : list (string * json))
         (pr : string),
    stdin w = name :: line :: rest
    /\ payload = JObj kv
    /\ assoc "name" kv = Some (JStr name)
    /\ assoc "priority" kv = Some (JStr pr)
    /\ In pr PRIORITIES
    /\ (line <> "" -> In (str_upper line) PRIORITIES -> pr = str_upper line)
    /\ (line = "" \/ ~ In (str_upper line) PRIORITIES -> pr = "MEDIUM").
Proof.
  intros Hp.
  destruct (create_project_posts ws delta w)
    as [(E & _)|(name & line & rest & due & wid & Hin & _ & _ & _ & E & _)];
    cbv zeta in *; rewrite E in Hp; [contradiction Hp|].
  destruct Hp as [<-|[]].
  exists name, line, rest. eexists. eexists.
  split; [exact Hin|]. split; [reflexivity|].
  split; [reflexivity|]. split; [reflexivity|].
  unfold priority_of.
  destruct line as [|c line]; cbn [str_truthy andb].
  { split; [right; right; left; reflexivity|]. split; [|reflexivity].
    intros N. now contradiction N. }
  destruct (str_mem (str_upper (String c line)) PRIORITIES) eqn:Mm.
  - apply str_mem_in in Mm. repeat split; auto.
    intros [N|N]; [discriminate N | contradiction].
  - split; [right; right; left; reflexivity|]. split; [|reflexivity].
    intros _ I. apply str_mem_in in I. congruence.
Qed.

(** X7. The due date of a new project is a reading of the clock, moved by
    the offset when there is one, and written without any UTC designator.
    With an offset the clock is read twice and the second reading is the
    one that counts. *)
Theorem create_project_due_date (ws : json) (delta : Z) (w : world) (payload : json) :
  In payload (project_posts (events (create_project ws delta w))) ->
  exists (kv : list (string * json)) (due : datetime),
    payload = JObj kv
    /\ assoc "dueDate" kv = Some (JStr (isoformat_local due))
    /\ tzinfo due = None
    /\ ends_with "Z" (isoformat_local due) = false
    /\ (delta = 0 ->
        due = as_naive (clock w (ticks w))
        /\ ticks (final (create_project ws delta w)) = S (ticks w))
    /\ (delta <> 0 ->
        add_days (as_naive (clock w (S (ticks w)))) delta = Ok due
        /\ ticks (final (create_project ws delta w)) = S (S (ticks w))).
Proof.
  intros Hp.
  destruct (create_project_posts ws delta w)
    as [(E & _)|(name & line & rest & due & wid & _ & _ & Hd & _ & E & _ & _ & Ht & _)];
    cbv zeta in *; rewrite E in Hp; [contradiction Hp|].
  destruct Hp as [<-|[]].
  assert (Tz : tzinfo due = None).
  { destruct (delta =? 0).
    - injection Hd as <-. reflexivity.
    - destruct (add_days_ok _ _ _ Hd) as (_ & _ & _ & _ & _ & T & _). exact T. }
  eexists. exists due. split; [reflexivity|].
  split; [cbn [assoc String.eqb Ascii.eqb Bool.eqb]; now rewrite (iso_z_naive due Tz)|].
  split; [exact Tz|].
  split; [apply ends_with_Z_iso_chars, iso_chars_local|].
  split.
  - intros ->. cbn [Z.eqb] in *. injection Hd as <-. split; [reflexivity|]. rewrite Ht. lia.
  - intros N. apply Z.eqb_neq in N. rewrite N in *. split; [exact Hd|]. rewrite Ht. lia.
Qed.

(** ** Sessions *)

Lemma io_prepend_nil {A : Type} (r : play A) : io_prepend [] r = r.
Proof. destruct r; reflexivity. Qed.

Lemma io_prepend_prepend {A : Type} (a b : list action) (r : play A) :
  io_prepend a (io_prepend b r) = io_prepend (a ++ b) r.
Proof. unfold io_prepend; cbn. now rewrite app_assoc. Qed.

Lemma io_bind_ok {A B : Type} (m : IO A) (f : A -> IO B) (s : session) (a : A) :
  outcome_of (m s) = Ok a ->
  io_bind m f s = io_prepend (trace (m s)) (f a (after (m s))).
Proof. intros H. unfold io_bind. rewrite H. reflexivity. Qed.

Lemma io_bind_raise {A B : Type} (m : IO A) (f : A -> IO B) (s : session) (e : exn) :
  outcome_of (m s) = Raise e ->
  io_bind m f s = mkPlay (Raise e) (after (m s)) (trace (m s)).
Proof. intros H. unfold io_bind. rewrite H. reflexivity. Qed.

Lemma io_bind_ret {A B : Type} (a : A) (f : A -> IO B) (s : session) :
  io_bind (io_ret a) f s = f a s.
Proof. unfold io_bind; cbn. apply io_prepend_nil. Qed.

Lemma io_bind_lift_ok {A B : Type} (a : A) (f : A -> IO B) (s : session) :
  io_bind (io_lift (Ok a)) f s = f a s.
Proof. unfold io_bind; cbn. apply io_prepend_nil. Qed.

Lemma io_bind_lift_raise {A B : Type} (e : exn) (f : A -> IO B) (s : session) :
  io_bind (io_lift (Raise e)) f s = mkPlay (Raise e) s [].
Proof. reflexivity. Qed.

Lemma io_bind_say {B : Type} (m : menu_message) (f : unit -> IO B) (s : session) :
  io_bind (say m) f s = io_prepend [Say m] (f tt s).
Proof. reflexivity. Qed.

Lemma io_bind_assoc {A B C : Type} (m : IO A) (f : A -> IO B) (g : B -> IO C)
    (s : session) :
  io_bind (io_bind m f) g s = io_bind m (fun a => io_bind (f a) g) s.
Proof.
  unfold io_bind. destruct (outcome_of (m s)) as [a|e]; [|reflexivity].
  cbn [io_prepend outcome_of after trace].
  destruct (outcome_of (f a (after (m s)))) as [b|e]; [|reflexivity].
  unfold io_prepend; cbn. now rewrite app_assoc.
Qed.

(** The trace of two actions in a row. *)
Lemma io_bind_trace {A B : Type} (m : IO A) (f : A -> IO B) (s : session) :
  trace (io_bind m f s)
  = trace (m s)
    ++ match outcome_of (m s) with
       | Ok a => trace (f a (after (m s)))
       | Raise _ => []
       end.
Proof.
  unfold io_bind. destruct (outcome_of (m s)); cbn; [reflexivity|].
  now rewrite app_nil_r.
Qed.

(** ** The operator's input is only consumed *)

Lemma consuming_ret {A : Type} (a : A) : consuming (ret a).
Proof. intros w. exists []. reflexivity. Qed.

Lemma consuming_lift {A : Type} (r : outcome A) : consuming (lift r).
Proof. intros w. exists []. reflexivity. Qed.

Lemma consuming_print (m : message) : consuming (print m).
Proof. intros w. exists []. reflexivity. Qed.

Lemma consuming_sleep (n : Z) : consuming (sleep n).
Proof. intros w. exists []. reflexivity. Qed.

Lemma consuming_utcnow : consuming utcnow.
Proof. intros w. exists []. reflexivity. Qed.

Lemma consuming_input (p : prompt) : consuming (input p).
Proof.
  intros w. unfold input. destruct (stdin w) as [|line rest] eqn:E; cbn.
  - exists []. now rewrite E.
  - exists [line]. reflexivity.
Qed.

Lemma consuming_bind {A B : Type} (m : M A) (f : A -> M B) :
  consuming m -> (forall a, consuming (f a)) -> consuming (bind m f).
Proof.
  intros Hm Hf w. unfold bind. destruct (Hm w) as (t1 & E1).
  destruct (result (m w)) as [a|e]; cbn [prepend final].
  - destruct (Hf a (final (m w))) as (t2 & E2).
    exists (t1 ++ t2). rewrite <- app_assoc, <- E2. exact E1.
  - exists t1. exact E1.
Qed.

Lemma consuming_get_data (url : string) (params : option json) :
  consuming (get_data url params).
Proof.
  intros w. exists []. unfold get_data, bind, exchange; cbn.
  destruct (server w (requests w)); reflexivity.
Qed.

Lemma consuming_post_data (url : string) (data : json) : consuming (post_data url data).
Proof. intros w. exists []. rewrite post_data_run. reflexivity. Qed.

Ltac consuming_step :=
  first
    [ apply consuming_ret | apply consuming_lift | apply consuming_print
    | apply consuming_input | apply consuming_utcnow | apply consuming_sleep
    | apply consuming_get_data | apply consuming_post_data
    | apply consuming_bind; [|intros ?]
    | match goal with
      | |- consuming (if ?b then _ else _) => destruct b
      | |- consuming (match ?x with _ => _ end) => destruct x
      end ].

Lemma consuming_print_schedules (items : list json) :
  forall i : nat, consuming (print_schedules i items).
Proof.
  induction items as [|x items IH]; intros i; cbn [print_schedules].
  - apply consuming_ret.
  - repeat consuming_step. apply IH.
Qed.

Lemma choose_schedule_suffix (schedules : json) (count : nat) (lines : list string) :
  exists taken : list string,
    lines = taken ++ snd (fst (choose_schedule schedules count lines)).
Proof.
  induction lines as [|line rest IH]; cbn [choose_schedule].
  - exists []. reflexivity.
  - destruct (negb (str_truthy line)); [exists [line]; reflexivity|].
    destruct (py_int line) as [choice|].
    + destruct (choice =? 0); [exists [line]; reflexivity|].
      destruct ((1 <=? choice) && (choice <=? Z.of_nat count))%bool;
        [exists [line]; reflexivity|].
      destruct (choose_schedule schedules count rest) as [[r rest'] evs].
      destruct IH as (t & ->). exists (line :: t). reflexivity.
    + destruct (choose_schedule schedules count rest) as [[r rest'] evs].
      destruct IH as (t & ->). exists (line :: t). reflexivity.
Qed.

Lemma consuming_select_schedule (schedules : json) (count : nat) :
  consuming (select_schedule schedules count).
Proof.
  intros w. unfold select_schedule.
  pose proof (choose_schedule_suffix schedules count (stdin w)) as H.
  destruct (choose_schedule schedules count (stdin w)) as [[r rest] evs].
  exact H.
Qed.

Lemma consuming_gather_params (workspace : json) : consuming (gather_params workspace).
Proof.
  unfold gather_params, create_project, list_schedules.
  repeat (first [ apply consuming_print_schedules | apply consuming_select_schedule
                | consuming_step ]).
Qed.

Lemma consuming_dispatch_loop (P : run_params) (total : nat) (tasks : list json) :
  forall (i : nat) (c : Z * Z), consuming (dispatch_loop P total i tasks c).
Proof.
  induction tasks as [|td rest IH]; intros i c; cbn [dispatch_loop].
  - apply consuming_ret.
  - apply consuming_bind; [|intros c'; apply IH].
    destruct c as [s f].
    unfold dispatch_task, build_payload, derive_due_date, auto_scheduled.
    repeat consuming_step.
Qed.

Lemma consuming_create_tasks (workspace template : json) :
  consuming (create_tasks_from_template workspace template).
Proof.
  unfold create_tasks_from_template.
  apply consuming_bind; [apply consuming_lift|intros invalid].
  destruct invalid; [apply consuming_print|].
  apply consuming_bind; [apply consuming_gather_params|intros P].
  apply consuming_bind; [apply consuming_lift|intros tasks].
  apply consuming_bind; [apply consuming_dispatch_loop|intros [s f]].
  apply consuming_print.
Qed.

Lemma consuming_load_template (filename : string) : consuming (load_template filename).
Proof.
  intros w. exists []. unfold load_template.
  destruct (files w filename); reflexivity.
Qed.

Lemma consuming_replay (workspace : json) (filename : string) :
  consuming (replay_template_file workspace filename).
Proof.
  unfold replay_template_file.
  apply consuming_bind; [apply consuming_load_template|intros template].
  destruct (truthy template); [apply consuming_create_tasks | apply consuming_ret].
Qed.

Lemma io_consuming_ret {A : Type} (a : A) : io_consuming (io_ret a).
Proof. intros s. exists []. reflexivity. Qed.

Lemma io_consuming_lift {A : Type} (r : outcome A) : io_consuming (io_lift r).
Proof. intros s. exists []. reflexivity. Qed.

Lemma io_consuming_say (m : menu_message) : io_consuming (say m).
Proof. intros s. exists []. reflexivity. Qed.

Lemma io_consuming_ask (p : menu_prompt) : io_consuming (ask p).
Proof.
  intros s. unfold ask. destruct (stdin (base s)) as [|line rest] eqn:E; cbn.
  - exists []. now rewrite E.
  - exists [line]. reflexivity.
Qed.

Lemma io_consuming_core {A : Type} (m : M A) : consuming m -> io_consuming (core m).
Proof. intros H s. exact (H (base s)). Qed.

Lemma io_consuming_bind {A B : Type} (m : IO A) (f : A -> IO B) :
  io_consuming m -> (forall a, io_consuming (f a)) -> io_consuming (io_bind m f).
Proof.
  intros Hm Hf s. unfold io_bind. destruct (Hm s) as (t1 & E1).
  destruct (outcome_of (m s)) as [a|e]; cbn [io_prepend after].
  - destruct (Hf a (after (m s))) as (t2 & E2).
    exists (t1 ++ t2). rewrite <- app_assoc, <- E2. exact E1.
  - exists t1. exact E1.
Qed.

Lemma io_consuming_local_now : io_consuming local_now.
Proof. intros s. exists []. reflexivity. Qed.

Lemma io_consuming_ensure_dir : io_consuming ensure_dir.
Proof.
  intros s. exists []. unfold ensure_dir.
  destruct (directory s); [destruct (makedirs_error s)| |]; reflexivity.
Qed.

Lemma io_consuming_write_template (filename : string) (template : json) :
  io_consuming (write_template filename template).
Proof.
  intros s. exists []. unfold write_template. destruct (writing s filename); reflexivity.
Qed.

Lemma io_consuming_list_template_files : io_consuming list_template_files.
Proof.
  intros s. exists []. unfold list_template_files. destruct (directory s); reflexivity.
Qed.

Ltac io_consuming_step :=
  first
    [ apply io_consuming_ret | apply io_consuming_lift | apply io_consuming_say
    | apply io_consuming_ask | apply io_consuming_local_now
    | apply io_consuming_ensure_dir | apply io_consuming_write_template
    | apply io_consuming_list_template_files
    | apply io_consuming_core; first [ apply consuming_get_data | apply consuming_replay ]
    | apply io_consuming_bind; [|intros ?]
    | match goal with
      | |- io_consuming (if ?b then _ else _) => destruct b
      | |- io_consuming (match ?x with _ => _ end) => destruct x
      end ].

Lemma io_consuming_say_items (mk : nat -> json -> json -> menu_message)
    (items : list json) :
  forall i : nat, io_consuming (say_items mk i items).
Proof.
  induction items as [|x items IH]; intros i; cbn [say_items].
  - apply io_consuming_ret.
  - repeat io_consuming_step. apply IH.
Qed.

Lemma choose_item_suffix (p : menu_prompt) (items : json) (count : nat)
    (lines : list string) :
  exists taken : list string,
    lines = taken ++ snd (fst (choose_item p items count lines)).
Proof.
  induction lines as [|line rest IH]; cbn [choose_item].
  - exists []. reflexivity.
  - destruct (py_int line) as [choice|].
    + destruct ((1 <=? choice) && (choice <=? Z.of_nat count))%bool;
        [exists [line]; reflexivity|].
      destruct (choose_item p items count rest) as [[r rest'] acts].
      destruct IH as (t & ->). exists (line :: t). reflexivity.
    + destruct (choose_item p items count rest) as [[r rest'] acts].
      destruct IH as (t & ->). exists (line :: t). reflexivity.
Qed.

Lemma io_consuming_select_item (p : menu_prompt) (items : json) (count : nat) :
  io_consuming (select_item p items count).
Proof.
  intros s. unfold select_item.
  pose proof (choose_item_suffix p items count (stdin (base s))) as H.
  destruct (choose_item p items count (stdin (base s))) as [[r rest] acts].
  exact H.
Qed.

Lemma io_consuming_list_resource (L : listing) : io_consuming (list_resource L).
Proof.
  unfold list_resource.
  repeat (first [ apply io_consuming_say_items | apply io_consuming_select_item
                | io_consuming_step ]).
Qed.

Lemma io_consuming_generate (workspace project tasks : json) :
  io_consuming (generate_task_template_file workspace project tasks).
Proof. unfold generate_task_template_file. repeat io_consuming_step. Qed.

Lemma io_consuming_get_tasks (project_id : json) :
  io_consuming (get_tasks_for_project project_id).
Proof. unfold get_tasks_for_project. repeat io_consuming_step. Qed.

Lemma io_consuming_pull (workspace : json) (otherwise : IO unit) :
  io_consuming otherwise -> io_consuming (pull_template workspace otherwise).
Proof.
  intros H. unfold pull_template, list_projects.
  repeat (first [ exact H | apply io_consuming_list_resource | apply io_consuming_generate
                | apply io_consuming_get_tasks | io_consuming_step ]).
Qed.

Lemma choose_file_suffix (files lines : list string) :
  exists taken : list string, lines = taken ++ snd (fst (choose_file files lines)).
Proof.
  induction lines as [|line rest IH]; cbn [choose_file].
  - exists []. reflexivity.
  - destruct (negb (str_truthy line)); [exists [line]; reflexivity|].
    destruct (py_int line) as [n|].
    + destruct ((1 <=? n) && (n <=? Z.of_nat (List.length files)))%bool;
        [exists [line]; reflexivity|].
      destruct (choose_file files rest) as [[r rest'] acts].
      destruct IH as (t & ->). exists (line :: t). reflexivity.
    + destruct (choose_file files rest) as [[r rest'] acts].
      destruct IH as (t & ->). exists (line :: t). reflexivity.
Qed.

Lemma io_consuming_say_files (files : list string) :
  forall i : nat, io_consuming (say_files i files).
Proof.
  induction files as [|x files IH]; intros i; cbn [say_files].
  - apply io_consuming_ret.
  - repeat io_consuming_step. apply IH.
Qed.

Lemma io_consuming_get_template_filename (files : list string) :
  io_consuming (get_template_filename_from_user files).
Proof.
  unfold get_template_filename_from_user. destruct files as [|f files].
  - repeat io_consuming_step.
  - apply io_consuming_bind; [apply io_consuming_say|intros _].
    apply io_consuming_bind; [apply io_consuming_say_files|intros _].
    intros s.
    pose proof (choose_file_suffix (f :: files) (stdin (base s))) as H.
    destruct (choose_file (f :: files) (stdin (base s))) as [[r rest] acts].
    exact H.
Qed.

Lemma io_consuming_create_from_template (workspace : json) :
  io_consuming (create_from_template workspace).
Proof.
  unfold create_from_template.
  repeat (first [ apply io_consuming_get_template_filename
                | apply io_consuming_pull; apply io_consuming_say
                | io_consuming_step ]).
Qed.

Lemma io_consuming_menu_turn : io_consuming menu_turn.
Proof.
  unfold menu_turn, list_workspaces.
  repeat (first [ apply io_consuming_list_resource
                | apply io_consuming_create_from_template
                | apply io_consuming_pull; apply io_consuming_ret
                | io_consuming_step ]).
Qed.

(** ** The main menu *)

Lemma io_bind_ok_inv {A B : Type} (m : IO A) (f : A -> IO B) (s : session) (b : B) :
  outcome_of (io_bind m f s) = Ok b ->
  exists a, outcome_of (m s) = Ok a /\ outcome_of (f a (after (m s))) = Ok b.
Proof.
  unfold io_bind. destruct (outcome_of (m s)) as [a|e]; [|discriminate].
  cbn. eauto.
Qed.

(** A turn of the menu that ends has taken the line of the choice; it ends
    the menu exactly when that line is [3]. *)
Lemma menu_turn_line (s : session) (b : bool) :
  outcome_of (menu_turn s) = Ok b ->
  exists (line : string) (taken : list string),
    stdin (base s) = line :: taken ++ stdin (base (after (menu_turn s)))
    /\ (b = true ->
        line = "3" /\ trace (menu_turn s) = menu_lines ++ [Say MsgExiting]
        /\ after (menu_turn s) = with_base (typed (List.tl (stdin (base s))) (base s)) s).
Proof.
  unfold menu_turn. rewrite !io_bind_say.
  set (K := fun choice : string => _).
  assert (HK : forall c, io_consuming (K c)).
  { intros c. subst K. cbv beta. unfold list_workspaces.
    repeat (first [ apply io_consuming_list_resource
                  | apply io_consuming_create_from_template
                  | apply io_consuming_pull; apply io_consuming_ret
                  | io_consuming_step ]). }
  assert (HB : forall c s', outcome_of (K c s') = Ok true ->
                            c = "3" /\ K c s' = mkPlay (Ok true) s' [Say MsgExiting]).
  { intros c s'. subst K. cbv beta.
    destruct (String.eqb c "1").
    { intros H. apply io_bind_ok_inv in H. destruct H as (ws & _ & H).
      apply io_bind_ok_inv in H. destruct H as (u & _ & H). discriminate H. }
    destruct (String.eqb c "2").
    { intros H. apply io_bind_ok_inv in H. destruct H as (ws & _ & H).
      apply io_bind_ok_inv in H. destruct H as (u & _ & H). discriminate H. }
    destruct (String.eqb_spec c "3") as [->|_].
    - intros _. split; reflexivity.
    - cbn. discriminate. }
  assert (Q : io_bind (ask AskMenuChoice) K s
              = match stdin (base s) with
                | [] => mkPlay (Raise EOFError) s [Ask AskMenuChoice]
                | line :: rest =>
                  io_prepend [Ask AskMenuChoice]
                    (K line (with_base (typed rest (base s)) s))
                end)
    by (unfold io_bind, ask; destruct (stdin (base s)); reflexivity).
  rewrite Q. clear Q.
  destruct (stdin (base s)) as [|line rest] eqn:E; cbn [outcome_of after trace io_prepend].
  - discriminate.
  - intros H. destruct (HK line (with_base (typed rest (base s)) s)) as (taken & T).
    cbn [with_base base typed stdin] in T.
    exists line, taken. split; [now rewrite <- T|].
    intros ->. destruct (HB _ _ H) as [-> Eq]. split; [reflexivity|].
    rewrite Eq. split; reflexivity.
Qed.

(** X8. [main_menu] ends on every finite input: with one turn more than
    there are lines to type the loop has ended, and further turns change
    nothing.  It takes lines from the front of the input only, and it
    returns only after the operator typed 3, with the message of the exit
    as the last thing done; every other end is an exception. *)
Theorem main_menu_ends (s : session) :
  exists r : play unit,
    (forall turns : nat,
     (List.length (stdin (base s)) < turns)%nat -> main_menu turns s = Some r)
    /\ (exists taken : list string, stdin (base s) = taken ++ stdin (base (after r)))
    /\ (outcome_of r = Ok tt ->
        In "3" (stdin (base s))
        /\ exists before : list action, trace r = before ++ [Say MsgExiting]).
Proof.
  remember (List.length (stdin (base s))) as n eqn:Hn.
  assert (Hle : (List.length (stdin (base s)) <= n)%nat) by lia.
  clear Hn. revert s Hle.
  induction n as [|n IH]; intros s Hle.
  - destruct (outcome_of (menu_turn s)) as [b|e] eqn:O.
    + destruct (menu_turn_line s b O) as (line & taken & E & _).
      rewrite E in Hle. cbn in Hle. lia.
    + exists (mkPlay (Raise e) (after (menu_turn s)) (trace (menu_turn s))).
      split; [|split].
      * intros [|t] Ht; [lia|]. cbn [main_menu]. rewrite O. reflexivity.
      * exact (io_consuming_menu_turn s).
      * discriminate.
  - destruct (outcome_of (menu_turn s)) as [[|]|e] eqn:O.
    + destruct (menu_turn_line s true O) as (line & taken & E & X).
      destruct (X eq_refl) as (-> & Tr & _).
      exists (mkPlay (Ok tt) (after (menu_turn s)) (trace (menu_turn s))).
      split; [|split].
      * intros [|t] Ht; [lia|]. cbn [main_menu]. rewrite O. reflexivity.
      * exact (io_consuming_menu_turn s).
      * intros _. split; [rewrite E; now left|].
        exists menu_lines. exact Tr.
    + destruct (menu_turn_line s false O) as (line & taken & E & _).
      assert (L : (List.length (stdin (base (after (menu_turn s)))) <= n)%nat).
      { rewrite E in Hle. cbn [List.length] in Hle. rewrite length_app in Hle. lia. }
      destruct (IH _ L) as (r & R1 & (taken' & R2) & R3).
      exists (io_prepend (trace (menu_turn s)) r).
      split; [|split].
      * intros [|t] Ht; [lia|]. cbn [main_menu]. rewrite O.
        rewrite R1; [reflexivity | lia].
      * exists (line :: taken ++ taken'). cbn [io_prepend after].
        rewrite E at 1. rewrite R2 at 1. cbn [app]. now rewrite app_assoc.
      * cbn [io_prepend outcome_of trace]. intros H.
        destruct (R3 H) as (I & before & Tr). split.
        -- rewrite E. right. apply in_or_app. right. exact I.
        -- exists (trace (menu_turn s) ++ before). rewrite Tr. apply app_assoc.
    + exists (mkPlay (Raise e) (after (menu_turn s)) (trace (menu_turn s))).
      split; [|split].
      * intros [|t] Ht; [lia|]. cbn [main_menu]. rewrite O. reflexivity.
      * exact (io_consuming_menu_turn s).
      * discriminate.
Qed.

(** ** What changes nothing on the service *)

Lemma harmless_ret {A : Type} (a : A) : harmless (io_ret a).
Proof. intros s. reflexivity. Qed.

Lemma harmless_lift {A : Type} (r : outcome A) : harmless (io_lift r).
Proof. intros s. reflexivity. Qed.

Lemma harmless_say (m : menu_message) : harmless (say m).
Proof. intros s. reflexivity. Qed.

Lemma harmless_ask (p : menu_prompt) : harmless (ask p).
Proof. intros s. unfold ask. destruct (stdin (base s)); reflexivity. Qed.

Lemma harmless_bind {A B : Type} (m : IO A) (f : A -> IO B) :
  harmless m -> (forall a, harmless (f a)) -> harmless (io_bind m f).
Proof.
  intros Hm Hf s. rewrite io_bind_trace, forallb_app, (Hm s).
  destruct (outcome_of (m s)) as [a|e]; [exact (Hf a _) | reflexivity].
Qed.

Lemma harmless_get_data (url : string) (params : option json) :
  harmless (core (get_data url params)).
Proof.
  intros s. unfold core, get_data, bind, exchange; cbn.
  destruct (server (base s) (requests (base s))); reflexivity.
Qed.

Lemma harmless_local_now : harmless local_now.
Proof. intros s. reflexivity. Qed.

Lemma harmless_ensure_dir : harmless ensure_dir.
Proof.
  intros s. unfold ensure_dir.
  destruct (directory s); [destruct (makedirs_error s)| |]; reflexivity.
Qed.

Lemma harmless_write_template (filename : string) (template : json) :
  harmless (write_template filename template).
Proof. intros s. unfold write_template. destruct (writing s filename); reflexivity. Qed.

Lemma harmless_list_template_files : harmless list_template_files.
Proof. intros s. unfold list_template_files. destruct (directory s); reflexivity. Qed.

Ltac harmless_step :=
  first
    [ apply harmless_ret | apply harmless_lift | apply harmless_say
    | apply harmless_ask | apply harmless_local_now
    | apply harmless_ensure_dir | apply harmless_write_template
    | apply harmless_list_template_files | apply harmless_get_data
    | apply harmless_bind; [|intros ?]
    | match goal with
      | |- harmless (if ?b then _ else _) => destruct b
      | |- harmless (match ?x with _ => _ end) => destruct x
      end ].

Lemma harmless_say_items (mk : nat -> json -> json -> menu_message) (items : list json) :
  forall i : nat, harmless (say_items mk i items).
Proof.
  induction items as [|x items IH]; intros i; cbn [say_items].
  - apply harmless_ret.
  - repeat harmless_step. apply IH.
Qed.

Lemma choose_item_harmless (p : menu_prompt) (items : json) (count : nat)
    (lines : list string) :
  forallb read_only (snd (choose_item p items count lines)) = true.
Proof.
  induction lines as [|line rest IH]; cbn [choose_item].
  - reflexivity.
  - destruct (py_int line) as [choice|].
    + destruct ((1 <=? choice) && (choice <=? Z.of_nat count))%bool; [reflexivity|].
      destruct (choose_item p items count rest) as [[r rest'] acts]. exact IH.
    + destruct (choose_item p items count rest) as [[r rest'] acts]. exact IH.
Qed.

Lemma harmless_select_item (p : menu_prompt) (items : json) (count : nat) :
  harmless (select_item p items count).
Proof.
  intros s. unfold select_item.
  pose proof (choose_item_harmless p items count (stdin (base s))) as H.
  destruct (choose_item p items count (stdin (base s))) as [[r rest] acts].
  exact H.
Qed.

Lemma harmless_list_resource (L : listing) : harmless (list_resource L).
Proof.
  unfold list_resource.
  repeat (first [ apply harmless_say_items | apply harmless_select_item
                | harmless_step ]).
Qed.

Lemma harmless_generate (workspace project tasks : json) :
  harmless (generate_task_template_file workspace project tasks).
Proof. unfold generate_task_template_file. repeat harmless_step. Qed.

Lemma harmless_get_tasks (project_id : json) : harmless (get_tasks_for_project project_id).
Proof. unfold get_tasks_for_project. repeat harmless_step. Qed.

Lemma harmless_pull (workspace : json) (otherwise : IO unit) :
  harmless otherwise -> harmless (pull_template workspace otherwise).
Proof.
  intros H. unfold pull_template, list_projects.
  repeat (first [ exact H | apply harmless_list_resource | apply harmless_generate
                | apply harmless_get_tasks | harmless_step ]).
Qed.

Lemma harmless_say_files (files : list string) :
  forall i : nat, harmless (say_files i files).
Proof.
  induction files as [|x files IH]; intros i; cbn [say_files].
  - apply harmless_ret.
  - repeat harmless_step. apply IH.
Qed.

Lemma choose_file_harmless (files lines : list string) :
  forallb read_only (snd (choose_file files lines)) = true.
Proof.
  induction lines as [|line rest IH]; cbn [choose_file].
  - reflexivity.
  - destruct (negb (str_truthy line)); [reflexivity|].
    destruct (py_int line) as [n|].
    + destruct ((1 <=? n) && (n <=? Z.of_nat (List.length files)))%bool; [reflexivity|].
      destruct (choose_file files rest) as [[r rest'] acts]. exact IH.
    + destruct (choose_file files rest) as [[r rest'] acts]. exact IH.
Qed.

Lemma harmless_get_template_filename (files : list string) :
  harmless (get_template_filename_from_user files).
Proof.
  unfold get_template_filename_from_user. destruct files as [|f files].
  - repeat harmless_step.
  - apply harmless_bind; [apply harmless_say|intros _].
    apply harmless_bind; [apply harmless_say_files|intros _].
    intros s.
    pose proof (choose_file_harmless (f :: files) (stdin (base s))) as H.
    destruct (choose_file (f :: files) (stdin (base s))) as [[r rest] acts].
    exact H.
Qed.

(** ** Choosing from a list *)

(** The item chosen is the one listed under a number the operator typed. *)
Lemma choose_item_typed (p : menu_prompt) (items : json) (count : nat)
    (lines : list string) (v : json) :
  fst (fst (choose_item p items count lines)) = Ok v ->
  exists (line : string) (i : nat),
    In line lines /\ py_int line = Some (Z.of_nat i + 1) /\ (i < count)%nat
    /\ py_index items i = Ok v.
Proof.
  induction lines as [|line rest IH]; cbn [choose_item].
  - discriminate.
  - destruct (py_int line) as [choice|] eqn:E.
    + destruct ((1 <=? choice) && (choice <=? Z.of_nat count))%bool eqn:R.
      * cbn [fst]. intros H. apply andb_prop in R. destruct R as [R1 R2].
        apply Z.leb_le in R1. apply Z.leb_le in R2.
        exists line, (Z.to_nat (choice - 1)).
        split; [now left|]. split; [rewrite E; f_equal; lia|]. split; [lia | exact H].
      * destruct (choose_item p items count rest) as [[r rest'] acts].
        intros H. destruct (IH H) as (l & i & I & Q). exists l, i. split; [now right | exact Q].
    + destruct (choose_item p items count rest) as [[r rest'] acts].
      intros H. destruct (IH H) as (l & i & I & Q). exists l, i. split; [now right | exact Q].
Qed.

(** The loop raises nothing but the end of the input when it is given a
    list and its length. *)
Lemma choose_item_list (p : menu_prompt) (items : list json) (lines : list string) :
  match fst (fst (choose_item p (JList items) (List.length items) lines)) with
  | Ok v => In v items
  | Raise e => e = EOFError
  end.
Proof.
  induction lines as [|line rest IH]; cbn [choose_item].
  - reflexivity.
  - destruct (py_int line) as [choice|] eqn:E.
    + destruct ((1 <=? choice) && (choice <=? Z.of_nat (List.length items)))%bool eqn:R.
      * cbn [fst py_index]. apply andb_prop in R. destruct R as [R1 R2].
        apply Z.leb_le in R1. apply Z.leb_le in R2.
        destruct (nth_error items (Z.to_nat (choice - 1))) as [x|] eqn:N.
        -- exact (nth_error_In _ _ N).
        -- apply nth_error_None in N. lia.
      * destruct (choose_item p (JList items) (List.length items) rest) as [[r rest'] acts].
        exact IH.
    + destruct (choose_item p (JList items) (List.length items) rest) as [[r rest'] acts].
      exact IH.
Qed.

(** ** Listing and choosing a workspace or a project *)

Lemma say_items_ok (mk : nat -> json -> json -> menu_message) (items : list json) :
  forall (i : nat) (s : session),
  outcome_of (say_items mk i items s) = Ok tt ->
  Forall (fun item => is_ok (py_getitem item "name") = true
                      /\ is_ok (py_getitem item "id") = true) items
  /\ after (say_items mk i items s) = s.
Proof.
  induction items as [|item items IH]; intros i s; cbn [say_items].
  - intros _. split; [constructor | reflexivity].
  - destruct (py_getitem item "name") as [name|e] eqn:En.
    2:{ rewrite io_bind_lift_raise. discriminate. }
    rewrite io_bind_lift_ok.
    destruct (py_getitem item "id") as [id|e] eqn:Ei.
    2:{ rewrite io_bind_lift_raise. discriminate. }
    rewrite io_bind_lift_ok, io_bind_say. cbn [io_prepend outcome_of after].
    intros H. destruct (IH _ _ H) as [F A].
    split; [|exact A]. constructor; [|exact F]. rewrite En, Ei. split; reflexivity.
Qed.

Lemma say_items_total (mk : nat -> json -> json -> menu_message) (items : list json) :
  Forall (fun item => is_ok (py_getitem item "name") = true
                      /\ is_ok (py_getitem item "id") = true) items ->
  forall (i : nat) (s : session), outcome_of (say_items mk i items s) = Ok tt.
Proof.
  induction 1 as [|item items [Hn Hi] F IH]; intros i s; cbn [say_items].
  - reflexivity.
  - destruct (py_getitem item "name") as [name|e]; [|discriminate Hn].
    destruct (py_getitem item "id") as [id|e]; [|discriminate Hi].
    rewrite !io_bind_lift_ok, io_bind_say. cbn [io_prepend outcome_of]. apply IH.
Qed.

(** What is listed item by item is a list. *)
Lemma listed_is_list (found : json) (items : list json) :
  truthy found = true ->
  py_iter found = Ok items ->
  Forall (fun item => is_ok (py_getitem item "name") = true
                      /\ is_ok (py_getitem item "id") = true) items ->
  found = JList items.
Proof.
  intros T I F. destruct found as [| | | [|c str] |l|[|[k x] kv]]; try discriminate.
  - cbn in I. injection I as <-. inversion F as [|? ? [H _] _]. discriminate H.
  - cbn in I. injection I as <-. reflexivity.
  - cbn in I. injection I as <-. inversion F as [|? ? [H _] _]. discriminate H.
Qed.

Lemma io_bind_get_data {B : Type} (url : string) (params : option json)
    (f : json -> IO B) (s : session) :
  io_bind (core (get_data url params)) f s
  = io_prepend
      (Core (EGet url params)
       :: match server (base s) (requests (base s)) with
          | Some _ => []
          | None => [Core (EPrint MsgErrorFetching)]
          end)
      (f (answer (server (base s) (requests (base s)))) (with_base (served (base s)) s)).
Proof.
  unfold io_bind, core. rewrite get_data_run. cbn [result final events outcome_of after trace].
  destruct (server (base s) (requests (base s))); reflexivity.
Qed.

(** What [list_workspaces] and [list_projects] return: nothing, without
    asking, when the answer holds no item; otherwise the item listed under
    a number the operator typed. *)
Lemma list_resource_inv (L : listing) (s : session) (v : json) :
  outcome_of (list_resource L s) = Ok v ->
  let data := answer (server (base s) (requests (base s))) in
  (v = JNull
   /\ stdin (base (after (list_resource L s))) = stdin (base s)
   /\ (lacks (list_key L) data = Ok true
       \/ exists found, py_getitem data (list_key L) = Ok found /\ truthy found = false))
  \/ exists (items : list json) (line : string) (i : nat),
       lacks (list_key L) data = Ok false
       /\ py_getitem data (list_key L) = Ok (JList items)
       /\ Forall (fun item => is_ok (py_getitem item "name") = true
                              /\ is_ok (py_getitem item "id") = true) items
       /\ In line (stdin (base s))
       /\ py_int line = Some (Z.of_nat i + 1)
       /\ nth_error items i = Some v.
Proof.
  unfold list_resource. rewrite io_bind_get_data.
  cbn [io_prepend outcome_of after]. cbv zeta.
  set (data := answer (server (base s) (requests (base s)))).
  set (s1 := with_base (served (base s)) s).
  destruct (lacks (list_key L) data) as [[|]|e] eqn:El.
  - rewrite io_bind_lift_ok, io_bind_say. cbn. intros H. injection H as <-.
    left. repeat split; auto.
  - rewrite io_bind_lift_ok.
    destruct (py_getitem data (list_key L)) as [found|e] eqn:Ef.
    2:{ rewrite io_bind_lift_raise. discriminate. }
    rewrite io_bind_lift_ok.
    destruct (truthy found) eqn:Et; cbn [negb].
    + rewrite io_bind_say. cbn [io_prepend outcome_of after].
      destruct (py_iter found) as [items|e] eqn:Ei.
      2:{ rewrite io_bind_lift_raise. discriminate. }
      rewrite io_bind_lift_ok.
      destruct (outcome_of (say_items (msg_item L) 0 items s1)) as [[]|e] eqn:Es.
      2:{ rewrite (io_bind_raise _ _ _ _ Es). discriminate. }
      rewrite (io_bind_ok _ _ _ _ Es). cbn [io_prepend outcome_of after].
      destruct (say_items_ok _ _ _ _ Es) as [F A]. rewrite A.
      pose proof (listed_is_list found items Et Ei F) as ->.
      unfold select_item.
      pose proof (choose_item_typed (list_prompt L) (JList items) (List.length items)
                    (stdin (base s1)) v) as C.
      destruct (choose_item (list_prompt L) (JList items) (List.length items)
                  (stdin (base s1))) as [[r rest] acts].
      cbn [outcome_of fst] in *. intros H.
      destruct (C H) as (line & i & I & Hp & Hi & Hx).
      right. exists items, line, i. repeat split; auto.
      cbn [py_index] in Hx.
      destruct (nth_error items i); [congruence | discriminate Hx].
    + rewrite io_bind_say. cbn. intros H. injection H as <-.
      left. repeat split; auto. right. eauto.
  - rewrite io_bind_lift_raise. discriminate.
Qed.

Lemma list_resource_total (L : listing) (s : session) (kv : list (string * json))
    (items : list json) (line : string) (rest : list string) (i : nat) (v : json) :
  server (base s) (requests (base s)) = Some (JObj kv) ->
  assoc (list_key L) kv = Some (JList items) ->
  Forall (fun item => is_ok (py_getitem item "name") = true
                      /\ is_ok (py_getitem item "id") = true) items ->
  stdin (base s) = line :: rest ->
  py_int line = Some (Z.of_nat i + 1) ->
  nth_error items i = Some v ->
  outcome_of (list_resource L s) = Ok v
  /\ stdin (base (after (list_resource L s))) = rest.
Proof.
  intros Hs Hk F Hin Hp Hn.
  assert (Hi : (i < List.length items)%nat) by (apply nth_error_Some; congruence).
  unfold list_resource. rewrite io_bind_get_data, Hs.
  cbn [answer io_prepend outcome_of after].
  assert (El : lacks (list_key L) (JObj kv) = Ok false).
  { unfold lacks. cbn [truthy]. destruct kv; [discriminate Hk|].
    cbn [negb str_in obind_outcome]. rewrite Hk. reflexivity. }
  rewrite El, io_bind_lift_ok. cbn [py_getitem]. rewrite Hk, io_bind_lift_ok.
  assert (Et : truthy (JList items) = true) by (destruct items; [destruct i; discriminate Hn | reflexivity]).
  rewrite Et. cbn [negb]. rewrite io_bind_say. cbn [io_prepend outcome_of after py_iter].
  rewrite io_bind_lift_ok.
  pose proof (say_items_total (msg_item L) items F 0%nat (with_base (served (base s)) s)) as Es.
  rewrite (io_bind_ok _ _ _ _ Es). cbn [io_prepend outcome_of after].
  destruct (say_items_ok _ _ _ _ Es) as [_ A]. rewrite A.
  unfold select_item. cbn [with_base base served stdin]. rewrite Hin.
  cbn [choose_item]. rewrite Hp.
  assert (R : ((1 <=? Z.of_nat i + 1) && (Z.of_nat i + 1 <=? Z.of_nat (List.length items)))%bool
              = true).
  { apply andb_true_intro. split; [apply Z.leb_le | apply Z.leb_le]; lia. }
  rewrite R. cbn [outcome_of after base with_base typed stdin py_index].
  replace (Z.to_nat (Z.of_nat i + 1 - 1)) with i by lia.
  rewrite Hn. split; reflexivity.
Qed.


(** ** The file of a template *)

Lemma replace_space_no_space (s : string) :
  all_chars not_space (str_replace s " " "_") = true.
Proof.
  unfold str_replace.
  induction s as [|c s IH]; [reflexivity|].
  cbn [replace_from]. rewrite starts_with_head.
  assert (P : String.prefix "" s = true) by (destruct s; reflexivity).
  unfold starts_with. rewrite P.
  destruct (Ascii.eqb_spec " "%char c) as [<-|N].
  - cbn [String.length Nat.pred String.append all_chars]. exact IH.
  - cbn [all_chars]. rewrite IH, andb_true_r.
    unfold not_space. destruct (Ascii.eqb_spec c " "%char); [congruence | reflexivity].
Qed.

Lemma not_space_digit (d : Z) : not_space (digit_char d) = true.
Proof.
  destruct d as [|p|p]; try reflexivity.
  do 4 (try (destruct p as [p|p|]; try reflexivity)).
Qed.

Lemma no_space_pad2 (n : Z) : all_chars not_space (pad2 n) = true.
Proof. unfold pad2; simpl. rewrite !not_space_digit. reflexivity. Qed.

Lemma pad2_length (n : Z) : String.length (pad2 n) = 2%nat.
Proof. reflexivity. Qed.

Lemma length_append (s t : string) :
  String.length (s +++ t) = (String.length s + String.length t)%nat.
Proof. induction s as [|c s IH]; cbn; [reflexivity | now rewrite IH]. Qed.

Lemma no_space_stamp (dt : datetime) : all_chars not_space (strftime_stamp dt) = true.
Proof.
  unfold strftime_stamp, pad4.
  repeat rewrite all_chars_app. rewrite !no_space_pad2. reflexivity.
Qed.

Lemma stamp_length (dt : datetime) : String.length (strftime_stamp dt) = 15%nat.
Proof.
  unfold strftime_stamp, pad4. repeat rewrite length_append.
  rewrite !pad2_length. reflexivity.
Qed.

(** The name of a template file ends in [.json] and has no space when its
    parts have none. *)
Lemma template_filename_shape (a b c : string) :
  ends_with ".json" (template_filename a b c) = true
  /\ (all_chars not_space a = true -> all_chars not_space b = true ->
      all_chars not_space c = true ->
      all_chars not_space (template_filename a b c) = true).
Proof.
  unfold template_filename. split.
  - rewrite <- !append_assoc. apply ends_with_app.
  - intros Ha Hb Hc. rewrite !all_chars_app, Ha, Hb, Hc. reflexivity.
Qed.

Lemma name_part_no_space (v : json) (name : string) :
  name_part v = Ok name -> all_chars not_space name = true.
Proof.
  unfold name_part. destruct (py_getitem v "name") as [n|]; [|discriminate].
  cbn [obind_outcome]. destruct n; try discriminate.
  cbn [replace_method]. intros H. injection H as <-. apply replace_space_no_space.
Qed.

(** The run of [generate_task_template] once its pure parts are there:
    the directory is made when missing, which may fail and end the run,
    and the file is written, or the failure to write it reported. *)
Lemma generate_file_run (workspace project tasks : json) (s : session)
    (items : list json) (template : json) (wname pname : string) :
  py_iter tasks = Ok items ->
  generate_task_template workspace items = Ok template ->
  name_part workspace = Ok wname ->
  name_part project = Ok pname ->
  generate_task_template_file workspace project tasks s
  = let filename :=
      template_filename wname pname
        (strftime_stamp (as_naive (local_clock s (local_ticks s)))) in
    match makedirs_raises s with
    | Some e =>
      mkPlay (Raise e)
        (mkSession (base s) (local_clock s) (S (local_ticks s)) (directory s)
           (makedirs_error s) (writing s))
        [MakeDirs]
    | None =>
      match writing s filename with
      | Written =>
        mkPlay (Ok tt) (stored filename (FileJson template) (prepared s))
          (made s ++ [WriteFile filename template;
                      Say (MsgTemplateCreated (path_join TEMPLATES_DIR filename))])
      | NotOpened => mkPlay (Ok tt) (prepared s) (made s ++ [Say MsgTemplateWriteError])
      | Spoiled =>
        mkPlay (Ok tt) (stored filename FileInvalidJson (prepared s))
          (made s ++ [SpoilFile filename; Say MsgTemplateWriteError])
      end
    end.
Proof.
  intros Hi Hg Hw Hp. unfold generate_task_template_file.
  unfold io_bind at 1. cbn [local_now outcome_of after trace].
  rewrite io_prepend_nil, Hi, io_bind_lift_ok, Hg, io_bind_lift_ok, Hw, io_bind_lift_ok,
    Hp, io_bind_lift_ok.
  cbv zeta. unfold io_bind, ensure_dir, write_template, makedirs_raises, made, prepared.
  cbn [directory makedirs_error].
  destruct (directory s) as [|names|e]; [destruct (makedirs_error s) as [e|]| |];
    cbn [outcome_of after trace io_prepend writing directory app with_new_dir];
    try reflexivity;
    destruct (writing s _); reflexivity.
Qed.

(** The outcome of [generate_task_template] is the outcome of its pure
    parts and of the making of the directory: no failure to write the
    file escapes it, a failure to make the directory does. *)
Lemma generate_file_outcome (workspace project tasks : json) (s : session) :
  outcome_of (generate_task_template_file workspace project tasks s)
  = obind_outcome (py_iter tasks) (fun items =>
    obind_outcome (generate_task_template workspace items) (fun _ =>
    obind_outcome (name_part workspace) (fun _ =>
    obind_outcome (name_part project) (fun _ =>
    match makedirs_raises s with
    | Some e => Raise e
    | None => Ok tt
    end)))).
Proof.
  destruct (py_iter tasks) as [items|e] eqn:Hi; cbn [obind_outcome].
  2:{ unfold generate_task_template_file. unfold io_bind at 1.
      cbn [local_now outcome_of after trace]. rewrite Hi. reflexivity. }
  destruct (generate_task_template workspace items) as [template|e] eqn:Hg;
    cbn [obind_outcome].
  2:{ unfold generate_task_template_file. unfold io_bind at 1.
      cbn [local_now outcome_of after trace]. rewrite Hi, io_prepend_nil, io_bind_lift_ok, Hg.
      reflexivity. }
  destruct (name_part workspace) as [wname|e] eqn:Hw; cbn [obind_outcome].
  2:{ unfold generate_task_template_file. unfold io_bind at 1.
      cbn [local_now outcome_of after trace].
      rewrite Hi, io_prepend_nil, io_bind_lift_ok, Hg, io_bind_lift_ok, Hw. reflexivity. }
  destruct (name_part project) as [pname|e] eqn:Hp; cbn [obind_outcome].
  2:{ unfold generate_task_template_file. unfold io_bind at 1.
      cbn [local_now outcome_of after trace].
      rewrite Hi, io_prepend_nil, io_bind_lift_ok, Hg, io_bind_lift_ok, Hw,
        io_bind_lift_ok, Hp. reflexivity. }
  rewrite (generate_file_run _ _ _ s _ _ _ _ Hi Hg Hw Hp). cbv zeta.
  destruct (makedirs_raises s); [reflexivity|].
  destruct (writing s _); reflexivity.
Qed.

Lemma io_bind_local_now {B : Type} (k : datetime -> IO B) (s : session) :
  io_bind local_now k s
  = k (as_naive (local_clock s (local_ticks s)))
      (mkSession (base s) (local_clock s) (S (local_ticks s)) (directory s)
         (makedirs_error s) (writing s)).
Proof. unfold io_bind; cbn. apply io_prepend_nil. Qed.

Lemma generate_file_cases (workspace project tasks : json) (s : session) :
  (exists (items : list json) (template : json) (wname pname : string),
     py_iter tasks = Ok items
     /\ generate_task_template workspace items = Ok template
     /\ name_part workspace = Ok wname
     /\ name_part project = Ok pname)
  \/ (trace (generate_task_template_file workspace project tasks s) = []
      /\ directory (after (generate_task_template_file workspace project tasks s))
         = directory s
      /\ stdin (base (after (generate_task_template_file workspace project tasks s)))
         = stdin (base s)
      /\ exists e, outcome_of (generate_task_template_file workspace project tasks s)
                   = Raise e).
Proof.
  unfold generate_task_template_file. rewrite io_bind_local_now.
  destruct (py_iter tasks) as [items|e] eqn:Hi.
  2:{ right. rewrite io_bind_lift_raise. repeat split. eexists; reflexivity. }
  rewrite io_bind_lift_ok.
  destruct (generate_task_template workspace items) as [template|e] eqn:Hg.
  2:{ right. rewrite io_bind_lift_raise. repeat split. eexists; reflexivity. }
  rewrite io_bind_lift_ok.
  destruct (name_part workspace) as [wname|e] eqn:Hw.
  2:{ right. rewrite io_bind_lift_raise. repeat split. eexists; reflexivity. }
  rewrite io_bind_lift_ok.
  destruct (name_part project) as [pname|e] eqn:Hp.
  2:{ right. rewrite io_bind_lift_raise. repeat split. eexists; reflexivity. }
  left. exists items, template, wname, pname. repeat split; (assumption || reflexivity).
Qed.

Lemma files_written_app (a b : list action) :
  files_written (a ++ b) = files_written a ++ files_written b.
Proof.
  induction a as [|x a IH]; [reflexivity|].
  destruct x; cbn [app files_written]; try exact IH. now rewrite IH.
Qed.

Lemma files_written_made (s : session) : files_written (made s) = [].
Proof. unfold made. destruct (directory s); reflexivity. Qed.

(** What a written file is: its name, its content, and that it is the
    only one. *)
Lemma generate_file_written (workspace project tasks : json) (s : session)
    (filename : string) (content : json) :
  In (filename, content)
     (files_written (trace (generate_task_template_file workspace project tasks s))) ->
  exists (items : list json) (wname pname : string),
    py_iter tasks = Ok items
    /\ generate_task_template workspace items = Ok content
    /\ name_part workspace = Ok wname
    /\ name_part project = Ok pname
    /\ filename = template_filename wname pname
                    (strftime_stamp (as_naive (local_clock s (local_ticks s))))
    /\ makedirs_raises s = None
    /\ writing s filename = Written
    /\ files_written (trace (generate_task_template_file workspace project tasks s))
       = [(filename, content)]
    /\ after (generate_task_template_file workspace project tasks s)
       = stored filename (FileJson content) (prepared s).
Proof.
  intros H.
  destruct (generate_file_cases workspace project tasks s)
    as [(items & template & wname & pname & Hi & Hg & Hw & Hp)|(T & _)].
  2:{ rewrite T in H. contradiction H. }
  rewrite (generate_file_run _ _ _ s _ _ _ _ Hi Hg Hw Hp) in *. cbv zeta in *.
  destruct (makedirs_raises s) as [e|]; [contradiction H|].
  destruct (writing s _) eqn:C; cbn [trace after] in *;
    rewrite files_written_app, files_written_made in *; cbn [app files_written] in H.
  - destruct H as [H|[]]. injection H as <- <-.
    exists items, wname, pname. repeat split; auto.
  - contradiction H.
  - contradiction H.
Qed.

(** X10. A template file has a name that ends in [.json] and holds no
    space; it holds the template generated from the tasks, and it is the
    only file written. *)
Theorem template_file_named (workspace project tasks : json) (s : session)
    (filename : string) (content : json) :
  In (filename, content)
     (files_written (trace (generate_task_template_file workspace project tasks s))) ->
  ends_with ".json" filename = true
  /\ all_chars not_space filename = true
  /\ (exists items : list json,
        py_iter tasks = Ok items
        /\ generate_task_template workspace items = Ok content)
  /\ (exists wname pname : string,
        name_part workspace = Ok wname /\ name_part project = Ok pname
        /\ filename = wname +++ "." +++ pname +++ "."
                      +++ strftime_stamp (as_naive (local_clock s (local_ticks s)))
                      +++ ".json")
  /\ files_written (trace (generate_task_template_file workspace project tasks s))
     = [(filename, content)].
Proof.
  intros H.
  destruct (generate_file_written _ _ _ _ _ _ H)
    as (items & wname & pname & Hi & Hg & Hw & Hp & -> & _ & _ & W & _).
  destruct (template_filename_shape wname pname
              (strftime_stamp (as_naive (local_clock s (local_ticks s))))) as [E N].
  split; [exact E|].
  split; [apply N; [exact (name_part_no_space _ _ Hw) | exact (name_part_no_space _ _ Hp)
                   | apply no_space_stamp]|].
  split; [eauto|]. split; [|exact W].
  exists wname, pname. repeat split; auto.
Qed.

Lemma generate_file_quiet (workspace project tasks : json) (s : session) :
  stdin (base (after (generate_task_template_file workspace project tasks s)))
  = stdin (base s)
  /\ core_events (trace (generate_task_template_file workspace project tasks s)) = [].
Proof.
  destruct (generate_file_cases workspace project tasks s)
    as [(items & template & wname & pname & Hi & Hg & Hw & Hp)|(T & _ & Q & _)].
  - rewrite (generate_file_run _ _ _ s _ _ _ _ Hi Hg Hw Hp). cbv zeta.
    unfold made, prepared.
    destruct (makedirs_raises s); [split; reflexivity|].
    destruct (writing s _); destruct (directory s); split; reflexivity.
  - rewrite T. split; [exact Q | reflexivity].
Qed.


(** ** The tasks of a project *)

Lemma get_tasks_run (project_id : json) (s : session) :
  get_tasks_for_project project_id s
  = let data := answer (server (base s) (requests (base s))) in
    io_prepend
      (Core (EGet tasks_url (Some (JObj [("projectId", project_id)])))
       :: match server (base s) (requests (base s)) with
          | Some _ => []
          | None => [Core (EPrint MsgErrorFetching)]
          end)
      match lacks "tasks" data with
      | Ok true => mkPlay (Ok (JList [])) (with_base (served (base s)) s) [Say MsgNoTasksData]
      | Ok false => mkPlay (py_getitem data "tasks") (with_base (served (base s)) s) []
      | Raise e => mkPlay (Raise e) (with_base (served (base s)) s) []
      end.
Proof.
  unfold get_tasks_for_project. rewrite io_bind_get_data. cbv zeta. f_equal.
  destruct (lacks "tasks" (answer (server (base s) (requests (base s))))) as [[|]|e].
  - rewrite io_bind_lift_ok, io_bind_say. reflexivity.
  - rewrite io_bind_lift_ok. reflexivity.
  - rewrite io_bind_lift_raise. reflexivity.
Qed.


(** ** Choosing a template file *)

(** What the loop of the file question returns comes from the first
    line that is not asked again: the file listed under its number, or
    nothing when it is blank. *)
Lemma choose_file_typed (files lines : list string) :
  match fst (fst (choose_file files lines)) with
  | Ok (Some filename) =>
    exists (skipped : list string) (line : string) (i : nat),
      lines = skipped ++ line :: snd (fst (choose_file files lines))
      /\ forallb (asked_again (List.length files)) skipped = true
      /\ py_int line = Some (Z.of_nat i + 1)
      /\ nth_error files i = Some filename
  | Ok None =>
    exists skipped : list string,
      lines = skipped ++ "" :: snd (fst (choose_file files lines))
      /\ forallb (asked_again (List.length files)) skipped = true
  | Raise e =>
    e = EOFError /\ forallb (asked_again (List.length files)) lines = true
  end.
Proof.
  induction lines as [|line rest IH]; cbn [choose_file].
  - split; reflexivity.
  - destruct (str_truthy line) eqn:T; cbn [negb].
    2:{ cbn [fst snd]. exists []. destruct line; [|discriminate T].
        split; reflexivity. }
    destruct (py_int line) as [n|] eqn:E.
    + destruct ((1 <=? n) && (n <=? Z.of_nat (List.length files)))%bool eqn:R.
      * cbn [fst snd]. apply andb_prop in R. destruct R as [R1 R2].
        apply Z.leb_le in R1. apply Z.leb_le in R2.
        destruct (nth_error files (Z.to_nat (n - 1))) as [f|] eqn:N.
        -- exists [], line, (Z.to_nat (n - 1)). split; [reflexivity|].
           split; [reflexivity|].
           split; [rewrite E; f_equal; lia | exact N].
        -- apply nth_error_None in N. lia.
      * assert (A : asked_again (List.length files) line = true)
          by (unfold asked_again; now rewrite T, E, R).
        destruct (choose_file files rest) as [[r rest'] acts]. cbn [fst snd] in *.
        destruct r as [[f|]|e].
        -- destruct IH as (sk & l & i & -> & F & Q). exists (line :: sk), l, i.
           split; [reflexivity|]. split; [cbn [forallb]; now rewrite A, F | exact Q].
        -- destruct IH as (sk & -> & F). exists (line :: sk).
           split; [reflexivity | cbn [forallb]; now rewrite A, F].
        -- destruct IH as [-> F]. split; [reflexivity | cbn [forallb]; now rewrite A, F].
    + assert (A : asked_again (List.length files) line = true)
        by (unfold asked_again; now rewrite T, E).
      destruct (choose_file files rest) as [[r rest'] acts]. cbn [fst snd] in *.
      destruct r as [[f|]|e].
      * destruct IH as (sk & l & i & -> & F & Q). exists (line :: sk), l, i.
        split; [reflexivity|]. split; [cbn [forallb]; now rewrite A, F | exact Q].
      * destruct IH as (sk & -> & F). exists (line :: sk).
        split; [reflexivity | cbn [forallb]; now rewrite A, F].
      * destruct IH as [-> F]. split; [reflexivity | cbn [forallb]; now rewrite A, F].
Qed.

Lemma say_files_run (files : list string) :
  forall (i : nat) (s : session),
  outcome_of (say_files i files s) = Ok tt /\ after (say_files i files s) = s.
Proof.
  induction files as [|f files IH]; intros i s; cbn [say_files].
  - split; reflexivity.
  - rewrite io_bind_say. cbn [io_prepend outcome_of after]. apply IH.
Qed.


(** ** What the operator is shown during the loop *)

Lemma progress_app (a b : list event) : progress (a ++ b) = progress a ++ progress b.
Proof.
  induction a as [|e a IH]; [reflexivity|].
  destruct e as [q|m|u o|u d|n]; cbn [app progress]; try exact IH.
  destruct m; cbn [app]; try exact IH. now rewrite IH.
Qed.

Lemma payloads_shown_app (a b : list event) :
  payloads_shown (a ++ b) = payloads_shown a ++ payloads_shown b.
Proof.
  induction a as [|e a IH]; [reflexivity|].
  destruct e as [q|m|u o|u d|n]; cbn [app payloads_shown]; try exact IH.
  destruct m; cbn [app]; try exact IH. now rewrite IH.
Qed.

Lemma no_report (evs : list event) :
  forallb not_loop_report evs = true -> progress evs = [] /\ payloads_shown evs = [].
Proof.
  induction evs as [|e evs IH]; [split; reflexivity|].
  cbn [forallb]. intros H. apply andb_prop in H. destruct H as [He Hr].
  destruct (IH Hr) as [I1 I2].
  destruct e as [q|m|u o|u d|n]; cbn [progress payloads_shown]; auto.
  destruct m; auto; discriminate He.
Qed.

Lemma build_payload_no_report (P : run_params) (td : json) :
  every not_loop_report (build_payload P td).
Proof.
  unfold build_payload, derive_due_date, auto_scheduled.
  repeat every_step.
Qed.

(** A turn of the loop announces its task, and shows the payload it sent
    exactly when the answer carried no id. *)
Lemma dispatch_task_report (P : run_params) (total i : nat) (td : json)
    (s f : Z) (w : world) (c' : Z * Z) :
  result (dispatch_task P total i td (s, f) w) = Ok c' ->
  exists p,
    task_posts (events (dispatch_task P total i td (s, f) w)) = [JObj p]
    /\ progress (events (dispatch_task P total i td (s, f) w)) = [(S i, total)]
    /\ payloads_shown (events (dispatch_task P total i td (s, f) w))
       = match has_id (answer (server w (requests w))) with
         | Ok true => []
         | _ => [JObj p]
         end
    /\ requests (final (dispatch_task P total i td (s, f) w)) = S (requests w)
    /\ server (final (dispatch_task P total i td (s, f) w)) = server w.
Proof.
  intros H.
  destruct (dispatch_task_inv _ _ _ _ _ _ _ _ H) as (p & Hp & _ & _ & Hw & Hpace).
  exists p.
  destruct (build_payload_quiet _ _ _ _ Hp) as (Q & F).
  destruct (same_but_ticks_requests _ _ F) as [Fr Fs].
  split; [rewrite <- task_posts_pace, Hpace; unfold submit_then_sleep; cbn [task_posts];
          rewrite String.eqb_refl; reflexivity|].
  split; [|split; [|split; [rewrite Hw; cbn [served requests]; now rewrite Fr
                           | rewrite Hw; cbn [served server]; exact Fs]]].
  - revert H. unfold dispatch_task. rewrite bind_print.
    destruct (build_payload_inv _ _ _ _ Hp) as (kv & _ & name & _ & _ & -> & _ & En & _).
    assert (Hname : py_getitem (JObj kv) "name" = Ok name)
      by (unfold py_getitem; now rewrite En).
    rewrite (bind_ok _ _ _ _ Hp), bind_post_data, Fr, Fs, Hname.
    destruct (no_report _ (build_payload_no_report P (JObj kv) w)) as [N1 _].
    set (err := match server w (requests w) with
                | Some _ => []
                | None => [EPrint MsgErrorPosting]
                end).
    assert (Herr : progress err = [])
      by (subst err; destruct (server w (requests w)); reflexivity).
    destruct (has_id (answer (server w (requests w)))) as [[|]|e].
    + rewrite bind_lift_ok; cbv beta iota. rewrite bind_assoc, bind_lift_ok.
      destruct (py_getitem (answer (server w (requests w))) "id") as [id|e].
      * run_steps. cbn [prepend result final events]. intros _.
        cbn [app progress]. rewrite progress_app, N1. cbn [app progress].
        rewrite progress_app, Herr. reflexivity.
      * rewrite bind_assoc, bind_lift_raise; cbn [prepend result]. discriminate.
    + run_steps. cbn [prepend result final events]. intros _.
      cbn [app progress]. rewrite progress_app, N1. cbn [app progress].
      rewrite progress_app, Herr. reflexivity.
    + rewrite bind_lift_raise; cbn [prepend result]. discriminate.
  - revert H. unfold dispatch_task. rewrite bind_print.
    destruct (build_payload_inv _ _ _ _ Hp) as (kv & _ & name & _ & _ & -> & _ & En & _).
    assert (Hname : py_getitem (JObj kv) "name" = Ok name)
      by (unfold py_getitem; now rewrite En).
    rewrite (bind_ok _ _ _ _ Hp), bind_post_data, Fr, Fs, Hname.
    destruct (no_report _ (build_payload_no_report P (JObj kv) w)) as [_ N2].
    set (err := match server w (requests w) with
                | Some _ => []
                | None => [EPrint MsgErrorPosting]
                end).
    assert (Herr : payloads_shown err = [])
      by (subst err; destruct (server w (requests w)); reflexivity).
    destruct (has_id (answer (server w (requests w)))) as [[|]|e].
    + rewrite bind_lift_ok; cbv beta iota. rewrite bind_assoc, bind_lift_ok.
      destruct (py_getitem (answer (server w (requests w))) "id") as [id|e].
      * run_steps. cbn [prepend result final events]. intros _.
        cbn [app payloads_shown]. rewrite payloads_shown_app, N2. cbn [app payloads_shown].
        rewrite payloads_shown_app, Herr. reflexivity.
      * rewrite bind_assoc, bind_lift_raise; cbn [prepend result]. discriminate.
    + run_steps. cbn [prepend result final events]. intros _.
      cbn [app payloads_shown]. rewrite payloads_shown_app, N2. cbn [app payloads_shown].
      rewrite payloads_shown_app, Herr. reflexivity.
    + rewrite bind_lift_raise; cbn [prepend result]. discriminate.
Qed.

Lemma dispatch_loop_report (P : run_params) (total : nat) (tasks : list json) :
  forall (i : nat) (c : Z * Z) (w : world) (c' : Z * Z),
  result (dispatch_loop P total i tasks c w) = Ok c' ->
  progress (events (dispatch_loop P total i tasks c w))
  = map (fun j => (S j, total)) (seq i (List.length tasks))
  /\ payloads_shown (events (dispatch_loop P total i tasks c w))
     = failed_of (server w) (requests w)
         (task_posts (events (dispatch_loop P total i tasks c w)))
  /\ List.length (task_posts (events (dispatch_loop P total i tasks c w)))
     = List.length tasks.
Proof.
  induction tasks as [|td rest IH]; intros i c w c'; cbn [dispatch_loop].
  - intros _. repeat split.
  - destruct c as [s f].
    destruct (result (dispatch_task P total i td (s, f) w)) as [c1|e] eqn:E1.
    2:{ rewrite (bind_raise _ _ _ _ E1). discriminate. }
    rewrite (bind_ok _ _ _ _ E1). cbn [prepend result final events].
    destruct (dispatch_task_report _ _ _ _ _ _ _ _ E1) as (p & T1 & T2 & T3 & T4 & T5).
    intros H. destruct (IH _ _ _ _ H) as (I1 & I2 & I3).
    rewrite progress_app, payloads_shown_app, task_posts_app, T1, T2, T3, I1, I2, T4, T5.
    cbn [List.length seq map app failed_of]. rewrite I3.
    split; [reflexivity|]. split; [|reflexivity].
    destruct (has_id (answer (server w (requests w)))) as [[|]|e]; reflexivity.
Qed.

Lemma failed_of_length (srv : nat -> option json) (payloads : list json) :
  forall k : nat,
  Z.of_nat (List.length (failed_of srv k payloads))
  = Z.of_nat (List.length payloads) - ids_answered srv k (List.length payloads).
Proof.
  induction payloads as [|p rest IH]; intros k; cbn [failed_of List.length ids_answered].
  - reflexivity.
  - specialize (IH (S k)).
    destruct (has_id (answer (srv k))) as [[|]|e]; cbn [List.length]; lia.
Qed.

(** X15. Every task is announced in turn, and the payloads shown to the
    operator are exactly the submitted payloads whose answer carried no
    id, as many as the failures of the summary. *)
Theorem run_report (workspace template : json) (w : world) :
  invalid_template template = Ok false ->
  result (create_tasks_from_template workspace template w) = Ok tt ->
  exists (tasks : list json) (s f : Z) (before : list event),
    tasks_of template = Ok tasks
    /\ events (create_tasks_from_template workspace template w)
       = before ++ [EPrint (MsgSummary s (List.length tasks) f)]
    /\ progress (events (create_tasks_from_template workspace template w))
       = map (fun j => (S j, List.length tasks)) (seq 0 (List.length tasks))
    /\ payloads_shown (events (create_tasks_from_template workspace template w))
       = failed_of (server w) (requests (final (gather_params workspace w)))
           (task_posts (events (create_tasks_from_template workspace template w)))
    /\ Z.of_nat (List.length
                   (payloads_shown (events (create_tasks_from_template workspace template w))))
       = f.
Proof.
  intros Hg Hr.
  destruct (create_tasks_inv _ _ _ Hg Hr) as (P & tasks & s & f & E0 & Et & El & Ee).
  destruct (create_tasks_trace _ _ _ Hg Hr)
    as (P' & tasks' & steps & s' & f' & E0' & Et' & S1 & Ee' & _ & Hp & _ & Hs & Hf).
  rewrite E0 in E0'. injection E0' as <-. rewrite Et in Et'. injection Et' as <-.
  assert (Esf : s' = s /\ f' = f).
  { rewrite Ee in Ee'. apply app_inv_head in Ee'. apply app_inv_head in Ee'.
    injection Ee' as -> ->. split; reflexivity. }
  destruct Esf as [-> ->].
  destruct (gather_params_frame workspace w) as (Fs & _).
  destruct (dispatch_loop_report _ _ _ _ _ _ _ El) as (L1 & L2 & L3).
  destruct (no_report _ (gather_params_no_report workspace w)) as [G1 G2].
  destruct (preparatory_quiet _ (calm_gather_params workspace w)) as [G3 _].
  exists tasks, s, f,
    (events (gather_params workspace w)
     ++ events (dispatch_loop P (List.length tasks) O tasks (0, 0)
                  (final (gather_params workspace w)))).
  split; [exact Et|]. split; [rewrite Ee; now rewrite app_assoc|].
  assert (Tp : task_posts (events (create_tasks_from_template workspace template w))
               = task_posts (events (dispatch_loop P (List.length tasks) O tasks (0, 0)
                                       (final (gather_params workspace w))))).
  { rewrite Ee, !task_posts_app, G3. cbn [task_posts app]. now rewrite app_nil_r. }
  assert (Ps : payloads_shown (events (create_tasks_from_template workspace template w))
               = payloads_shown (events (dispatch_loop P (List.length tasks) O tasks (0, 0)
                                           (final (gather_params workspace w))))).
  { rewrite Ee, !payloads_shown_app, G2. cbn [payloads_shown app]. now rewrite app_nil_r. }
  split; [rewrite Ee, !progress_app, G1, L1; cbn [progress app]; now rewrite app_nil_r|].
  split; [rewrite Ps, Tp, L2, Fs; reflexivity|].
  rewrite Ps, L2, failed_of_length, L3, Fs, Hf, Hs. reflexivity.
Qed.

(** ** The questions before the loop, one by one *)

Lemma bind_ok_inv {A B : Type} (m : M A) (f : A -> M B) (w : world) (b : B) :
  result (bind m f w) = Ok b ->
  exists a : A,
    result (m w) = Ok a
    /\ result (f a (final (m w))) = Ok b
    /\ events (bind m f w) = events (m w) ++ events (f a (final (m w)))
    /\ final (bind m f w) = final (f a (final (m w))).
Proof.
  unfold bind. destruct (result (m w)) as [a|e]; [|discriminate].
  cbn [prepend result events final]. intros H. exists a. repeat split; auto.
Qed.

(** The schedule loop chooses nothing on a blank line or on [0], and
    otherwise the name listed under the number typed; only the end of the
    input stops it otherwise. *)
Lemma choose_schedule_typed (items : list json) (lines : list string) :
  Forall (fun item => is_ok (py_getitem item "name") = true) items ->
  match fst (fst (choose_schedule (JList items) (List.length items) lines)) with
  | Ok v =>
    (v = JNull /\ exists line, In line lines /\ (line = "" \/ py_int line = Some 0))
    \/ exists (line : string) (i : nat) (item : json),
         In line lines /\ py_int line = Some (Z.of_nat i + 1)
         /\ nth_error items i = Some item /\ py_getitem item "name" = Ok v
  | Raise e => e = EOFError
  end.
Proof.
  intros F. induction lines as [|line rest IH]; cbn [choose_schedule].
  - reflexivity.
  - destruct (str_truthy line) eqn:T; cbn [negb].
    2:{ cbn [fst]. left. split; [reflexivity|]. exists line. split; [now left|].
        left. destruct line; [reflexivity | discriminate T]. }
    destruct (py_int line) as [choice|] eqn:E.
    + destruct (Z.eqb_spec choice 0) as [->|N].
      { cbn [fst]. left. split; [reflexivity|]. exists line. split; [now left | now right]. }
      destruct ((1 <=? choice) && (choice <=? Z.of_nat (List.length items)))%bool eqn:R.
      * cbn [fst py_index obind_outcome]. apply andb_prop in R. destruct R as [R1 R2].
        apply Z.leb_le in R1. apply Z.leb_le in R2.
        destruct (nth_error items (Z.to_nat (choice - 1))) as [item|] eqn:Nn.
        2:{ apply nth_error_None in Nn. lia. }
        cbn [obind_outcome].
        rewrite Forall_forall in F. pose proof (F item (nth_error_In _ _ Nn)) as Hn.
        destruct (py_getitem item "name") as [v|e] eqn:Ev; [|discriminate Hn].
        right. exists line, (Z.to_nat (choice - 1)), item.
        split; [now left|]. split; [rewrite E; f_equal; lia|]. split; assumption.
      * destruct (choose_schedule (JList items) (List.length items) rest)
          as [[r rest'] evs].
        cbn [fst] in *. destruct r as [v|e]; [|exact IH].
        destruct IH as [(-> & l & I & Q)|(l & i & item & I & Q)].
        -- left. split; [reflexivity|]. exists l. split; [now right | exact Q].
        -- right. exists l, i, item. split; [now right | exact Q].
    + destruct (choose_schedule (JList items) (List.length items) rest)
        as [[r rest'] evs].
      cbn [fst] in *. destruct r as [v|e]; [|exact IH].
      destruct IH as [(-> & l & I & Q)|(l & i & item & I & Q)].
      * left. split; [reflexivity|]. exists l. split; [now right | exact Q].
      * right. exists l, i, item. split; [now right | exact Q].
Qed.


(** ** The offset *)

(** X17. The offset of a run is the number [int] reads from the answer
    to the first question, and zero when the answer is blank or [int]
    refuses it; the question is asked once, and only an answer that is not
    blank and that [int] refuses is told to be invalid. *)
Theorem offset_typed (workspace : json) (w : world) (line : string)
    (rest : list string) (P : run_params) :
  stdin w = line :: rest ->
  result (gather_params workspace w) = Ok P ->
  due_date_delta P = offset_of line
  /\ exists tail : list event,
       events (gather_params workspace w)
       = EInput AskDueDateDelta
         :: (if (str_truthy line
                 && match py_int line with Some _ => false | None => true end)%bool
             then [EPrint MsgInvalidInputDefault] else [])
         ++ tail
       /\ forallb not_offset_talk tail = true.
Proof.
  intros Hin. unfold gather_params.
  rewrite (bind_input_cons _ _ _ _ _ Hin). cbn [prepend result events app].
  set (k := fun due_date_delta : Z => _).
  assert (K1 : forall d, every not_offset_talk (k d)).
  { intros d. subst k. cbv beta. unfold create_project, list_schedules.
    repeat (first [ apply every_print_schedules; reflexivity
                  | apply every_select_schedule; reflexivity
                  | every_step ]). }
  assert (K2 : forall d, returns (fun P => due_date_delta P = d) (k d)).
  { intros d. subst k. cbv beta.
    repeat (apply returns_bind; intros ?). apply returns_ret. reflexivity. }
  assert (E : forall (d : Z) (said : list event),
             result (k d (typed rest w)) = Ok P ->
             d = offset_of line ->
             said = (if (str_truthy line
                         && match py_int line with Some _ => false | None => true end)%bool
                     then [EPrint MsgInvalidInputDefault] else []) ->
             due_date_delta P = offset_of line
             /\ exists tail : list event,
                  EInput AskDueDateDelta :: said ++ events (k d (typed rest w))
                  = EInput AskDueDateDelta
                    :: (if (str_truthy line
                            && match py_int line with Some _ => false | None => true end)%bool
                        then [EPrint MsgInvalidInputDefault] else [])
                    ++ tail
                  /\ forallb not_offset_talk tail = true).
  { intros d said Hr Hd Hs. split.
    - rewrite <- Hd. exact (K2 d _ _ Hr).
    - exists (events (k d (typed rest w))). split; [now rewrite Hs | apply K1]. }
  unfold offset_of in *.
  destruct (str_truthy line) eqn:T; [destruct (py_int line) as [n|] eqn:Ep|].
  - rewrite bind_ret. intros Hr. apply (E n []); auto.
  - rewrite bind_assoc, bind_print, bind_ret. cbn [prepend result events].
    intros Hr. apply (E 0 [EPrint MsgInvalidInputDefault]); auto.
  - rewrite bind_ret. intros Hr. apply (E 0 []); auto.
Qed.

(** ** A service that answers nothing *)

Lemma input_run (p : prompt) (w : world) (line : string) :
  result (input p w) = Ok line ->
  requests (final (input p w)) = requests w
  /\ server (final (input p w)) = server w
  /\ events (input p w) = [EInput p].
Proof.
  unfold input. destruct (stdin w); [discriminate|]. intros _. repeat split.
Qed.

Lemma id_is_truthy (body v : json) : py_getitem body "id" = Ok v -> truthy body = true.
Proof.
  destruct body as [| | | | |[|[k x] kv]]; try discriminate. reflexivity.
Qed.

(** X18. When the service gives no usable answer, a run whose questions
    come to their end has no project id and no schedule: the failure to
    retrieve the schedules is reported and the question for a schedule is
    not asked.  Its payloads carry no project, and they are autoscheduled
    exactly when the operator asked for it. *)
Theorem no_schedule_without_service (workspace : json) (w : world) (P : run_params) :
  (forall k : nat, (requests w <= k)%nat -> truthy (answer (server w k)) = false) ->
  result (gather_params workspace w) = Ok P ->
  project_id P = JNull
  /\ selected_schedule P = JNull
  /\ forallb not_schedule_question (events (gather_params workspace w)) = true
  /\ In (EPrint MsgNoSchedules) (events (gather_params workspace w))
  /\ forall (td : json) (w' : world) (p : list (string * json)),
     result (build_payload P td w') = Ok p ->
     assoc "projectId" p = None
     /\ (assoc "autoScheduled" p <> None <-> use_autoschedule P = true).
Proof.
  intros Hs H. unfold gather_params in H |- *.
  apply bind_ok_inv in H. destruct H as (l1 & R1 & H & E1 & _).
  destruct (input_run _ _ _ R1) as (Q1 & S1 & V1).
  rewrite E1, V1. clear E1.
  set (w1 := final (input AskDueDateDelta w)) in *.
  apply bind_ok_inv in H. destruct H as (delta & R2 & H & E2 & _).
  assert (F2 : final ((if str_truthy l1
                       then match py_int l1 with
                            | Some n => ret n
                            | None => print MsgInvalidInputDefault ;;; ret 0
                            end
                       else ret 0) w1) = w1
               /\ forallb not_schedule_question
                    (events ((if str_truthy l1
                              then match py_int l1 with
                                   | Some n => ret n
                                   | None => print MsgInvalidInputDefault ;;; ret 0
                                   end
                              else ret 0) w1)) = true).
  { destruct (str_truthy l1); [destruct (py_int l1)|]; split; reflexivity. }
  destruct F2 as (F2 & G2).
  rewrite E2. rewrite F2 in *. clear E2.
  apply bind_ok_inv in H. destruct H as (a3 & R3 & H & E3 & _).
  destruct (input_run _ _ _ R3) as (Q3 & S3 & V3).
  rewrite E3, V3. clear E3.
  set (w3 := final (input AskNewProject w1)) in *.
  apply bind_ok_inv in H. destruct H as (pid & R4 & H & E4 & _).
  rewrite E4. clear E4.
  set (m4 := if String.eqb (str_lower a3) "y" then create_project workspace delta
             else ret JNull) in *.
  assert (F4 : pid = JNull
               /\ server (final (m4 w3)) = server w
               /\ (requests w <= requests (final (m4 w3)))%nat
               /\ forallb not_schedule_question (events (m4 w3)) = true).
  { subst m4. destruct (String.eqb (str_lower a3) "y").
    - destruct (steady_bind (ret tt) (fun _ => create_project workspace delta)
                  (steady_ret tt)
                  (fun _ => ltac:(unfold create_project; repeat steady_step)) w3)
        as (Sv & _).
      rewrite bind_ret in Sv.
      pose proof (create_project_posts workspace delta w3) as C. cbv zeta in C.
      assert (Ev : forallb not_schedule_question (events (create_project workspace delta w3))
                   = true).
      { assert (X : every not_schedule_question (create_project workspace delta))
          by (unfold create_project; repeat every_step).
        apply X. }
      destruct C as [(_ & _ & Rq & Hv)|(n & l & r & d & i & _ & _ & _ & _ & _ & _ & Rq & _ & _ & Hv)].
      + split; [exact (Hv _ R4)|]. split; [rewrite Sv, S3, S1; reflexivity|].
        split; [rewrite Rq, Q3, Q1; lia | exact Ev].
      + split.
        * destruct (Hv _ R4) as [->|(body & Hb & Hi)]; [reflexivity|].
          exfalso. pose proof (id_is_truthy _ _ Hi) as Tb.
          assert (Hq : (requests w <= requests w3)%nat) by (rewrite Q3, Q1; lia).
          pose proof (Hs _ Hq) as Fb. rewrite <- S1, <- S3, Hb in Fb. cbn in Fb. congruence.
        * split; [rewrite Sv, S3, S1; reflexivity|].
          split; [rewrite Rq, Q3, Q1; lia | exact Ev].
    - cbn in R4. injection R4 as <-. cbn. repeat split; [rewrite S3, S1; reflexivity|].
      rewrite Q3, Q1. lia. }
  destruct F4 as (-> & S4 & Q4 & G4).
  set (w4 := final (m4 w3)) in *.
  apply bind_ok_inv in H. destruct H as (a5 & R5 & H & E5 & _).
  destruct (input_run _ _ _ R5) as (Q5 & S5 & V5).
  rewrite E5, V5. clear E5.
  set (w5 := final (input AskAutoschedule w4)) in *.
  cbv zeta in H |- *.
  apply bind_ok_inv in H. destruct H as (schedules & R6 & H & E6 & _).
  rewrite E6. clear E6.
  assert (Hq5 : (requests w <= requests w5)%nat) by (rewrite Q5; exact Q4).
  assert (L : list_schedules w5
              = mkRun (Ok JNull) (served w5)
                  (EGet schedules_url None
                   :: match server w5 (requests w5) with
                      | Some _ => []
                      | None => [EPrint MsgErrorFetching]
                      end ++ [EPrint MsgNoSchedules])).
  { unfold list_schedules.
    assert (B : forall f : json -> M json,
               bind (get_data schedules_url None) f w5
               = prepend (EGet schedules_url None
                          :: match server w5 (requests w5) with
                             | Some _ => []
                             | None => [EPrint MsgErrorFetching]
                             end)
                   (f (answer (server w5 (requests w5))) (served w5))).
    { intros f. unfold bind. rewrite get_data_run. reflexivity. }
    rewrite B. pose proof (Hs _ Hq5) as Fb. rewrite <- S4, <- S5 in Fb. rewrite Fb.
    rewrite bind_print. reflexivity. }
  rewrite L in R6, H |- *. cbn [result final events] in R6, H |- *.
  injection R6 as <-. cbn [truthy] in H |- *.
  rewrite bind_ret in H. cbn [ret result] in H. injection H as <-.
  cbn [project_id selected_schedule use_autoschedule].
  split; [reflexivity|]. split; [reflexivity|].
  split; [|split].
  - rewrite bind_ret. cbn [ret events]. rewrite app_nil_r.
    cbn [app forallb not_schedule_question andb].
    rewrite forallb_app, G2. cbn [andb app forallb not_schedule_question].
    rewrite forallb_app, G4. cbn [andb app forallb not_schedule_question].
    rewrite forallb_app. destruct (server w5 (requests w5)); reflexivity.
  - rewrite bind_ret. cbn [ret events].
    repeat (rewrite in_app_iff || cbn [In]). auto 20.
  - intros td w' p Hp.
    destruct (build_payload_fields _ _ _ _ Hp)
      as (kv & due & name & wsid & priority & _ & _ & _ & _ & _ & _ & _ & _ & _ & _ & Hpi & Ha).
    cbn [project_id selected_schedule use_autoschedule truthy orb] in Hpi, Ha.
    split; [exact Hpi|]. cbv zeta in Ha. rewrite Ha.
    destruct (String.eqb (str_lower a5) "y"); split; congruence || discriminate.
Qed.

(** ** What a POST of the menu needs *)

Lemma keeps_directory_ret {A : Type} (a : A) : keeps_directory (io_ret a).
Proof. intros s. reflexivity. Qed.

Lemma keeps_directory_lift {A : Type} (r : outcome A) : keeps_directory (io_lift r).
Proof. intros s. reflexivity. Qed.

Lemma keeps_directory_say (m : menu_message) : keeps_directory (say m).
Proof. intros s. reflexivity. Qed.

Lemma keeps_directory_core {A : Type} (m : M A) : keeps_directory (core m).
Proof. intros s. reflexivity. Qed.

Lemma keeps_directory_bind {A B : Type} (m : IO A) (f : A -> IO B) :
  keeps_directory m -> (forall a, keeps_directory (f a)) -> keeps_directory (io_bind m f).
Proof.
  intros Hm Hf s. unfold io_bind.
  destruct (outcome_of (m s)) as [a|e]; cbn [io_prepend after].
  - rewrite (Hf a). apply Hm.
  - apply Hm.
Qed.

Lemma keeps_directory_say_items (mk : nat -> json -> json -> menu_message)
    (items : list json) :
  forall i : nat, keeps_directory (say_items mk i items).
Proof.
  induction items as [|item rest IH]; intros i; cbn [say_items].
  - apply keeps_directory_ret.
  - apply keeps_directory_bind; [apply keeps_directory_lift|intros name].
    apply keeps_directory_bind; [apply keeps_directory_lift|intros id].
    apply keeps_directory_bind; [apply keeps_directory_say|intros _]. apply IH.
Qed.

Lemma keeps_directory_select_item (p : menu_prompt) (items : json) (count : nat) :
  keeps_directory (select_item p items count).
Proof.
  intros s. unfold select_item.
  destruct (choose_item p items count (stdin (base s))) as [[r rest] acts]. reflexivity.
Qed.

Lemma keeps_directory_list_resource (L : listing) : keeps_directory (list_resource L).
Proof.
  unfold list_resource.
  apply keeps_directory_bind; [apply keeps_directory_core|intros data].
  apply keeps_directory_bind; [apply keeps_directory_lift|intros [|]].
  - apply keeps_directory_bind; [apply keeps_directory_say|intros _].
    apply keeps_directory_ret.
  - apply keeps_directory_bind; [apply keeps_directory_lift|intros found].
    destruct (negb (truthy found)).
    + apply keeps_directory_bind; [apply keeps_directory_say|intros _].
      apply keeps_directory_ret.
    + apply keeps_directory_bind; [apply keeps_directory_say|intros _].
      apply keeps_directory_bind; [apply keeps_directory_lift|intros items].
      apply keeps_directory_bind; [apply keeps_directory_say_items|intros _].
      apply keeps_directory_select_item.
Qed.

Lemma posting_tail (a b : list action) :
  forallb read_only (a ++ b) = false ->
  forallb read_only a = true ->
  forallb read_only b = false.
Proof. rewrite forallb_app. intros H Ha. rewrite Ha in H. exact H. Qed.

(** Choice 2 after the workspace posts only when a file was chosen: the
    directory can be listed, and the first answer to the file question
    that is not asked again is the number of one of its [.json] files. *)
Lemma create_from_template_posts (workspace : json) (s : session) :
  forallb read_only (trace (create_from_template workspace s)) = false ->
  exists (names : list string) (filename line : string) (i : nat)
         (skipped more : list string),
    directory s = DirHolds names
    /\ stdin (base s) = skipped ++ line :: more
    /\ forallb (asked_again (List.length (filter (ends_with ".json") names))) skipped
       = true
    /\ py_int line = Some (Z.of_nat i + 1)
    /\ nth_error (filter (ends_with ".json") names) i = Some filename.
Proof.
  unfold create_from_template. rewrite io_bind_trace. intros H.
  apply posting_tail in H; [|apply harmless_list_template_files].
  assert (L : (exists files,
                 outcome_of (list_template_files s) = Ok files
                 /\ after (list_template_files s) = s
                 /\ (files <> [] ->
                     exists names, directory s = DirHolds names
                                   /\ files = filter (ends_with ".json") names))
              \/ exists e, outcome_of (list_template_files s) = Raise e).
  { unfold list_template_files. destruct (directory s) as [|names|e].
    - left. exists []. split; [reflexivity|]. split; [reflexivity|].
      intros N. now elim N.
    - left. eexists. split; [reflexivity|]. split; [reflexivity|].
      intros _. now exists names.
    - right. now exists e. }
  destruct L as [(files & L1 & L2 & L3)|(e & L1)]; [|rewrite L1 in H; discriminate H].
  rewrite L1, L2 in H.
  rewrite io_bind_trace in H.
  apply posting_tail in H; [|apply harmless_get_template_filename].
  destruct files as [|f files].
  { cbn in H.
    rewrite (harmless_pull workspace (say MsgNoProjectGiven) (harmless_say _) s) in H.
    discriminate H. }
  destruct (L3 ltac:(discriminate)) as (names & Hd & Hf).
  revert H. unfold get_template_filename_from_user.
  rewrite io_bind_say. cbn [io_prepend outcome_of after].
  destruct (say_files_run (f :: files) 0%nat s) as [O A].
  rewrite (io_bind_ok _ _ _ _ O), A. cbn [io_prepend outcome_of after].
  pose proof (choose_file_typed (f :: files) (stdin (base s))) as C.
  destruct (choose_file (f :: files) (stdin (base s))) as [[r rest] acts].
  cbn [outcome_of after fst] in *.
  destruct r as [[x|]|e].
  - intros _. destruct C as (sk & line & i & I & F & Q & N).
    exists names, x, line, i, sk, rest. rewrite <- Hf. auto.
  - rewrite io_bind_trace. cbn [say trace outcome_of after app forallb read_only andb].
    intros H.
    rewrite (harmless_pull workspace (say MsgNoProjectGiven) (harmless_say _)) in H.
    discriminate H.
  - discriminate.
Qed.

(** X19. Whatever the operator types, a turn of the menu sends a POST only
    if choice 2 was typed, a workspace was chosen, the template directory
    can be listed, and the first answer to the question for a template
    file that is not asked again is a line from which the runtime reads
    the number of a [.json] file of the directory. *)
Theorem posts_need_a_listed_template (s : session) :
  forallb read_only (trace (menu_turn s)) = false ->
  exists (rest names : list string) (filename line : string) (i : nat)
         (ws : json) (skipped more : list string),
    stdin (base s) = "2" :: rest
    /\ outcome_of (list_workspaces (with_base (typed rest (base s)) s)) = Ok ws
    /\ truthy ws = true
    /\ stdin (base (after (list_workspaces (with_base (typed rest (base s)) s))))
       = skipped ++ line :: more
    /\ forallb (asked_again (List.length (filter (ends_with ".json") names))) skipped
       = true
    /\ directory s = DirHolds names
    /\ In filename names
    /\ ends_with ".json" filename = true
    /\ py_int line = Some (Z.of_nat i + 1)
    /\ nth_error (filter (ends_with ".json") names) i = Some filename.
Proof.
  unfold menu_turn. rewrite !io_bind_say.
  cbn [io_prepend trace app forallb read_only andb].
  rewrite io_bind_trace. intros H.
  apply posting_tail in H; [|apply harmless_ask].
  unfold ask in H. destruct (stdin (base s)) as [|choice rest] eqn:Hin.
  { discriminate H. }
  cbn [outcome_of after] in H.
  destruct (String.eqb choice "1").
  { rewrite (harmless_bind list_workspaces) in H; [discriminate H| |].
    - apply harmless_list_resource.
    - intros ws. apply harmless_bind; [|intros; apply harmless_ret].
      destruct (truthy ws); [apply harmless_pull, harmless_ret | apply harmless_ret]. }
  destruct (String.eqb_spec choice "2") as [->|_].
  2:{ destruct (String.eqb choice "3"); discriminate H. }
  set (s1 := with_base (typed rest (base s)) s) in H.
  rewrite io_bind_trace in H.
  apply posting_tail in H; [|apply harmless_list_resource].
  pose proof (keeps_directory_list_resource
                (mkListing workspaces_url None "workspaces" MsgNoWorkspacesData
                   MsgNoWorkspaces MsgAvailableWorkspaces MsgWorkspaceItem AskWorkspace)
                s1) as D.
  destruct (io_consuming_list_resource
              (mkListing workspaces_url None "workspaces" MsgNoWorkspacesData
                 MsgNoWorkspaces MsgAvailableWorkspaces MsgWorkspaceItem AskWorkspace)
              s1) as (taken & T).
  fold list_workspaces in D, T.
  destruct (outcome_of (list_workspaces s1)) as [ws|e] eqn:Ows; [|discriminate H].
  rewrite io_bind_trace in H.
  destruct (truthy ws) eqn:Tws.
  2:{ discriminate H. }
  assert (P : forallb read_only (trace (create_from_template ws (after (list_workspaces s1))))
              = false).
  { destruct (forallb read_only
                (trace (create_from_template ws (after (list_workspaces s1))))) eqn:E;
      [|reflexivity].
    rewrite forallb_app, E in H.
    destruct (outcome_of (create_from_template ws (after (list_workspaces s1))));
      discriminate H. }
  destruct (create_from_template_posts _ _ P)
    as (names & f & line & i & sk & more & Hd & I & Sk & Q & N).
  exists rest, names, f, line, i, ws, sk, more.
  split; [reflexivity|]. split; [exact Ows|]. split; [exact Tws|].
  split; [exact I|]. split; [exact Sk|].
  split; [rewrite <- Hd, D; reflexivity|].
  pose proof (nth_error_In _ _ N) as F. apply filter_In in F. destruct F as [F1 F2].
  split; [exact F1|]. split; [exact F2|].
  split; [exact Q | exact N].
Qed.

End WithRuntime.


(* ================================================================== *)
(** * Part IV: the sample runs *)
(* ================================================================== *)

(** The sample runs are computed with the runtime of Part I. *)
#[local] Existing Instance plain_runtime.

(** The fallback constant is a date in UTC. *)
Lemma fallback_parses :
  due_parse FALLBACK_DUE_DATE = Some (mkDatetime 2024 12 31 23 59 59 0 (Some 0)).
Proof. reflexivity. Qed.

Lemma sample_clock_monotone (lines : list string) :
  monotone_clock (sample_world lines).
Proof.
  intros a b Hab. unfold datetime_leb, naive_key, sample_world, sample_clock.
  cbn [clock year month day hour minute second microsecond lex_leb].
  rewrite !Z.ltb_irrefl.
  destruct (Z.ltb_spec (Z.min (Z.of_nat a) 59) (Z.min (Z.of_nat b) 59)); [reflexivity|].
  destruct (Z.ltb_spec (Z.min (Z.of_nat b) 59) (Z.min (Z.of_nat a) 59));
    [lia | reflexivity].
Qed.

Lemma sample_clock_well_formed (k : nat) : well_formed (sample_clock k) = true.
Proof.
  unfold well_formed, sample_clock, valid_time.
  cbn [year month day hour minute second microsecond tzinfo].
  replace (valid_date 2026 11 3) with true by reflexivity.
  replace (0 <=? Z.min (Z.of_nat k) 59) with true by (symmetry; apply Z.leb_le; lia).
  replace (Z.min (Z.of_nat k) 59 <? 60) with true by (symmetry; apply Z.ltb_lt; lia).
  reflexivity.
Qed.

(** ** The dispatch loop *)







(** ** Templates without tasks *)



(** ** A task spec without a name *)

(** C2 fails on the code.  On a template whose only task has no [name],
    with the guard passed and the questions answered, the run ends in
    [KeyError('name')]: nothing was submitted and no summary is printed. *)
Theorem missing_name_aborts_run :
  invalid_template nameless_template = Ok false
  /\ result (create_tasks_from_template sample_workspace nameless_template
               (sample_world [""; "n"; "n"; ""]))
     = Raise (KeyError (JStr "name"))
  /\ events (create_tasks_from_template sample_workspace nameless_template
               (sample_world [""; "n"; "n"; ""]))
     = [EInput AskDueDateDelta; EInput AskNewProject; EInput AskAutoschedule;
        EGet "https://api.usemotion.com/v1/schedules" None;
        EPrint MsgAvailableSchedules;
        EPrint (MsgScheduleItem 1 (JStr "Evenings"));
        EInput AskSchedule; EPrint MsgNoScheduleSelected;
        EPrint (MsgCreatingTask 1 1)].
Proof.
  split; [reflexivity|]. split; vm_compute; reflexivity.
Qed.

(** A task without a due date comes from the service with a null
    [dueDate]; [generate_task_template] stores the null, and the replay of
    the template it wrote ends in [AttributeError]. *)
Lemma null_due_date_aborts_run :
  generate_task_template sample_workspace
    [JObj [("name", JStr "Plan"); ("dueDate", JNull); ("priority", JStr "HIGH")]]
  = Ok (JObj [("tasks",
               JList [JObj [("name", JStr "Plan"); ("workspaceId", JStr "ws-1");
                            ("dueDate", JNull); ("duration", JNum 30);
                            ("priority", JStr "HIGH")]])])
  /\ result
       (create_tasks_from_template sample_workspace
          (JObj [("tasks",
                  JList [JObj [("name", JStr "Plan"); ("workspaceId", JStr "ws-1");
                               ("dueDate", JNull); ("duration", JNum 30);
                               ("priority", JStr "HIGH")]])])
          (sample_world [""; "n"; "n"; ""]))
     = Raise AttributeError.
Proof. split; vm_compute; reflexivity. Qed.

(** ** Due dates *)






(** ** Schedules and workspaces *)

(** The sample payload, built with the flag alone, names "Work Hours". *)
Lemma auto_schedule_rule_witness :
  (assoc "autoScheduled" sample_payload <> None
   <-> truthy (selected_schedule sample_params) = true
       \/ use_autoschedule sample_params = true)
  /\ schedule_of sample_payload = Some (JStr "Work Hours").
Proof.
  destruct (proj1 (proj2 (auto_schedule_rule (rt := plain_runtime) sample_params
                            (JObj (sample_spec "2024-12-31T23:59:59Z"))
                            (sample_world [])))
              sample_payload) as (H1 & _ & H3 & _).
  - vm_compute. reflexivity.
  - split; [exact H1 | apply H3; reflexivity].
Defined.

(** The sample payload names the workspace of the run. *)
Lemma workspace_retargeted_witness :
  exists run_id : json,
    py_getitem (workspace sample_params) "id" = Ok run_id
    /\ assoc "workspaceId" sample_payload = Some run_id.
Proof.
  apply (proj1 (proj2 (workspace_retargeted (rt := plain_runtime) sample_params
                         (JObj (sample_spec "2024-12-31T23:59:59Z"))
                         (sample_world [])))
           sample_payload).
  vm_compute. reflexivity.
Defined.

(** ** The rest of the program at the sample inputs *)

Lemma create_project_priority_witness :
  exists (name line : string) (rest : list string) (kv : list (string * json))
         (pr : string),
    stdin naming_world = name :: line :: rest
    /\ launch_payload = JObj kv
    /\ assoc "name" kv = Some (JStr name)
    /\ assoc "priority" kv = Some (JStr pr)
    /\ In pr PRIORITIES
    /\ (line <> "" -> In (str_upper line) PRIORITIES -> pr = str_upper line)
    /\ (line = "" \/ ~ In (str_upper line) PRIORITIES -> pr = "MEDIUM").
Proof.
  apply (create_project_priority (rt := plain_runtime) sample_workspace 3 naming_world launch_payload).
  vm_compute. left. reflexivity.
Defined.

Lemma create_project_due_date_witness :
  exists (kv : list (string * json)) (due : datetime),
    launch_payload = JObj kv
    /\ assoc "dueDate" kv = Some (JStr (isoformat_local due))
    /\ tzinfo due = None
    /\ ends_with "Z" (isoformat_local due) = false
    /\ (3 = 0 ->
        due = as_naive (clock naming_world (ticks naming_world))
        /\ ticks (final (create_project sample_workspace 3 naming_world))
           = S (ticks naming_world))
    /\ (3 <> 0 ->
        add_days (as_naive (clock naming_world (S (ticks naming_world)))) 3 = Ok due
        /\ ticks (final (create_project sample_workspace 3 naming_world))
           = S (S (ticks naming_world))).
Proof.
  apply (create_project_due_date (rt := plain_runtime) sample_workspace 3 naming_world launch_payload).
  vm_compute. left. reflexivity.
Defined.


Lemma no_schedule_without_service_witness :
  project_id (mkParams sample_workspace 0 JNull JNull true) = JNull
  /\ selected_schedule (mkParams sample_workspace 0 JNull JNull true) = JNull
  /\ forallb not_schedule_question (events (gather_params sample_workspace offline_world))
     = true
  /\ In (EPrint MsgNoSchedules) (events (gather_params sample_workspace offline_world))
  /\ forall (td : json) (w' : world) (p : list (string * json)),
     result (build_payload (mkParams sample_workspace 0 JNull JNull true) td w') = Ok p ->
     assoc "projectId" p = None
     /\ (assoc "autoScheduled" p <> None
         <-> use_autoschedule (mkParams sample_workspace 0 JNull JNull true) = true).
Proof.
  apply (no_schedule_without_service (rt := plain_runtime) sample_workspace offline_world
           (mkParams sample_workspace 0 JNull JNull true)).
  - intros k _. reflexivity.
  - reflexivity.
Defined.


Lemma run_report_witness :
  exists (tasks : list json) (s f : Z) (before : list event),
    tasks_of sample_template = Ok tasks
    /\ events (create_tasks_from_template sample_workspace sample_template
                 (sample_world sample_lines))
       = before ++ [EPrint (MsgSummary s (List.length tasks) f)]
    /\ progress (events (create_tasks_from_template sample_workspace sample_template
                           (sample_world sample_lines)))
       = map (fun j => (S j, List.length tasks)) (seq 0 (List.length tasks))
    /\ payloads_shown (events (create_tasks_from_template sample_workspace sample_template
                                 (sample_world sample_lines)))
       = failed_of (server (sample_world sample_lines))
           (requests (final (gather_params sample_workspace (sample_world sample_lines))))
           (task_posts (events (create_tasks_from_template sample_workspace sample_template
                                  (sample_world sample_lines))))
    /\ Z.of_nat (List.length
                   (payloads_shown (events (create_tasks_from_template sample_workspace
                                              sample_template (sample_world sample_lines)))))
       = f.
Proof.
  apply (run_report (rt := plain_runtime) sample_workspace sample_template (sample_world sample_lines)).
  - reflexivity.
  - vm_compute. reflexivity.
Defined.

Lemma template_file_named_witness :
  ends_with ".json" pulled_filename = true
  /\ all_chars not_space pulled_filename = true
  /\ (exists items : list json,
        py_iter (JList pulled_tasks) = Ok items
        /\ generate_task_template home_workspace items = Ok pulled_template)
  /\ (exists wname pname : string,
        name_part home_workspace = Ok wname /\ name_part spring_project = Ok pname
        /\ pulled_filename
           = wname +++ "." +++ pname +++ "."
             +++ strftime_stamp
                   (as_naive (local_clock (sample_session [] pull_server)
                                (local_ticks (sample_session [] pull_server))))
             +++ ".json")
  /\ files_written
       (trace (generate_task_template_file home_workspace spring_project
                 (JList pulled_tasks) (sample_session [] pull_server)))
     = [(pulled_filename, pulled_template)].
Proof.
  apply (template_file_named home_workspace spring_project (JList pulled_tasks)
           (sample_session [] pull_server) pulled_filename pulled_template).
  vm_compute. left. reflexivity.
Defined.

(** The offset of the sample run is the 3 the operator typed. *)
Lemma offset_typed_witness :
  stdin (sample_world sample_lines) = "3" :: ["n"; "y"; "0"]
  /\ result (gather_params sample_workspace (sample_world sample_lines))
     = Ok sample_params
  /\ offset_of "3" = 3
  /\ due_date_delta sample_params = offset_of "3"
  /\ exists tail : list event,
       events (gather_params sample_workspace (sample_world sample_lines))
       = EInput AskDueDateDelta
         :: (if (str_truthy "3"
                 && match py_int "3" with Some _ => false | None => true end)%bool
             then [EPrint MsgInvalidInputDefault] else [])
         ++ tail
       /\ forallb not_offset_talk tail = true.
Proof.
  assert (G : result (gather_params sample_workspace (sample_world sample_lines))
              = Ok sample_params) by (vm_compute; reflexivity).
  destruct (offset_typed (rt := plain_runtime) sample_workspace
              (sample_world sample_lines) "3" ["n"; "y"; "0"] sample_params
              eq_refl G) as [H1 H2].
  split; [reflexivity|]. split; [exact G|]. split; [reflexivity|].
  split; [exact H1 | exact H2].
Defined.

(** In the sample session a template is replayed, which posts: the
    operator typed 2, chose the first workspace, and answered the
    question for a template file with the number of [plan.json]. *)
Lemma posts_need_a_listed_template_witness :
  forallb read_only (trace (menu_turn replay_session)) = false
  /\ exists (rest names : list string) (filename line : string) (i : nat)
            (ws : json) (skipped more : list string),
       stdin (base replay_session) = "2" :: rest
       /\ outcome_of (list_workspaces (with_base (typed rest (base replay_session))
                                         replay_session))
          = Ok ws
       /\ truthy ws = true
       /\ stdin (base (after (list_workspaces
                                (with_base (typed rest (base replay_session))
                                   replay_session))))
          = skipped ++ line :: more
       /\ forallb (asked_again (List.length (filter (ends_with ".json") names))) skipped
          = true
       /\ directory replay_session = DirHolds names
       /\ In filename names
       /\ ends_with ".json" filename = true
       /\ py_int line = Some (Z.of_nat i + 1)
       /\ nth_error (filter (ends_with ".json") names) i = Some filename.
Proof.
  assert (H : forallb read_only (trace (menu_turn replay_session)) = false)
    by (vm_compute; reflexivity).
  split; [exact H|].
  exact (posts_need_a_listed_template (rt := plain_runtime) replay_session H).
Defined.
